(** * DPS-150 driver: packet codec, stream framer and device session

    A shallow embedding of [dps150/protocol.py], [dps150/models.py] and
    [dps150/device.py] (with the parts of [dps150/transport.py] and
    [dps150/constants.py] they rely on), followed by the properties of the
    driver that are checked against it.

    Conventions.
    - A Python [int] is a [Z]; a [bytes] or [bytearray] object is a
      [list Z] whose elements satisfy [is_byte].
    - A Python [float] is a [spec_float], an IEEE-754 value without NaN
      payload; [struct.pack] and [struct.unpack] with format ["<f"] are
      the rounding to binary32 and the reading of a binary32 bit pattern.
    - A Python [dict] with string keys is a [gmap string pyval].
    - A raised exception is the [Raise] constructor of [result]; only the
      exception class is kept, never the message.
    - A [while] loop runs on fuel; that the fuel given suffices is proved.
    - [asyncio] sleeps and locks do not change what is written or in
      which order, and are left out. *)

From Stdlib Require Import ZArith Lia Bool SpecFloat.
From stdpp Require Import gmap strings list fin_maps.

Local Open Scope Z_scope.

(* ===================================================================== *)
(** * Exceptions ([dps150/exceptions.py] and the built-in ones raised)    *)
(* ===================================================================== *)

Inductive exn : Set :=
| DPS150ConnectionError
| DPS150ProtocolError
| ValueError
| IndexError
| OverflowError.

Global Instance exn_eq_dec : EqDecision exn.
Proof. solve_decision. Defined.

Inductive result (A : Type) : Type :=
| Ok (a : A)
| Raise (e : exn).
Arguments Ok {A} a.
Arguments Raise {A} e.

Global Instance result_ret : MRet result := fun A a => Ok a.
Global Instance result_fmap : FMap result := fun A B f m =>
  match m with
  | Ok a => Ok (f a)
  | Raise e => Raise e
  end.
Global Instance result_bind : MBind result := fun A B f m =>
  match m with
  | Ok a => f a
  | Raise e => Raise e
  end.

(** The specification's error taxonomy, as the code realises it:
    a malformed frame is a [DPS150ProtocolError], a value outside its
    domain is a built-in [ValueError]. *)
Definition ProtocolError : exn := DPS150ProtocolError.
Definition InvalidArgument : exn := ValueError.
Definition ConnectionError : exn := DPS150ConnectionError.

(* ===================================================================== *)
(** * Byte strings                                                        *)
(* ===================================================================== *)

Definition is_byte (b : Z) : Prop := 0 <= b < 256.
Definition is_bytes (bs : list Z) : Prop := Forall is_byte bs.

Definition in_byte_range (x : Z) : bool := (0 <=? x) && (x <? 256).

Definition len (bs : list Z) : Z := Z.of_nat (length bs).

(** [l[i]] on a sequence: a negative index counts from the end, an index
    out of range raises [IndexError]. *)
Definition getitem {A : Type} (l : list A) (i : Z) : result A :=
  let j := if i <? 0 then Z.of_nat (length l) + i else i in
  if j <? 0 then Raise IndexError
  else match l !! Z.to_nat j with
       | Some x => Ok x
       | None => Raise IndexError
       end.

(** [bs[lo:hi]] for [0 <= lo <= hi]: a slice never raises, it is clipped
    to the bytes that exist. *)
Definition slice (bs : list Z) (lo hi : Z) : list Z :=
  take (Z.to_nat (hi - lo)) (drop (Z.to_nat lo) bs).

(** [bytearray.append(x)] and [bytes([x])] raise [ValueError] unless
    [x] is in [range(256)]. *)
Definition bytearray_append (packet : list Z) (x : Z) : result (list Z) :=
  if in_byte_range x then Ok (packet ++ [x]) else Raise ValueError.

Definition bytes_of_int (x : Z) : result (list Z) :=
  if in_byte_range x then Ok [x] else Raise ValueError.

(* ===================================================================== *)
(** * Constants ([dps150/constants.py])                                   *)
(* ===================================================================== *)

Module Constants.
Definition HEADER_INPUT : Z := 0xF0.
Definition HEADER_OUTPUT : Z := 0xF1.

Definition CMD_GET : Z := 0xA1.
Definition CMD_XXX_176 : Z := 0xB0.
Definition CMD_SET : Z := 0xB1.
Definition CMD_XXX_192 : Z := 0xC0.
Definition CMD_XXX_193 : Z := 0xC1.

Definition VOLTAGE_SET : Z := 193.
Definition CURRENT_SET : Z := 194.

Definition GROUP1_VOLTAGE_SET : Z := 197.
Definition GROUP1_CURRENT_SET : Z := 198.

Definition OVP : Z := 209.
Definition OCP : Z := 210.
Definition OPP : Z := 211.
Definition OTP : Z := 212.
Definition LVP : Z := 213.

Definition BRIGHTNESS : Z := 214.
Definition VOLUME : Z := 215.

Definition METERING_ENABLE : Z := 216.
Definition OUTPUT_ENABLE : Z := 219.

Definition INPUT_VOLTAGE : Z := 192.
Definition OUTPUT_VOLTAGE_CURRENT_POWER : Z := 195.
Definition TEMPERATURE : Z := 196.
Definition OUTPUT_CAPACITY : Z := 217.
Definition OUTPUT_ENERGY : Z := 218.
Definition PROTECTION_STATE : Z := 220.
Definition MODE : Z := 221.
Definition MODEL_NAME : Z := 222.
Definition HARDWARE_VERSION : Z := 223.
Definition FIRMWARE_VERSION : Z := 224.
Definition UPPER_LIMIT_VOLTAGE : Z := 226.
Definition UPPER_LIMIT_CURRENT : Z := 227.

Definition ALL : Z := 255.

Definition PROTECTION_STATES : list string :=
  [""; "OVP"; "OCP"; "OPP"; "OTP"; "LVP"; "REP"]%string.

Definition BAUD_RATE_OPTIONS : list Z := [9600; 19200; 38400; 57600; 115200].
End Constants.
Import Constants.

(* ===================================================================== *)
(** * [struct.pack("<f", x)] and [struct.unpack("<f", b)]                 *)
(* ===================================================================== *)

Module Struct.
(** binary32: 24 bits of precision, infinities at exponent 128. *)
Definition prec32 : Z := 24.
Definition emax32 : Z := 128.

(** The four bytes of a 32-bit word, least significant first. *)
Definition le_split (w : Z) : list Z :=
  [w mod 256; (w / 256) mod 256; (w / 65536) mod 256; (w / 16777216) mod 256].

Definition le_combine (bs : list Z) : Z :=
  foldr (fun b acc => b + 256 * acc) 0 bs.

Definition sign_bit (s : bool) : Z := if s then 2 ^ 31 else 0.

(** The binary32 bit pattern of a value that is already a binary32. *)
Definition bits_of_b32 (x : spec_float) : Z :=
  match x with
  | S754_zero s => sign_bit s
  | S754_infinity s => sign_bit s + 255 * 2 ^ 23
  | S754_nan => 255 * 2 ^ 23 + 2 ^ 22
  | S754_finite s m e =>
      if Z.pos m <? 2 ^ 23
      then sign_bit s + Z.pos m
      else sign_bit s + (e + 150) * 2 ^ 23 + (Z.pos m - 2 ^ 23)
  end.

Definition b32_of_bits (w : Z) : spec_float :=
  let s := Z.testbit w 31 in
  let e := (w / 2 ^ 23) mod 256 in
  let m := w mod 2 ^ 23 in
  if e =? 0 then
    match m with
    | Z.pos p => S754_finite s p (-149)
    | _ => S754_zero s
    end
  else if e =? 255 then
    (if m =? 0 then S754_infinity s else S754_nan)
  else
    match m + 2 ^ 23 with
    | Z.pos p => S754_finite s p (e - 150)
    | _ => S754_nan
    end.

(** [struct.pack("<f", x)]: round to the nearest binary32, ties to even;
    a finite value that rounds to an infinity raises [OverflowError].
    [S754_nan] stands for the one quiet NaN 7FC00000: a NaN of Python has
    a sign and a payload, which [struct.pack] keeps and [spec_float] does
    not have, so what is proved of the bytes of a float is proved of the
    floats that are no NaN. *)
Definition pack_f (x : spec_float) : result (list Z) :=
  match x with
  | S754_finite s m e =>
      match binary_round prec32 emax32 s m e with
      | S754_infinity _ => Raise OverflowError
      | r => Ok (le_split (bits_of_b32 r))
      end
  | _ => Ok (le_split (bits_of_b32 x))
  end.

(** [struct.unpack("<f", b)[0]] for a [b] of exactly four bytes. *)
Definition unpack_f (b : list Z) : spec_float := b32_of_bits (le_combine b).
End Struct.

(* ===================================================================== *)
(** * Protocol layer ([dps150/protocol.py])                               *)
(* ===================================================================== *)

Module Protocol.

Definition float_to_bytes (value : spec_float) : result (list Z) :=
  Struct.pack_f value.

Definition bytes_to_float (data : list Z) : result spec_float :=
  if len data <? 4 then Raise DPS150ProtocolError
  else Ok (Struct.unpack_f (slice data 0 4)).

(** [header] and [command] are parameters of the source function that
    its body never reads. *)
Definition calculate_checksum (header command type_code : Z) (data : list Z) : Z :=
  let length := len data in
  let checksum := type_code + length in
  let checksum := fold_left (fun checksum byte => checksum + byte) data checksum in
  checksum mod 256.

Definition encode_packet (command type_code : Z) (data : list Z) : result (list Z) :=
  let length := len data in
  packet ← bytearray_append [] HEADER_OUTPUT;
  packet ← bytearray_append packet command;
  packet ← bytearray_append packet type_code;
  packet ← bytearray_append packet length;
  let packet := packet ++ data in
  let checksum := calculate_checksum HEADER_OUTPUT command type_code data in
  packet ← bytearray_append packet checksum;
  mret packet.

Definition encode_float_packet (command type_code : Z) (value : spec_float)
  : result (list Z) :=
  data ← float_to_bytes value;
  encode_packet command type_code data.

Definition encode_byte_packet (command type_code value : Z) : result (list Z) :=
  if negb ((0 <=? value) && (value <=? 255)) then Raise ValueError
  else
    data ← bytes_of_int value;
    encode_packet command type_code data.

Definition decode_packet (packet : list Z) : result (Z * Z * Z * list Z) :=
  if len packet <? 5 then Raise DPS150ProtocolError
  else
    header ← getitem packet 0;
    if negb (header =? HEADER_INPUT) then Raise DPS150ProtocolError
    else
      command ← getitem packet 1;
      type_code ← getitem packet 2;
      length ← getitem packet 3;
      let expected_length := 5 + length in
      if len packet <? expected_length then Raise DPS150ProtocolError
      else
        let data := slice packet 4 (4 + length) in
        checksum ← getitem packet (4 + length);
        let calculated_checksum :=
          calculate_checksum HEADER_INPUT command type_code data in
        if negb (checksum =? calculated_checksum) then Raise DPS150ProtocolError
        else mret (command, type_code, length, data).


(** ** [PacketBuffer] *)

Record PacketBuffer : Type := { buffer : list Z }.

(** [PacketBuffer.__init__] *)
Definition PacketBuffer_init : PacketBuffer := {| buffer := [] |}.

Definition append (data : list Z) (self : PacketBuffer) : PacketBuffer :=
  {| buffer := buffer self ++ data |}.

Definition clear (self : PacketBuffer) : PacketBuffer := {| buffer := [] |}.

(** One evaluation of the [while] condition of [extract_packets] and, when
    it holds, of the loop body: either the loop goes on with a new index
    and packet list, or it is left ([break], or the condition is false). *)
Inductive loop_step : Type :=
| Continue (i : Z) (packets : list (list Z))
| Leave (i : Z) (packets : list (list Z)).

Definition extract_step (buffer : list Z) (i : Z) (packets : list (list Z))
  : result loop_step :=
  if i <? len buffer - 5 then
    b ← getitem buffer i;
    if b =? HEADER_INPUT then
      if i + 3 >=? len buffer then mret (Leave i packets)
      else
        length ← getitem buffer (i + 3);
        let packet_length := 5 + length in
        if i + packet_length >? len buffer then mret (Leave i packets)
        else
          let packet := slice buffer i (i + packet_length) in
          mret (Continue (i + packet_length) (packets ++ [packet]))
    else mret (Continue (i + 1) packets)
  else mret (Leave i packets).

(** The [while] loop, run for at most [fuel] evaluations of its condition;
    [None] when they do not suffice. *)
Fixpoint extract_loop (fuel : nat) (buffer : list Z) (i : Z)
  (packets : list (list Z)) : option (result (list (list Z) * Z)) :=
  match fuel with
  | O => None
  | S fuel =>
      match extract_step buffer i packets with
      | Raise e => Some (Raise e)
      | Ok (Leave i packets) => Some (Ok (packets, i))
      | Ok (Continue i packets) => extract_loop fuel buffer i packets
      end
  end.

(** The scan of [extract_packets]: the packets found and the index [i] at
    which the loop was left. On a byte string the index grows with every
    turn, so one more turn than there are bytes is always enough. *)
Definition scan (buffer : list Z) : option (result (list (list Z) * Z)) :=
  extract_loop (S (length buffer)) buffer 0 [].

(** [extract_packets] returns the packets and leaves the buffer updated. *)
Definition extract_packets (self : PacketBuffer)
  : option (result (list (list Z) * PacketBuffer)) :=
  match scan (buffer self) with
  | None => None
  | Some (Raise e) => Some (Raise e)
  | Some (Ok (packets, i)) =>
      let self :=
        match packets with
        | [] => self
        | _ :: _ => {| buffer := drop (Z.to_nat i) (buffer self) |}
        end in
      Some (Ok (packets, self))
  end.

End Protocol.

(* ===================================================================== *)
(** * Data models ([dps150/models.py])                                    *)
(* ===================================================================== *)

(** The values that parsed packet data carries: a dataclass does not check
    the declared type of a field on assignment, so a field holds whatever
    value the update dictionary has under its key. *)
Inductive pyval : Type :=
| PFloat (x : spec_float)
| PInt (n : Z)
| PBool (b : bool)
| PStr (s : string).

Module Models.

Inductive ProtectionState : Set :=
| NORMAL | OVP | OCP | OPP | OTP | LVP | REP.

(** [ProtectionState.<member>.value] *)
Definition ProtectionState_value (state : ProtectionState) : string :=
  match state with
  | NORMAL => ""
  | OVP => "OVP"
  | OCP => "OCP"
  | OPP => "OPP"
  | OTP => "OTP"
  | LVP => "LVP"
  | REP => "REP"
  end.

(** [state.value == value]: a string equals only an equal string. *)
Definition value_eq_str (value : pyval) (s : string) : bool :=
  match value with
  | PStr v => String.eqb s v
  | _ => false
  end.

(** [ProtectionState.from_string]: the first member, in definition order,
    whose value equals the argument; [NORMAL] when there is none. *)
Definition from_string (value : pyval) : ProtectionState :=
  let fix search (members : list ProtectionState) : ProtectionState :=
    match members with
    | [] => NORMAL
    | state :: members =>
        if value_eq_str value (ProtectionState_value state) then state
        else search members
    end in
  search [NORMAL; OVP; OCP; OPP; OTP; LVP; REP].

Inductive Mode : Set := CC | CV.

Record DeviceInfo : Type := {
  model_name : pyval;
  hardware_version : pyval;
  firmware_version : pyval
}.

Definition DeviceInfo_init : DeviceInfo :=
  {| model_name := PStr ""; hardware_version := PStr ""; firmware_version := PStr "" |}.

Record DeviceState : Type := {
  input_voltage : pyval;
  output_voltage : pyval;
  output_current : pyval;
  output_power : pyval;
  temperature : pyval;
  set_voltage : pyval;
  set_current : pyval;
  group1_set_voltage : pyval;
  group1_set_current : pyval;
  group2_set_voltage : pyval;
  group2_set_current : pyval;
  group3_set_voltage : pyval;
  group3_set_current : pyval;
  group4_set_voltage : pyval;
  group4_set_current : pyval;
  group5_set_voltage : pyval;
  group5_set_current : pyval;
  group6_set_voltage : pyval;
  group6_set_current : pyval;
  over_voltage_protection : pyval;
  over_current_protection : pyval;
  over_power_protection : pyval;
  over_temperature_protection : pyval;
  low_voltage_protection : pyval;
  brightness : pyval;
  volume : pyval;
  metering_closed : pyval;
  output_capacity : pyval;
  output_energy : pyval;
  output_closed : pyval;
  protection_state : ProtectionState;
  mode : Mode;
  upper_limit_voltage : pyval;
  upper_limit_current : pyval
}.

Definition zero : pyval := PFloat (S754_zero false).

(** The field defaults of the dataclass. *)
Definition DeviceState_init : DeviceState := {|
  input_voltage := zero;
  output_voltage := zero;
  output_current := zero;
  output_power := zero;
  temperature := zero;
  set_voltage := zero;
  set_current := zero;
  group1_set_voltage := zero;
  group1_set_current := zero;
  group2_set_voltage := zero;
  group2_set_current := zero;
  group3_set_voltage := zero;
  group3_set_current := zero;
  group4_set_voltage := zero;
  group4_set_current := zero;
  group5_set_voltage := zero;
  group5_set_current := zero;
  group6_set_voltage := zero;
  group6_set_current := zero;
  over_voltage_protection := zero;
  over_current_protection := zero;
  over_power_protection := zero;
  over_temperature_protection := zero;
  low_voltage_protection := zero;
  brightness := PInt 0;
  volume := PInt 0;
  metering_closed := PBool false;
  output_capacity := zero;
  output_energy := zero;
  output_closed := PBool false;
  protection_state := NORMAL;
  mode := CV;
  upper_limit_voltage := zero;
  upper_limit_current := zero
|}.

(** [if key in data: self.field = data[key]]: the new value of the field
    whose old value is [old]. *)
Definition assign_if_in (data : gmap string pyval) (key : string) (old : pyval) : pyval :=
  match data !! key with
  | Some value => value
  | None => old
  end.

(** [DeviceState.update_from_dict]: every statement of the method assigns
    one field of its own, so the fields are given one by one. *)
Definition update_from_dict (data : gmap string pyval) (self : DeviceState)
  : DeviceState := {|
  input_voltage := assign_if_in data "inputVoltage" (input_voltage self);
  output_voltage := assign_if_in data "outputVoltage" (output_voltage self);
  output_current := assign_if_in data "outputCurrent" (output_current self);
  output_power := assign_if_in data "outputPower" (output_power self);
  temperature := assign_if_in data "temperature" (temperature self);
  set_voltage := assign_if_in data "setVoltage" (set_voltage self);
  set_current := assign_if_in data "setCurrent" (set_current self);
  group1_set_voltage := assign_if_in data "group1setVoltage" (group1_set_voltage self);
  group1_set_current := assign_if_in data "group1setCurrent" (group1_set_current self);
  group2_set_voltage := assign_if_in data "group2setVoltage" (group2_set_voltage self);
  group2_set_current := assign_if_in data "group2setCurrent" (group2_set_current self);
  group3_set_voltage := assign_if_in data "group3setVoltage" (group3_set_voltage self);
  group3_set_current := assign_if_in data "group3setCurrent" (group3_set_current self);
  group4_set_voltage := assign_if_in data "group4setVoltage" (group4_set_voltage self);
  group4_set_current := assign_if_in data "group4setCurrent" (group4_set_current self);
  group5_set_voltage := assign_if_in data "group5setVoltage" (group5_set_voltage self);
  group5_set_current := assign_if_in data "group5setCurrent" (group5_set_current self);
  group6_set_voltage := assign_if_in data "group6setVoltage" (group6_set_voltage self);
  group6_set_current := assign_if_in data "group6setCurrent" (group6_set_current self);
  over_voltage_protection :=
    assign_if_in data "overVoltageProtection" (over_voltage_protection self);
  over_current_protection :=
    assign_if_in data "overCurrentProtection" (over_current_protection self);
  over_power_protection :=
    assign_if_in data "overPowerProtection" (over_power_protection self);
  over_temperature_protection :=
    assign_if_in data "overTemperatureProtection" (over_temperature_protection self);
  low_voltage_protection :=
    assign_if_in data "lowVoltageProtection" (low_voltage_protection self);
  brightness := assign_if_in data "brightness" (brightness self);
  volume := assign_if_in data "volume" (volume self);
  metering_closed := assign_if_in data "meteringClosed" (metering_closed self);
  output_capacity := assign_if_in data "outputCapacity" (output_capacity self);
  output_energy := assign_if_in data "outputEnergy" (output_energy self);
  output_closed := assign_if_in data "outputClosed" (output_closed self);
  protection_state :=
    match data !! "protectionState" with
    | Some value => from_string value
    | None => protection_state self
    end;
  mode :=
    match data !! "mode" with
    | Some value => if value_eq_str value "CC" then CC else CV
    | None => mode self
    end;
  upper_limit_voltage := assign_if_in data "upperLimitVoltage" (upper_limit_voltage self);
  upper_limit_current := assign_if_in data "upperLimitCurrent" (upper_limit_current self)
|}.

End Models.

(* ===================================================================== *)
(** * Serial transport ([dps150/transport.py]), the writing side          *)
(* ===================================================================== *)

Module Transport.

(** [writer] is [None] or a stream writer, which is represented by the
    byte strings written to it so far, oldest first. *)
Record SerialTransport : Type := {
  _connected : bool;
  writer : option (list (list Z));
  buffer : Protocol.PacketBuffer
}.

Definition is_connected (self : SerialTransport) : bool := _connected self.

(** [SerialTransport.write] *)
Definition write (data : list Z) (self : SerialTransport)
  : result unit * SerialTransport :=
  match writer self with
  | Some written =>
      if negb (_connected self) then (Raise DPS150ConnectionError, self)
      else (Ok tt, {| _connected := _connected self;
                      writer := Some (written ++ [data]);
                      buffer := buffer self |})
  | None => (Raise DPS150ConnectionError, self)
  end.

End Transport.

(* ===================================================================== *)
(** * Device session ([dps150/device.py])                                 *)
(* ===================================================================== *)

Module Device.
Import Protocol Models.

(** A registered callback receives the state object itself and may change
    it; whether it returns or raises makes no difference to the caller,
    which swallows the exception. A callback is modelled by what it does
    to the state it is handed: one that reaches, through its closure, for
    the session or for the list of callbacks is not described by this
    type. *)
Definition Callback : Type := DeviceState -> DeviceState.

Record DPS150 : Type := {
  transport : option Transport.SerialTransport;
  state : DeviceState;
  info : DeviceInfo;
  _callbacks : list Callback
}.

(** [DPS150.__init__] *)
Definition DPS150_init : DPS150 :=
  {| transport := None; state := DeviceState_init; info := DeviceInfo_init;
     _callbacks := [] |}.

(** A method that may raise and may change the session. *)
Definition M (A : Type) : Type := DPS150 -> result A * DPS150.

Definition ret {A : Type} (a : A) : M A := fun self => (Ok a, self).

Definition raise {A : Type} (e : exn) : M A := fun self => (Raise e, self).

Definition bind {A B : Type} (m : M A) (k : A -> M B) : M B := fun self =>
  match m self with
  | (Ok a, self) => k a self
  | (Raise e, self) => (Raise e, self)
  end.

(** A computation that does not touch the session. *)
Definition lift {A : Type} (r : result A) : M A := fun self => (r, self).

Notation "'await' m ;; k" := (bind m (fun _ => k))
  (at level 100, m at next level, right associativity).
Notation "x ⇐ m ;; k" := (bind m (fun x => k))
  (at level 100, m at next level, right associativity).

Definition _send_command (command type_code : Z) (data : list Z) : M unit :=
  fun self =>
    match transport self with
    | None => (Raise DPS150ConnectionError, self)
    | Some t =>
        if negb (Transport.is_connected t) then (Raise DPS150ConnectionError, self)
        else
          match encode_packet command type_code data with
          | Raise e => (Raise e, self)
          | Ok packet =>
              let (r, t) := Transport.write packet t in
              (r, {| transport := Some t; state := state self; info := info self;
                     _callbacks := _callbacks self |})
          end
    end.

Definition set_voltage (value : spec_float) : M unit :=
  data ⇐ lift (Struct.pack_f value) ;;
  _send_command CMD_SET VOLTAGE_SET data.

Definition set_current (value : spec_float) : M unit :=
  data ⇐ lift (Struct.pack_f value) ;;
  _send_command CMD_SET CURRENT_SET data.

Definition set_brightness (value : Z) : M unit :=
  if negb ((0 <=? value) && (value <=? 10)) then raise ValueError
  else
    data ⇐ lift (bytes_of_int value) ;;
    _send_command CMD_SET BRIGHTNESS data.

Definition set_volume (value : Z) : M unit :=
  if negb ((0 <=? value) && (value <=? 10)) then raise ValueError
  else
    data ⇐ lift (bytes_of_int value) ;;
    _send_command CMD_SET VOLUME data.

Definition set_group (group : Z) (voltage current : spec_float) : M unit :=
  if negb ((1 <=? group) && (group <=? 6)) then raise ValueError
  else
    let voltage_type := GROUP1_VOLTAGE_SET + (group - 1) * 2 in
    let current_type := GROUP1_CURRENT_SET + (group - 1) * 2 in
    await set_voltage voltage ;;
    await set_current current ;;
    data_v ⇐ lift (Struct.pack_f voltage) ;;
    await _send_command CMD_SET voltage_type data_v ;;
    data_c ⇐ lift (Struct.pack_f current) ;;
    _send_command CMD_SET current_type data_c.

(** The other writing methods; each packs its value and sends one
    command. *)
Definition enable_output : M unit :=
  data ⇐ lift (bytes_of_int 1) ;;
  _send_command CMD_SET OUTPUT_ENABLE data.

Definition disable_output : M unit :=
  data ⇐ lift (bytes_of_int 0) ;;
  _send_command CMD_SET OUTPUT_ENABLE data.

Definition set_ovp (value : spec_float) : M unit :=
  data ⇐ lift (Struct.pack_f value) ;;
  _send_command CMD_SET Constants.OVP data.

Definition set_ocp (value : spec_float) : M unit :=
  data ⇐ lift (Struct.pack_f value) ;;
  _send_command CMD_SET Constants.OCP data.

Definition set_opp (value : spec_float) : M unit :=
  data ⇐ lift (Struct.pack_f value) ;;
  _send_command CMD_SET Constants.OPP data.

Definition set_otp (value : spec_float) : M unit :=
  data ⇐ lift (Struct.pack_f value) ;;
  _send_command CMD_SET Constants.OTP data.

Definition set_lvp (value : spec_float) : M unit :=
  data ⇐ lift (Struct.pack_f value) ;;
  _send_command CMD_SET Constants.LVP data.

Definition start_metering : M unit :=
  data ⇐ lift (bytes_of_int 1) ;;
  _send_command CMD_SET METERING_ENABLE data.

Definition stop_metering : M unit :=
  data ⇐ lift (bytes_of_int 0) ;;
  _send_command CMD_SET METERING_ENABLE data.

(** [get_all] sends the request and returns the state object as it is
    then; the answer of the device arrives through the packet handler. *)
Definition get_all : M DeviceState :=
  await _send_command CMD_GET ALL [] ;;
  fun self => (Ok (state self), self).

(** [not value]: the values that Python takes for false. *)
Definition falsy (value : pyval) : bool :=
  match value with
  | PFloat (S754_zero _) => true
  | PFloat _ => false
  | PInt n => n =? 0
  | PBool b => negb b
  | PStr s => String.eqb s ""
  end.

(** [get_info] asks for each of the three texts that the session does
    not have yet, and returns the information object as it is then. *)
Definition get_info : M DeviceInfo :=
  await (fun self =>
           if falsy (model_name (info self))
           then _send_command CMD_GET MODEL_NAME [] self else ret tt self) ;;
  await (fun self =>
           if falsy (hardware_version (info self))
           then _send_command CMD_GET HARDWARE_VERSION [] self else ret tt self) ;;
  await (fun self =>
           if falsy (firmware_version (info self))
           then _send_command CMD_GET FIRMWARE_VERSION [] self else ret tt self) ;;
  fun self => (Ok (info self), self).

(** [list.index(x)]: the position of the first element equal to [x],
    [ValueError] when there is none. *)
Fixpoint list_index (l : list Z) (x : Z) : result Z :=
  match l with
  | [] => Raise ValueError
  | y :: l => if y =? x then Ok 0 else Z.succ <$> list_index l x
  end.

(** [_init_device]: the commands sent after the port has been opened. *)
Definition _init_device : M unit :=
  data ⇐ lift (bytes_of_int 1) ;;
  await _send_command CMD_XXX_193 0 data ;;
  baud_index ⇐ lift ((fun i => i + 1) <$> list_index BAUD_RATE_OPTIONS 115200) ;;
  data ⇐ lift (bytes_of_int baud_index) ;;
  await _send_command CMD_XXX_176 0 data ;;
  await _send_command CMD_GET MODEL_NAME [] ;;
  await _send_command CMD_GET HARDWARE_VERSION [] ;;
  await _send_command CMD_GET FIRMWARE_VERSION [] ;;
  await get_all ;;
  ret tt.

(** [on_state_update], without the polling task it starts. *)
Definition on_state_update (callback : Callback) (self : DPS150) : DPS150 :=
  {| transport := transport self; state := state self; info := info self;
     _callbacks := _callbacks self ++ [callback] |}.

Section Receive.

(** [data.decode("utf-8", errors="ignore").rstrip("\x00").strip()]: the
    text decoding is that of the Python built-ins, which are no part of the
    repository; it is left open. *)
Variable decode_text : list Z -> string.

(** [bytes_to_float(view[lo:hi])] as a dictionary value. *)
Definition float_at (view : list Z) (lo hi : Z) : result pyval :=
  PFloat <$> bytes_to_float (slice view lo hi).

(** The dictionary display of the [ALL] branch; its items are evaluated
    in order and the first that raises ends the evaluation. *)
Definition parse_all (view : list Z) : result (gmap string pyval) :=
  inputVoltage ← float_at view 0 4;
  setVoltage ← float_at view 4 8;
  setCurrent ← float_at view 8 12;
  outputVoltage ← float_at view 12 16;
  outputCurrent ← float_at view 16 20;
  outputPower ← float_at view 20 24;
  temperature ← float_at view 24 28;
  group1setVoltage ← float_at view 28 32;
  group1setCurrent ← float_at view 32 36;
  group2setVoltage ← float_at view 36 40;
  group2setCurrent ← float_at view 40 44;
  group3setVoltage ← float_at view 44 48;
  group3setCurrent ← float_at view 48 52;
  group4setVoltage ← float_at view 52 56;
  group4setCurrent ← float_at view 56 60;
  group5setVoltage ← float_at view 60 64;
  group5setCurrent ← float_at view 64 68;
  group6setVoltage ← float_at view 68 72;
  group6setCurrent ← float_at view 72 76;
  overVoltageProtection ← float_at view 76 80;
  overCurrentProtection ← float_at view 80 84;
  overPowerProtection ← float_at view 84 88;
  overTemperatureProtection ← float_at view 88 92;
  lowVoltageProtection ← float_at view 92 96;
  brightness ← (if len view >? 96 then PInt <$> getitem view 96 else mret (PInt 0));
  volume ← (if len view >? 97 then PInt <$> getitem view 97 else mret (PInt 0));
  meteringClosed ←
    (if len view >? 98 then b ← getitem view 98; mret (PBool (b =? 0))
     else mret (PBool false));
  outputCapacity ← (if len view >? 102 then float_at view 99 103 else mret zero);
  outputEnergy ← (if len view >? 106 then float_at view 103 107 else mret zero);
  outputClosed ←
    (if len view >? 107 then b ← getitem view 107; mret (PBool (b =? 1))
     else mret (PBool false));
  protectionState ←
    (in_range ←
       (if len view >? 108 then
          b ← getitem view 108;
          mret ((0 <=? b) && (b <? Z.of_nat (length PROTECTION_STATES)))
        else mret false);
     if in_range : bool then b ← getitem view 108; PStr <$> getitem PROTECTION_STATES b
     else mret (PStr ""));
  mode ←
    (is_cc ←
       (if len view >? 109 then b ← getitem view 109; mret (b =? 0)
        else mret false);
     mret (PStr (if is_cc : bool then "CC" else "CV")));
  upperLimitVoltage ← (if len view >? 114 then float_at view 111 115 else mret zero);
  upperLimitCurrent ← (if len view >? 118 then float_at view 115 119 else mret zero);
  mret (list_to_map [
    ("inputVoltage", inputVoltage);
    ("setVoltage", setVoltage);
    ("setCurrent", setCurrent);
    ("outputVoltage", outputVoltage);
    ("outputCurrent", outputCurrent);
    ("outputPower", outputPower);
    ("temperature", temperature);
    ("group1setVoltage", group1setVoltage);
    ("group1setCurrent", group1setCurrent);
    ("group2setVoltage", group2setVoltage);
    ("group2setCurrent", group2setCurrent);
    ("group3setVoltage", group3setVoltage);
    ("group3setCurrent", group3setCurrent);
    ("group4setVoltage", group4setVoltage);
    ("group4setCurrent", group4setCurrent);
    ("group5setVoltage", group5setVoltage);
    ("group5setCurrent", group5setCurrent);
    ("group6setVoltage", group6setVoltage);
    ("group6setCurrent", group6setCurrent);
    ("overVoltageProtection", overVoltageProtection);
    ("overCurrentProtection", overCurrentProtection);
    ("overPowerProtection", overPowerProtection);
    ("overTemperatureProtection", overTemperatureProtection);
    ("lowVoltageProtection", lowVoltageProtection);
    ("brightness", brightness);
    ("volume", volume);
    ("meteringClosed", meteringClosed);
    ("outputCapacity", outputCapacity);
    ("outputEnergy", outputEnergy);
    ("outputClosed", outputClosed);
    ("protectionState", protectionState);
    ("mode", mode);
    ("upperLimitVoltage", upperLimitVoltage);
    ("upperLimitCurrent", upperLimitCurrent)
  ]).

(** The [try] block of [_parse_packet_data]: the dictionary [result] that
    the chain of [if]/[elif] on the type code leaves. *)
Definition parse_body (type_code : Z) (data : list Z) : result (gmap string pyval) :=
  if type_code =? INPUT_VOLTAGE then
    v ← bytes_to_float data; mret {[ "inputVoltage" := PFloat v ]}
  else if type_code =? OUTPUT_VOLTAGE_CURRENT_POWER then
    if len data >=? 12 then
      outputVoltage ← bytes_to_float (slice data 0 4);
      outputCurrent ← bytes_to_float (slice data 4 8);
      outputPower ← bytes_to_float (slice data 8 12);
      mret (<["outputPower" := PFloat outputPower]>
             (<["outputCurrent" := PFloat outputCurrent]>
               {[ "outputVoltage" := PFloat outputVoltage ]}))
    else mret ∅
  else if type_code =? TEMPERATURE then
    v ← bytes_to_float data; mret {[ "temperature" := PFloat v ]}
  else if type_code =? OUTPUT_CAPACITY then
    v ← bytes_to_float data; mret {[ "outputCapacity" := PFloat v ]}
  else if type_code =? OUTPUT_ENERGY then
    v ← bytes_to_float data; mret {[ "outputEnergy" := PFloat v ]}
  else if type_code =? OUTPUT_ENABLE then
    b ← getitem data 0; mret {[ "outputClosed" := PBool (b =? 1) ]}
  else if type_code =? PROTECTION_STATE then
    state_index ← (if len data >? 0 then getitem data 0 else mret 0);
    if (0 <=? state_index) && (state_index <? Z.of_nat (length PROTECTION_STATES))
    then
      s ← getitem PROTECTION_STATES state_index;
      mret {[ "protectionState" := PStr s ]}
    else mret ∅
  else if type_code =? MODE then
    b ← getitem data 0; mret {[ "mode" := PStr (if b =? 0 then "CC" else "CV") ]}
  else if type_code =? MODEL_NAME then
    mret {[ "modelName" := PStr (decode_text data) ]}
  else if type_code =? HARDWARE_VERSION then
    mret {[ "hardwareVersion" := PStr (decode_text data) ]}
  else if type_code =? FIRMWARE_VERSION then
    mret {[ "firmwareVersion" := PStr (decode_text data) ]}
  else if type_code =? UPPER_LIMIT_VOLTAGE then
    v ← bytes_to_float data; mret {[ "upperLimitVoltage" := PFloat v ]}
  else if type_code =? UPPER_LIMIT_CURRENT then
    v ← bytes_to_float data; mret {[ "upperLimitCurrent" := PFloat v ]}
  else if type_code =? ALL then
    if len data >=? 139 then parse_all data else mret ∅
  else mret ∅.

(** [_parse_packet_data]: [None] for an empty payload, for an
    [IndexError] or [ValueError] of the body, and for an empty [result];
    any other exception of the body leaves the method. *)
Definition _parse_packet_data (type_code : Z) (data : list Z)
  : result (option (gmap string pyval)) :=
  if len data =? 0 then Ok None
  else
    match parse_body type_code data with
    | Raise IndexError | Raise ValueError => Ok None
    | Raise e => Raise e
    | Ok result => Ok (if decide (result = ∅) then None else Some result)
    end.

(** The callbacks are called in order on the one state object; the list
    gives the state that each call received. *)
Fixpoint invoke_callbacks (callbacks : list Callback) (state : DeviceState)
  : DeviceState * list DeviceState :=
  match callbacks with
  | [] => (state, [])
  | callback :: callbacks =>
      let (state', calls) := invoke_callbacks callbacks (callback state) in
      (state', state :: calls)
  end.

(** [_on_packet_received]: the session afterwards and the callback calls
    made. An exception of the parser is swallowed by the outer [try]. *)
Definition _on_packet_received (command type_code : Z) (data : list Z)
  (self : DPS150) : DPS150 * list DeviceState :=
  match _parse_packet_data type_code data with
  | Ok (Some parsed_data) =>
      let state := update_from_dict parsed_data (state self) in
      let info :=
        {| model_name := assign_if_in parsed_data "modelName" (model_name (info self));
           hardware_version :=
             assign_if_in parsed_data "hardwareVersion" (hardware_version (info self));
           firmware_version :=
             assign_if_in parsed_data "firmwareVersion" (firmware_version (info self)) |} in
      let (state, calls) := invoke_callbacks (_callbacks self) state in
      ({| transport := transport self; state := state; info := info;
          _callbacks := _callbacks self |}, calls)
  | Ok None => (self, [])
  | Raise _ => (self, [])
  end.

(** The [for packet in packets] loop of [SerialTransport._read_loop], the
    callback being the packet handler of the session: a packet that does
    not decode is skipped; any other exception leaves the loop, and the
    read loop with it. *)
Fixpoint process_packets (packets : list (list Z)) (self : DPS150)
  : result unit * (DPS150 * list DeviceState) :=
  match packets with
  | [] => (Ok tt, (self, []))
  | packet :: packets =>
      match decode_packet packet with
      | Ok (command, type_code, length, data_bytes) =>
          let (self, calls) := _on_packet_received command type_code data_bytes self in
          let '(r, (self, more)) := process_packets packets self in
          (r, (self, calls ++ more))
      | Raise DPS150ProtocolError => process_packets packets self
      | Raise e => (Raise e, (self, []))
      end
  end.

(** The buffer of the session's transport replaced. *)
Definition with_buffer (buffer : PacketBuffer) (self : DPS150) : DPS150 :=
  {| transport :=
       match transport self with
       | Some t => Some {| Transport._connected := Transport._connected t;
                           Transport.writer := Transport.writer t;
                           Transport.buffer := buffer |}
       | None => None
       end;
     state := state self; info := info self; _callbacks := _callbacks self |}.

(** One turn of [_read_loop] in which [data], not empty, has been read:
    the data is appended to the buffer, the complete packets are
    extracted and processed. [None] when the session has no transport or
    the extraction runs out of fuel. *)
Definition read_chunk (data : list Z) (self : DPS150)
  : option (result unit * (DPS150 * list DeviceState)) :=
  match transport self with
  | None => None
  | Some t =>
      match extract_packets (append data (Transport.buffer t)) with
      | None => None
      | Some (Raise e) => Some (Raise e, (with_buffer (append data (Transport.buffer t)) self, []))
      | Some (Ok (packets, buffer)) => Some (process_packets packets (with_buffer buffer self))
      end
  end.

(** The [while] loop of [_read_loop]. [reader] is [self.reader]: [None],
    or a stream reader, which is represented by the data that its reads
    return, in order; a read that times out returns nothing and does
    nothing. The loop goes on while the transport is connected and has a
    reader; an empty read is the end of the stream and leaves the loop,
    and so does an exception. The session afterwards and the callback
    calls made; [None] when the session has no transport, or the
    extraction runs out of fuel. *)
Fixpoint read_turns (reads : list (list Z)) (self : DPS150)
  : option (DPS150 * list DeviceState) :=
  match transport self with
  | None => None
  | Some t =>
      if negb (Transport._connected t) then Some (self, [])
      else
        match reads with
        | [] => Some (self, [])
        | [] :: _ => Some (self, [])
        | data :: reads =>
            match read_chunk data self with
            | None => None
            | Some (Raise _, (self, calls)) => Some (self, calls)
            | Some (Ok _, (self, calls)) =>
                match read_turns reads self with
                | Some (self, more) => Some (self, calls ++ more)
                | None => None
                end
            end
        end
  end.

Definition _read_loop (reader : option (list (list Z))) (self : DPS150)
  : option (DPS150 * list DeviceState) :=
  match transport self, reader with
  | None, _ => None
  | Some _, None => Some (self, [])
  | Some _, Some reads => read_turns reads self
  end.

End Receive.

End Device.

(* ===================================================================== *)
(** * Vocabulary of the properties                                        *)
(* ===================================================================== *)

Definition Zsum (bs : list Z) : Z := foldr Z.add 0 bs.

(** The checksum formula of the wire format. *)
Definition checksum_of (type_code : Z) (payload : list Z) : Z :=
  (type_code + len payload + Zsum payload) mod 256.

(** A well-formed frame with the given header byte. *)
Definition frame (header command type_code : Z) (payload : list Z) : list Z :=
  [header; command; type_code; len payload] ++ payload ++ [checksum_of type_code payload].

Definition inbound_frame : Z -> Z -> list Z -> list Z := frame HEADER_INPUT.

(** The header replaced by the inbound one, the rest kept. *)
Definition to_inbound (packet : list Z) : list Z := HEADER_INPUT :: drop 1 packet.

(** Bit [k] of a byte inverted, and the same at position [i] of a frame. *)
Definition flip_bit (k b : Z) : Z := Z.lxor b (2 ^ k).

Definition flip_bit_at (i : nat) (k : Z) (packet : list Z) : list Z :=
  alter (flip_bit k) i packet.

Definition flip_bit_check (b k : Z) : bool :=
  let c := flip_bit k b in
  in_byte_range c && (c =? (if Z.testbit b k then b - 2 ^ k else b + 2 ^ k)).

(** Chunks delivered to the framer one after the other, with an extraction
    after each, as the read loop of the transport does; the packets of
    all extractions, in order, and the framer afterwards. *)
Fixpoint feed_chunks (chunks : list (list Z)) (self : Protocol.PacketBuffer)
  : option (result (list (list Z) * Protocol.PacketBuffer)) :=
  match chunks with
  | [] => Some (Ok ([], self))
  | chunk :: chunks =>
      match Protocol.extract_packets (Protocol.append chunk self) with
      | Some (Ok (packets, self)) =>
          match feed_chunks chunks self with
          | Some (Ok (more, self)) => Some (Ok (packets ++ more, self))
          | other => other
          end
      | other => other
      end
  end.

(** What one turn of the loop can do on a byte string: leave the loop
    where it stands, skip one byte that is not the inbound header, or
    take the complete packet that starts at the index. *)
Inductive turn (buffer : list Z) (i : Z) (packets : list (list Z)) : Protocol.loop_step -> Prop :=
| turn_leave : turn buffer i packets (Protocol.Leave i packets)
| turn_skip :
    i < len buffer - 5 ->
    turn buffer i packets (Protocol.Continue (i + 1) packets)
| turn_take length :
    i < len buffer - 5 -> 0 <= length -> i + (5 + length) <= len buffer ->
    turn buffer i packets
      (Protocol.Continue (i + (5 + length)) (packets ++ [slice buffer i (i + (5 + length))])).

(** A packet as the framer delimits it: made of bytes, the inbound
    header first, then two bytes, a length byte, as many payload bytes as
    it says, and one more byte, whatever its value. *)
Definition framed (packet : list Z) : Prop :=
  is_bytes packet
  /\ exists command type_code payload cs,
       packet = [HEADER_INPUT; command; type_code; len payload] ++ payload ++ [cs].

(** The inbound frames of a list of messages, each a command, a type
    code and a payload. *)
Definition inbound_frames (messages : list (Z * Z * list Z)) : list (list Z) :=
  map (fun m => inbound_frame m.1.1 m.1.2 m.2) messages.

(** The byte strings written to the transport of a session so far. *)
Definition written (self : Device.DPS150) : list (list Z) :=
  match Device.transport self with
  | Some t => default [] (Transport.writer t)
  | None => []
  end.

(** The session has a transport that is connected and has a writer. *)
Definition attached (self : Device.DPS150) : Prop :=
  exists t w, Device.transport self = Some t
              /\ Transport.is_connected t = true
              /\ Transport.writer t = Some w.

(** The keys of the all-state dictionary. *)
Definition all_state_keys : list string := [
  "inputVoltage"; "setVoltage"; "setCurrent"; "outputVoltage"; "outputCurrent";
  "outputPower"; "temperature";
  "group1setVoltage"; "group1setCurrent"; "group2setVoltage"; "group2setCurrent";
  "group3setVoltage"; "group3setCurrent"; "group4setVoltage"; "group4setCurrent";
  "group5setVoltage"; "group5setCurrent"; "group6setVoltage"; "group6setCurrent";
  "overVoltageProtection"; "overCurrentProtection"; "overPowerProtection";
  "overTemperatureProtection"; "lowVoltageProtection";
  "brightness"; "volume"; "meteringClosed"; "outputCapacity"; "outputEnergy";
  "outputClosed"; "protectionState"; "mode"; "upperLimitVoltage"; "upperLimitCurrent"
].

(** A session that is connected, with nothing written yet. *)
Definition connected_session : Device.DPS150 :=
  {| Device.transport :=
       Some {| Transport._connected := true; Transport.writer := Some [];
               Transport.buffer := Protocol.PacketBuffer_init |};
     Device.state := Models.DeviceState_init;
     Device.info := Models.DeviceInfo_init;
     Device._callbacks := [] |}.

(** A text decoder to run the receiving side with: the bytes below 128,
    as characters. *)
Definition ascii_text (data : list Z) : string :=
  foldr (fun b s => if b <? 128 then String (Ascii.ascii_of_N (Z.to_N b)) s else s)
        EmptyString data.

(** The fields of the state that hold a value of the update dictionary
    as it is, each with its key in the dictionary; the protection state
    and the mode, which are computed from their values, are the two
    fields left. *)
Definition state_fields : list (string * (Models.DeviceState -> pyval)) := [
  ("inputVoltage", Models.input_voltage);
  ("outputVoltage", Models.output_voltage);
  ("outputCurrent", Models.output_current);
  ("outputPower", Models.output_power);
  ("temperature", Models.temperature);
  ("setVoltage", Models.set_voltage);
  ("setCurrent", Models.set_current);
  ("group1setVoltage", Models.group1_set_voltage);
  ("group1setCurrent", Models.group1_set_current);
  ("group2setVoltage", Models.group2_set_voltage);
  ("group2setCurrent", Models.group2_set_current);
  ("group3setVoltage", Models.group3_set_voltage);
  ("group3setCurrent", Models.group3_set_current);
  ("group4setVoltage", Models.group4_set_voltage);
  ("group4setCurrent", Models.group4_set_current);
  ("group5setVoltage", Models.group5_set_voltage);
  ("group5setCurrent", Models.group5_set_current);
  ("group6setVoltage", Models.group6_set_voltage);
  ("group6setCurrent", Models.group6_set_current);
  ("overVoltageProtection", Models.over_voltage_protection);
  ("overCurrentProtection", Models.over_current_protection);
  ("overPowerProtection", Models.over_power_protection);
  ("overTemperatureProtection", Models.over_temperature_protection);
  ("lowVoltageProtection", Models.low_voltage_protection);
  ("brightness", Models.brightness);
  ("volume", Models.volume);
  ("meteringClosed", Models.metering_closed);
  ("outputCapacity", Models.output_capacity);
  ("outputEnergy", Models.output_energy);
  ("outputClosed", Models.output_closed);
  ("upperLimitVoltage", Models.upper_limit_voltage);
  ("upperLimitCurrent", Models.upper_limit_current)
].

(** [after] differs from [before] at most in the field filed under [key],
    which is [value]; the protection state and the mode are the same. *)
Definition only_changes (key : string) (value : pyval)
  (before after : Models.DeviceState) : Prop :=
  Forall (fun kf : string * (Models.DeviceState -> pyval) =>
            kf.2 after = if String.eqb kf.1 key then value else kf.2 before)
         state_fields
  /\ Models.protection_state after = Models.protection_state before
  /\ Models.mode after = Models.mode before.

(** [after] has the values of [before] in all the fields of
    [state_fields]. *)
Definition same_values (before after : Models.DeviceState) : Prop :=
  Forall (fun kf : string * (Models.DeviceState -> pyval) => kf.2 after = kf.2 before)
         state_fields.

(** The members of [ProtectionState], in the order of their definition. *)
Definition protection_states : list Models.ProtectionState :=
  [Models.NORMAL; Models.OVP; Models.OCP; Models.OPP; Models.OTP; Models.LVP; Models.REP].

(** The type codes whose payload is one float, each with the key under
    which the parser files it. *)
Definition float_type_codes : list (Z * string) := [
  (INPUT_VOLTAGE, "inputVoltage");
  (TEMPERATURE, "temperature");
  (OUTPUT_CAPACITY, "outputCapacity");
  (OUTPUT_ENERGY, "outputEnergy");
  (UPPER_LIMIT_VOLTAGE, "upperLimitVoltage");
  (UPPER_LIMIT_CURRENT, "upperLimitCurrent")
].

(** The type codes that the parser knows. *)
Definition parsed_type_codes : list Z := [
  INPUT_VOLTAGE; OUTPUT_VOLTAGE_CURRENT_POWER; TEMPERATURE; OUTPUT_CAPACITY;
  OUTPUT_ENERGY; OUTPUT_ENABLE; PROTECTION_STATE; MODE; MODEL_NAME;
  HARDWARE_VERSION; FIRMWARE_VERSION; UPPER_LIMIT_VOLTAGE; UPPER_LIMIT_CURRENT; ALL
].

(** The floats of the all-state payload: key and offset of the first of
    the four bytes. *)
Definition all_state_floats : list (string * Z) := [
  ("inputVoltage", 0); ("setVoltage", 4); ("setCurrent", 8);
  ("outputVoltage", 12); ("outputCurrent", 16); ("outputPower", 20);
  ("temperature", 24);
  ("group1setVoltage", 28); ("group1setCurrent", 32);
  ("group2setVoltage", 36); ("group2setCurrent", 40);
  ("group3setVoltage", 44); ("group3setCurrent", 48);
  ("group4setVoltage", 52); ("group4setCurrent", 56);
  ("group5setVoltage", 60); ("group5setCurrent", 64);
  ("group6setVoltage", 68); ("group6setCurrent", 72);
  ("overVoltageProtection", 76); ("overCurrentProtection", 80);
  ("overPowerProtection", 84); ("overTemperatureProtection", 88);
  ("lowVoltageProtection", 92);
  ("outputCapacity", 99); ("outputEnergy", 103);
  ("upperLimitVoltage", 111); ("upperLimitCurrent", 115)
].

(** The end of the packet handler once the new state and the new device
    information are known: the callbacks are called, and the session is
    put together. *)
Definition after_update (self : Device.DPS150) (updated : Models.DeviceState)
  (info : Models.DeviceInfo) : Device.DPS150 * list Models.DeviceState :=
  let (final, calls) := Device.invoke_callbacks (Device._callbacks self) updated in
  ({| Device.transport := Device.transport self; Device.state := final;
      Device.info := info; Device._callbacks := Device._callbacks self |}, calls).

(** A frame-shaped packet with any byte in the place of the checksum. *)
Definition raw_frame (command type_code : Z) (payload : list Z) (cs : Z) : list Z :=
  [HEADER_INPUT; command; type_code; len payload] ++ payload ++ [cs].

(** The methods that set one float, each with the type code it sends. *)
Definition float_setters : list ((spec_float -> Device.M unit) * Z) := [
  (Device.set_voltage, VOLTAGE_SET);
  (Device.set_current, CURRENT_SET);
  (Device.set_ovp, Constants.OVP);
  (Device.set_ocp, Constants.OCP);
  (Device.set_opp, Constants.OPP);
  (Device.set_otp, Constants.OTP);
  (Device.set_lvp, Constants.LVP)
].

(** The methods that switch something on or off, each with the type code
    and the byte it sends. *)
Definition switch_commands : list (Device.M unit * Z * Z) := [
  (Device.enable_output, OUTPUT_ENABLE, 1);
  (Device.disable_output, OUTPUT_ENABLE, 0);
  (Device.start_metering, METERING_ENABLE, 1);
  (Device.stop_metering, METERING_ENABLE, 0)
].

(** The requests that [get_info] has to make for a device information:
    one for each text that is missing, in the order model name, hardware
    version, firmware version. *)
Definition info_requests (info : Models.DeviceInfo) : list (list Z) :=
  (if Device.falsy (Models.model_name info)
   then [frame HEADER_OUTPUT CMD_GET MODEL_NAME []] else [])
  ++ (if Device.falsy (Models.hardware_version info)
      then [frame HEADER_OUTPUT CMD_GET HARDWARE_VERSION []] else [])
  ++ (if Device.falsy (Models.firmware_version info)
      then [frame HEADER_OUTPUT CMD_GET FIRMWARE_VERSION []] else []).

(** The bytes that a scan has gone over, with the packets it has taken
    from them: noise bytes, none of them the inbound header, and whole
    packets, in the order of the buffer. *)
Inductive consumed : list Z -> list (list Z) -> Prop :=
| consumed_nil : consumed [] []
| consumed_noise bytes packets b :
    consumed bytes packets -> b <> HEADER_INPUT ->
    consumed (bytes ++ [b]) packets
| consumed_packet bytes packets packet :
    consumed bytes packets -> framed packet ->
    consumed (bytes ++ packet) (packets ++ [packet]).

(** What a scan stops at: at most five bytes, or the start of a frame
    that has not arrived in full, which is the inbound header, a command,
    a type code, a length and fewer bytes than the length and the
    checksum take. *)
Definition pending (rest : list Z) : Prop :=
  len rest <= 5
  \/ exists command type_code length tail,
       rest = HEADER_INPUT :: command :: type_code :: length :: tail
       /\ len tail < 1 + length.

(** The session has a transport that is connected and whose receive
    buffer is empty. *)
Definition receiving (self : Device.DPS150) : Prop :=
  exists t, Device.transport self = Some t
            /\ Transport.is_connected t = true
            /\ Transport.buffer t = {| Protocol.buffer := [] |}.

(** The session has a transport that is not connected. *)
Definition disconnected (self : Device.DPS150) : Prop :=
  exists t, Device.transport self = Some t /\ Transport.is_connected t = false.

(** The callbacks of a list called one after the other on a state: the
    state that the last one returns. *)
Definition run_callbacks (callbacks : list Device.Callback) (state : Models.DeviceState)
  : Models.DeviceState :=
  foldl (fun state (callback : Device.Callback) => callback state) state callbacks.

(** An all-state payload of 139 bytes to run the parser on: 5.0 V at the
    input, set points 12.0 V and 1.0 A, brightness 5, volume 3, metering
    byte 0, output byte 1, protection index 2 and mode byte 0; the rest
    is zero. *)
Definition all_state_sample : list Z :=
  [0x00; 0x00; 0xA0; 0x40] ++ [0x00; 0x00; 0x40; 0x41] ++ [0x00; 0x00; 0x80; 0x3F]
  ++ replicate 84 0 ++ [5; 3; 0] ++ replicate 8 0 ++ [1; 2; 0] ++ replicate 29 0.

(** The session has a transport whose receive buffer is empty. *)
Definition buffer_empty (self : Device.DPS150) : Prop :=
  exists t, Device.transport self = Some t
            /\ Transport.buffer t = {| Protocol.buffer := [] |}.

(* ===================================================================== *)
(** * Lemmas on byte strings                                              *)
(* ===================================================================== *)

Section ByteLemmas.

Lemma len_nonneg bs : 0 <= len bs.
Proof. unfold len. lia. Qed.

Lemma len_app bs cs : len (bs ++ cs) = len bs + len cs.
Proof. unfold len. rewrite length_app. lia. Qed.

Lemma len_cons b bs : len (b :: bs) = 1 + len bs.
Proof. unfold len. simpl length. lia. Qed.

Lemma len_nil : len [] = 0.
Proof. reflexivity. Qed.

Lemma in_byte_range_spec x : in_byte_range x = true <-> is_byte x.
Proof. unfold in_byte_range, is_byte. rewrite andb_true_iff. lia. Qed.

Lemma in_byte_range_true x : is_byte x -> in_byte_range x = true.
Proof. apply in_byte_range_spec. Qed.

Lemma getitem_lookup {A} (l : list A) (i : Z) (x : A) :
  0 <= i -> l !! Z.to_nat i = Some x -> getitem l i = Ok x.
Proof.
  intros Hi Hb. unfold getitem.
  destruct (i <? 0) eqn:E; [lia|]. rewrite E. now rewrite Hb.
Qed.

Lemma getitem_in_range {A} (l : list A) (i : Z) :
  0 <= i < Z.of_nat (length l) ->
  exists x, getitem l i = Ok x /\ l !! Z.to_nat i = Some x.
Proof.
  intros Hi. destruct (lookup_lt_is_Some_2 l (Z.to_nat i)) as [x Hx]; [lia|].
  exists x. split; [apply getitem_lookup; [lia|exact Hx] | exact Hx].
Qed.

Lemma slice_middle pre mid post lo hi :
  lo = len pre -> hi = len pre + len mid ->
  slice (pre ++ mid ++ post) lo hi = mid.
Proof.
  intros -> ->. unfold slice, len.
  replace (Z.to_nat (Z.of_nat (length pre))) with (length pre) by lia.
  rewrite drop_app_length.
  replace (Z.to_nat _) with (length mid) by lia.
  apply take_app_length.
Qed.

Lemma len_slice bs lo hi :
  0 <= lo <= hi -> hi <= len bs -> len (slice bs lo hi) = hi - lo.
Proof.
  intros H1 H2. unfold slice, len in *.
  rewrite length_take, length_drop. lia.
Qed.

Lemma slice_all bs : slice bs 0 (len bs) = bs.
Proof.
  unfold slice, len. rewrite Z.sub_0_r, Nat2Z.id. apply firstn_all.
Qed.

Lemma fold_left_add_Zsum bs a :
  fold_left (fun checksum byte => checksum + byte) bs a = a + Zsum bs.
Proof.
  revert a. induction bs as [|b bs IH]; intros a; simpl.
  - lia.
  - rewrite IH. lia.
Qed.

Lemma Zsum_alter (f : Z -> Z) bs j b :
  bs !! j = Some b -> Zsum (alter f j bs) = Zsum bs - b + f b.
Proof.
  revert j. induction bs as [|x bs IH]; intros [|j] H; cbn in *; try discriminate.
  - injection H as ->. lia.
  - specialize (IH j H). unfold Zsum in IH. lia.
Qed.

(** The source's loop computes the wire formula; header and command
    play no part. *)
Lemma calculate_checksum_formula header command type_code data :
  Protocol.calculate_checksum header command type_code data
  = checksum_of type_code data.
Proof.
  unfold Protocol.calculate_checksum, checksum_of.
  now rewrite fold_left_add_Zsum.
Qed.

Lemma checksum_of_byte type_code payload : is_byte (checksum_of type_code payload).
Proof. unfold checksum_of, is_byte. apply Z.mod_pos_bound. lia. Qed.

Lemma is_bytes_lookup bs j b : is_bytes bs -> bs !! j = Some b -> is_byte b.
Proof. intros H Hj. exact (proj1 (Forall_lookup _ _) H j b Hj). Qed.

Lemma bind_Ok {A B} (a : A) (f : A -> result B) : (Ok a ≫= f) = f a.
Proof. reflexivity. Qed.

Lemma fmap_Ok {A B} (a : A) (f : A -> B) : f <$> Ok a = Ok (f a).
Proof. reflexivity. Qed.

End ByteLemmas.

(** [read packet i x]: the next step of the goal reads [packet[i]], which
    is [x]. *)
Ltac read packet i x :=
  rewrite (getitem_lookup packet i x) by (lia || reflexivity || assumption);
  rewrite bind_Ok.

(** Goals [is_byte c] and [is_bytes l] for constants of the protocol and
    for bounded values. *)
Create HintDb bytes.
#[global] Hint Unfold is_byte HEADER_INPUT HEADER_OUTPUT CMD_GET CMD_SET
  VOLTAGE_SET CURRENT_SET GROUP1_VOLTAGE_SET GROUP1_CURRENT_SET
  BRIGHTNESS VOLUME : bytes.

Ltac byte_bound :=
  match goal with
  | |- is_bytes _ => repeat constructor; autounfold with bytes in *; lia
  | |- _ => autounfold with bytes in *; lia
  end.

Section FlipBit.

Lemma flip_bit_table :
  forallb (fun b => forallb (flip_bit_check b) (seqZ 0 8)) (seqZ 0 256) = true.
Proof. vm_compute. reflexivity. Qed.

(** Inverting bit [k < 8] of a byte adds or removes [2 ^ k] and leaves a
    byte. *)
Lemma flip_bit_spec b k :
  is_byte b -> 0 <= k < 8 ->
  is_byte (flip_bit k b) /\
  flip_bit k b = if Z.testbit b k then b - 2 ^ k else b + 2 ^ k.
Proof.
  intros Hb Hk.
  pose proof flip_bit_table as T.
  rewrite forallb_forall in T.
  assert (Hin : In b (seqZ 0 256)).
  { apply list_elem_of_In, elem_of_seqZ. unfold is_byte in Hb. lia. }
  specialize (T b Hin). rewrite forallb_forall in T.
  assert (Hik : In k (seqZ 0 8)).
  { apply list_elem_of_In, elem_of_seqZ. lia. }
  specialize (T k Hik). unfold flip_bit_check in T.
  apply andb_true_iff in T as [T1 T2].
  split; [now apply in_byte_range_spec | lia].
Qed.

Lemma pow2_byte k : 0 <= k < 8 -> 0 < 2 ^ k < 256.
Proof.
  intros Hk. split; [apply Z.pow_pos_nonneg; lia|].
  change 256 with (2 ^ 8). apply Z.pow_lt_mono_r; lia.
Qed.

Lemma flip_bit_changes_mod b k x :
  is_byte b -> 0 <= k < 8 ->
  (x - b + flip_bit k b) mod 256 <> x mod 256.
Proof.
  intros Hb Hk. destruct (flip_bit_spec b k Hb Hk) as [_ ->].
  pose proof (pow2_byte k Hk) as Hp.
  set (d := 2 ^ k) in *. clearbody d.
  destruct (Z.testbit b k); intros E; Z.div_mod_to_equations; lia.
Qed.

End FlipBit.

Section Binary32.

Lemma digits2_pos_size p : digits2_pos p = Pos.size p.
Proof. induction p; simpl; congruence. Qed.

Lemma digits2_pos_bounds p :
  2 ^ (Z.pos (digits2_pos p) - 1) <= Z.pos p < 2 ^ Z.pos (digits2_pos p).
Proof.
  rewrite digits2_pos_size. split.
  - pose proof (Pos.size_le p) as H.
    assert (H' : 2 ^ Z.pos (Pos.size p) <= 2 * Z.pos p).
    { change 2 with (Z.pos 2) at 1. rewrite <- Pos2Z.inj_pow.
      change (2 * Z.pos p) with (Z.pos p~0). apply Pos2Z.pos_le_pos. exact H. }
    replace (Z.pos (Pos.size p)) with (Z.succ (Z.pos (Pos.size p) - 1)) in H' by lia.
    rewrite Z.pow_succ_r in H' by lia. lia.
  - pose proof (Pos.size_gt p) as H.
    change 2 with (Z.pos 2). rewrite <- Pos2Z.inj_pow. apply Pos2Z.pos_lt_pos. exact H.
Qed.

Lemma digits2_pos_eq p n :
  0 < n -> 2 ^ (n - 1) <= Z.pos p < 2 ^ n -> Z.pos (digits2_pos p) = n.
Proof.
  intros Hn [Hlo Hhi]. destruct (digits2_pos_bounds p) as [Dlo Dhi].
  set (d := Z.pos (digits2_pos p)) in *.
  assert (0 < d) by (unfold d; lia).
  assert (n - 1 < d) by (apply (Z.pow_lt_mono_r_iff 2); lia).
  assert (d - 1 < n) by (apply (Z.pow_lt_mono_r_iff 2); lia).
  lia.
Qed.

(** Whatever the 32 bits, what [Struct.b32_of_bits] reads from them is a
    binary32: a zero, an infinity, a NaN, or a finite value whose
    mantissa and exponent are those of a subnormal or normal binary32. *)
Lemma b32_of_bits_valid w :
  valid_binary Struct.prec32 Struct.emax32 (Struct.b32_of_bits w) = true.
Proof.
  unfold Struct.b32_of_bits.
  pose proof (Z.mod_pos_bound (w / 2 ^ 23) 256 ltac:(lia)) as He.
  pose proof (Z.mod_pos_bound w (2 ^ 23) ltac:(lia)) as Hm.
  set (e := (w / 2 ^ 23) mod 256) in *. set (m := w mod 2 ^ 23) in *.
  destruct (Z.eqb_spec e 0) as [He0|He0].
  - destruct m as [|p|p] eqn:Em; try reflexivity.
    unfold valid_binary, bounded, canonical_mantissa, fexp, emin,
      Struct.prec32, Struct.emax32.
    destruct (digits2_pos_bounds p) as [Dlo Dhi].
    assert (Z.pos (digits2_pos p) <= 23).
    { assert (Z.pos (digits2_pos p) - 1 < 23); [|lia].
      apply (Z.pow_lt_mono_r_iff 2); lia. }
    apply andb_true_iff. split; [apply Z.eqb_eq|apply Z.leb_le]; lia.
  - destruct (Z.eqb_spec e 255) as [He1|He1].
    + destruct (m =? 0); reflexivity.
    + destruct (m + 2 ^ 23) as [|p|p] eqn:Em; try reflexivity.
      unfold valid_binary, bounded, canonical_mantissa, fexp, emin,
        Struct.prec32, Struct.emax32.
      rewrite (digits2_pos_eq p 24)
        by (change (2 ^ (24 - 1)) with (2 ^ 23); change (2 ^ 24) with (2 * 2 ^ 23); lia).
      apply andb_true_iff. split; [apply Z.eqb_eq|apply Z.leb_le]; lia.
Qed.

End Binary32.

(* ===================================================================== *)
(** * The packet codec                                                    *)
(* ===================================================================== *)

Section Codec.
Import Protocol.

Lemma encode_packet_frame command type_code data :
  is_byte command -> is_byte type_code -> len data <= 255 ->
  encode_packet command type_code data
  = Ok (frame HEADER_OUTPUT command type_code data).
Proof.
  intros Hc Ht Hl. unfold encode_packet, bytearray_append.
  assert (Hn : is_byte (len data)) by (pose proof (len_nonneg data); byte_bound).
  rewrite calculate_checksum_formula.
  change (in_byte_range HEADER_OUTPUT) with true. cbn iota. rewrite bind_Ok.
  rewrite (in_byte_range_true _ Hc), bind_Ok.
  rewrite (in_byte_range_true _ Ht), bind_Ok.
  rewrite (in_byte_range_true _ Hn), bind_Ok.
  rewrite (in_byte_range_true _ (checksum_of_byte type_code data)), bind_Ok.
  unfold frame. cbn [app]. reflexivity.
Qed.

(** What [decode_packet] does on any byte string that starts with the
    inbound header, a command, a type code and a length that the
    following bytes cover: it compares the byte after the payload with
    the checksum of the payload, whatever follows that byte. *)
Lemma decode_packet_shape command type_code payload cs trailer :
  decode_packet ([HEADER_INPUT; command; type_code; len payload]
                   ++ payload ++ cs :: trailer)
  = if cs =? checksum_of type_code payload
    then Ok (command, type_code, len payload, payload)
    else Raise DPS150ProtocolError.
Proof.
  unfold decode_packet.
  set (packet := _ ++ _ ++ _).
  assert (Hlen : len packet = 5 + len payload + len trailer).
  { unfold packet. rewrite !len_app, !len_cons. unfold len. simpl. lia. }
  pose proof (len_nonneg payload) as Hp. pose proof (len_nonneg trailer) as Htr.
  destruct (len packet <? 5) eqn:E; [lia|].
  read packet 0 HEADER_INPUT.
  rewrite Z.eqb_refl. cbn [negb].
  read packet 1 command.
  read packet 2 type_code.
  read packet 3 (len payload).
  destruct (len packet <? 5 + len payload) eqn:E2; [lia|].
  assert (Hcs : packet !! Z.to_nat (4 + len payload) = Some cs).
  { unfold packet. rewrite lookup_app_r by (simpl; unfold len; lia).
    rewrite lookup_app_r by (simpl; unfold len; lia).
    replace (_ - _ - _)%nat with 0%nat by (simpl; unfold len; lia). reflexivity. }
  read packet (4 + len payload) cs.
  assert (Hdata : slice packet 4 (4 + len payload) = payload).
  { unfold packet. apply slice_middle; reflexivity. }
  rewrite Hdata, calculate_checksum_formula.
  destruct (cs =? checksum_of type_code payload); reflexivity.
Qed.

(** A byte string shorter than its length byte announces is refused. *)
Lemma decode_packet_incomplete command type_code length rest :
  len rest < 1 + length ->
  decode_packet ([HEADER_INPUT; command; type_code; length] ++ rest)
  = Raise DPS150ProtocolError.
Proof.
  intros Hshort. unfold decode_packet.
  set (packet := _ ++ _).
  assert (Hlen : len packet = 4 + len rest).
  { unfold packet. rewrite len_app. unfold len. simpl. lia. }
  destruct (len packet <? 5) eqn:E; [reflexivity|].
  read packet 0 HEADER_INPUT.
  rewrite Z.eqb_refl. cbn [negb].
  read packet 1 command.
  read packet 2 type_code.
  read packet 3 length.
  destruct (len packet <? 5 + length) eqn:E2; [reflexivity|lia].
Qed.

Lemma decode_inbound_frame command type_code payload :
  decode_packet (inbound_frame command type_code payload)
  = Ok (command, type_code, len payload, payload).
Proof.
  unfold inbound_frame, frame. rewrite decode_packet_shape.
  now rewrite Z.eqb_refl.
Qed.

End Codec.

Section CodecProperties.
Import Protocol.

Lemma to_inbound_frame command type_code payload :
  to_inbound (frame HEADER_OUTPUT command type_code payload)
  = inbound_frame command type_code payload.
Proof. reflexivity. Qed.

(** C2. Round trip of the codec: for every command byte, type-code byte
    and payload of at most 255 bytes, [encode_packet] succeeds, and
    [decode_packet] applied to its frame, with the header replaced by the
    inbound value 0xF0, gives back the command, the type code and the
    payload; the frame's last byte is the checksum that the decoder
    computes. *)
Theorem encode_decode_round_trip command type_code payload :
  is_byte command -> is_byte type_code -> is_bytes payload -> len payload <= 255 ->
  exists packet,
    encode_packet command type_code payload = Ok packet
    /\ decode_packet (to_inbound packet)
       = Ok (command, type_code, len payload, payload)
    /\ getitem packet (4 + len payload)
       = Ok (calculate_checksum HEADER_INPUT command type_code payload).
Proof.
  intros Hc Ht _ Hl. exists (frame HEADER_OUTPUT command type_code payload).
  split; [now apply encode_packet_frame|]. split.
  - rewrite to_inbound_frame. apply decode_inbound_frame.
  - rewrite calculate_checksum_formula. pose proof (len_nonneg payload).
    apply getitem_lookup; [lia|]. unfold frame.
    rewrite lookup_app_r by (simpl; unfold len; lia).
    rewrite lookup_app_r by (simpl; unfold len; lia).
    replace (_ - _ - _)%nat with 0%nat by (simpl; unfold len; lia). reflexivity.
Qed.

Lemma encode_decode_round_trip_witness :
  exists packet,
    encode_packet CMD_GET VOLTAGE_SET [1; 2] = Ok packet
    /\ decode_packet (to_inbound packet) = Ok (CMD_GET, VOLTAGE_SET, len [1; 2], [1; 2])
    /\ getitem packet (4 + len [1; 2])
       = Ok (calculate_checksum HEADER_INPUT CMD_GET VOLTAGE_SET [1; 2]).
Proof.
  apply (encode_decode_round_trip CMD_GET VOLTAGE_SET [1; 2]).
  - byte_bound.
  - byte_bound.
  - byte_bound.
  - vm_compute. discriminate.
Defined.

(** ** Checksum sensitivity *)

Lemma flip_payload_frame command type_code payload j k :
  (j < length payload)%nat ->
  flip_bit_at (4 + j) k (inbound_frame command type_code payload)
  = [HEADER_INPUT; command; type_code; len payload]
      ++ alter (flip_bit k) j payload ++ [checksum_of type_code payload].
Proof.
  intros Hj. unfold flip_bit_at, inbound_frame, frame.
  change (4 + j)%nat with (length [HEADER_INPUT; command; type_code; len payload] + j)%nat.
  rewrite alter_app_r. now rewrite alter_app_l.
Qed.

Lemma decode_flipped_payload command type_code payload j k :
  is_bytes payload -> 0 <= k < 8 -> (j < length payload)%nat ->
  decode_packet (flip_bit_at (4 + j) k (inbound_frame command type_code payload))
  = Raise DPS150ProtocolError.
Proof.
  intros Hp Hk Hj. rewrite flip_payload_frame by exact Hj.
  set (payload' := alter (flip_bit k) j payload).
  assert (Hlen : len payload' = len payload).
  { unfold payload', len. now rewrite length_alter. }
  rewrite <- Hlen, decode_packet_shape.
  destruct (lookup_lt_is_Some_2 payload j Hj) as [b Hb].
  assert (Hne : checksum_of type_code payload <> checksum_of type_code payload').
  { unfold checksum_of. rewrite Hlen. unfold payload'.
    rewrite (Zsum_alter _ _ _ _ Hb).
    replace (type_code + len payload + (Zsum payload - b + flip_bit k b))
      with ((type_code + len payload + Zsum payload) - b + flip_bit k b) by lia.
    intros E. symmetry in E. revert E. apply flip_bit_changes_mod; [|exact Hk].
    eapply is_bytes_lookup; eassumption. }
  rewrite Hlen. destruct (Z.eqb_spec (checksum_of type_code payload)
                            (checksum_of type_code payload')); [contradiction|reflexivity].
Qed.

Lemma decode_longer_length command type_code payload k :
  len payload <= 255 -> 0 <= k < 8 -> Z.testbit (len payload) k = false ->
  decode_packet (flip_bit_at 3 k (inbound_frame command type_code payload))
  = Raise DPS150ProtocolError.
Proof.
  intros Hl Hk Hbit.
  assert (Hn : is_byte (len payload)) by (pose proof (len_nonneg payload); byte_bound).
  destruct (flip_bit_spec _ k Hn Hk) as [_ Hflip]. rewrite Hbit in Hflip.
  pose proof (pow2_byte k Hk).
  change (flip_bit_at 3 k (inbound_frame command type_code payload))
    with ([HEADER_INPUT; command; type_code; flip_bit k (len payload)]
            ++ payload ++ [checksum_of type_code payload]).
  apply decode_packet_incomplete. rewrite len_app, len_cons, len_nil. lia.
Qed.

Lemma decode_shorter_length command type_code payload k b :
  len payload <= 255 -> 0 <= k < 8 -> Z.testbit (len payload) k = true ->
  payload !! Z.to_nat (len payload - 2 ^ k) = Some b ->
  let shorter := take (Z.to_nat (len payload - 2 ^ k)) payload in
  decode_packet (flip_bit_at 3 k (inbound_frame command type_code payload))
  = if b =? checksum_of type_code shorter
    then Ok (command, type_code, len shorter, shorter)
    else Raise DPS150ProtocolError.
Proof.
  intros Hl Hk Hbit Hb shorter.
  assert (Hn : is_byte (len payload)) by (pose proof (len_nonneg payload); byte_bound).
  destruct (flip_bit_spec _ k Hn Hk) as [Hrange Hflip]. rewrite Hbit in Hflip.
  pose proof (pow2_byte k Hk) as Hpow.
  change (flip_bit_at 3 k (inbound_frame command type_code payload))
    with ([HEADER_INPUT; command; type_code; flip_bit k (len payload)]
            ++ payload ++ [checksum_of type_code payload]).
  set (n' := Z.to_nat (len payload - 2 ^ k)) in *.
  assert (Hn' : (n' < length payload)%nat) by (apply lookup_lt_is_Some_1; eauto).
  assert (Hshort : len shorter = flip_bit k (len payload)).
  { unfold shorter, len in *. rewrite length_take. unfold is_byte in Hrange. lia. }
  assert (Hsplit : payload = shorter ++ b :: drop (S n') payload).
  { unfold shorter. rewrite <- (take_drop n' payload) at 1. f_equal.
    now apply drop_S. }
  rewrite <- Hshort. rewrite Hsplit at 1. rewrite <- !app_assoc. cbn [app].
  apply decode_packet_shape.
Qed.

(** C3, as the code has it. For every well-formed inbound frame and every
    bit position [k] of a byte: inverting bit [k] of any payload byte, or
    setting bit [k] of the length byte where it is clear, without
    recomputing the checksum, makes [decode_packet] raise a protocol
    error. Clearing a set bit of the length byte leaves a shorter frame
    followed by more bytes, which [decode_packet] accepts exactly when the
    payload byte that now sits in the checksum position is the checksum of
    the bytes before it. The header and the command are no part of the
    checksum: inverting a bit of them leaves the computed checksum as it
    was, and a frame with such a bit inverted in the command still
    decodes. *)
Theorem checksum_sensitivity command type_code payload k :
  is_byte command -> is_byte type_code -> is_bytes payload -> len payload <= 255 ->
  0 <= k < 8 ->
  let packet := inbound_frame command type_code payload in
  (forall j, (j < length payload)%nat ->
     decode_packet (flip_bit_at (4 + j) k packet) = Raise ProtocolError)
  /\ (Z.testbit (len payload) k = false ->
      decode_packet (flip_bit_at 3 k packet) = Raise ProtocolError)
  /\ (Z.testbit (len payload) k = true ->
      forall b, payload !! Z.to_nat (len payload - 2 ^ k) = Some b ->
      let shorter := take (Z.to_nat (len payload - 2 ^ k)) payload in
      decode_packet (flip_bit_at 3 k packet)
      = if b =? checksum_of type_code shorter
        then Ok (command, type_code, len shorter, shorter)
        else Raise ProtocolError)
  /\ calculate_checksum (flip_bit k HEADER_INPUT) (flip_bit k command) type_code payload
     = calculate_checksum HEADER_INPUT command type_code payload
  /\ decode_packet (flip_bit_at 1 k packet)
     = Ok (flip_bit k command, type_code, len payload, payload).
Proof.
  intros Hc Ht Hp Hl Hk packet. split; [|split; [|split; [|split]]].
  - intros j Hj. now apply decode_flipped_payload.
  - intros Hbit. now apply decode_longer_length.
  - intros Hbit b Hb. now apply decode_shorter_length.
  - now rewrite !calculate_checksum_formula.
  - apply (decode_inbound_frame (flip_bit k command)).
Qed.

Lemma checksum_sensitivity_witness :
  let packet := inbound_frame CMD_GET VOLTAGE_SET [1; 2] in
  (forall j, (j < length [1; 2])%nat ->
     decode_packet (flip_bit_at (4 + j) 0 packet) = Raise ProtocolError)
  /\ (Z.testbit (len [1; 2]) 0 = false ->
      decode_packet (flip_bit_at 3 0 packet) = Raise ProtocolError)
  /\ (Z.testbit (len [1; 2]) 0 = true ->
      forall b, [1; 2] !! Z.to_nat (len [1; 2] - 2 ^ 0) = Some b ->
      let shorter := take (Z.to_nat (len [1; 2] - 2 ^ 0)) [1; 2] in
      decode_packet (flip_bit_at 3 0 packet)
      = if b =? checksum_of VOLTAGE_SET shorter
        then Ok (CMD_GET, VOLTAGE_SET, len shorter, shorter)
        else Raise ProtocolError)
  /\ calculate_checksum (flip_bit 0 HEADER_INPUT) (flip_bit 0 CMD_GET) VOLTAGE_SET [1; 2]
     = calculate_checksum HEADER_INPUT CMD_GET VOLTAGE_SET [1; 2]
  /\ decode_packet (flip_bit_at 1 0 packet)
     = Ok (flip_bit 0 CMD_GET, VOLTAGE_SET, len [1; 2], [1; 2]).
Proof.
  apply (checksum_sensitivity CMD_GET VOLTAGE_SET [1; 2] 0).
  - byte_bound.
  - byte_bound.
  - byte_bound.
  - vm_compute. discriminate.
  - lia.
Defined.

(** C3 as it is stated fails where a bit of the length byte is cleared:
    the frame below carries the one payload byte 193, which is also its
    type code; with bit 0 of its length byte inverted it reads as a frame
    with an empty payload whose checksum byte is that 193, and decodes. *)
Lemma checksum_sensitivity_length_counterexample :
  let packet := inbound_frame CMD_GET VOLTAGE_SET [193] in
  packet = [0xF0; 0xA1; 193; 1; 193; 131]
  /\ decode_packet packet = Ok (CMD_GET, VOLTAGE_SET, 1, [193])
  /\ flip_bit_at 3 0 packet = [0xF0; 0xA1; 193; 0; 193; 131]
  /\ decode_packet (flip_bit_at 3 0 packet) = Ok (CMD_GET, VOLTAGE_SET, 0, [])
  /\ decode_packet (flip_bit_at 3 0 packet) <> Raise ProtocolError.
Proof. cbv zeta. repeat split; try reflexivity. discriminate. Qed.

(** ** [bytes_to_float] *)

(** C6, as the code has it. On fewer than 4 bytes [bytes_to_float] raises
    the protocol error of the library, not an invalid-argument error; on 4
    bytes or more it returns the value whose little-endian bit pattern
    is the first 4 bytes, whatever follows them, and that value is an
    IEEE-754 binary32. *)
Theorem bytes_to_float_cases short b0 b1 b2 b3 rest :
  len short < 4 ->
  bytes_to_float short = Raise ProtocolError
  /\ bytes_to_float (b0 :: b1 :: b2 :: b3 :: rest)
     = Ok (Struct.b32_of_bits (b0 + 256 * (b1 + 256 * (b2 + 256 * b3))))
  /\ valid_binary Struct.prec32 Struct.emax32
       (Struct.b32_of_bits (b0 + 256 * (b1 + 256 * (b2 + 256 * b3)))) = true.
Proof.
  intros Hshort. split; [|split].
  - unfold bytes_to_float.
    destruct (len short <? 4) eqn:E; [reflexivity|lia].
  - unfold bytes_to_float.
    rewrite !len_cons. pose proof (len_nonneg rest).
    destruct (1 + (1 + (1 + (1 + len rest))) <? 4) eqn:E; [lia|].
    unfold Struct.unpack_f, slice.
    change (Z.to_nat (4 - 0)) with 4%nat. change (Z.to_nat 0) with 0%nat.
    unfold Struct.le_combine. simpl. do 2 f_equal. lia.
  - apply b32_of_bits_valid.
Qed.

Lemma bytes_to_float_cases_witness :
  bytes_to_float [0x00; 0x00; 0x40] = Raise ProtocolError
  /\ bytes_to_float [0x00; 0x00; 0x40; 0x41; 0x07]
     = Ok (Struct.b32_of_bits (0x00 + 256 * (0x00 + 256 * (0x40 + 256 * 0x41))))
  /\ valid_binary Struct.prec32 Struct.emax32
       (Struct.b32_of_bits (0x00 + 256 * (0x00 + 256 * (0x40 + 256 * 0x41)))) = true.
Proof. apply (bytes_to_float_cases [0x00; 0x00; 0x40]). vm_compute. reflexivity. Defined.

(** The four bytes 00 00 40 41 are 12.0, that is [12582912 * 2^-20]. *)
Example bytes_to_float_12 :
  bytes_to_float [0x00; 0x00; 0x40; 0x41] = Ok (S754_finite false 12582912 (-20)).
Proof. reflexivity. Qed.

(** C6 as it is stated fails in the class of the error: the one raised is
    [DPS150ProtocolError], which is not the invalid-argument error. *)
Lemma bytes_to_float_error_counterexample :
  len [0x00; 0x00; 0x40] < 4
  /\ bytes_to_float [0x00; 0x00; 0x40] = Raise DPS150ProtocolError
  /\ bytes_to_float [0x00; 0x00; 0x40] <> Raise InvalidArgument.
Proof. repeat split; try reflexivity. discriminate. Qed.

End CodecProperties.

(** 12.0 is [3 * 2^2]; the frame is the one of the specification's
    end-to-end scenario, with checksum 70. *)
Example encode_set_voltage_12 :
  Protocol.encode_float_packet CMD_SET VOLTAGE_SET (S754_finite false 3 2)
  = Ok [0xF1; 0xB1; 193; 4; 0x00; 0x00; 0x40; 0x41; 70].
Proof. reflexivity. Qed.

(* ===================================================================== *)
(** * The stream framer                                                   *)
(* ===================================================================== *)

Section Framer.
Import Protocol.

Lemma extract_step_turn buffer i packets :
  is_bytes buffer -> 0 <= i ->
  exists step, extract_step buffer i packets = Ok step /\ turn buffer i packets step.
Proof.
  intros Hb Hi. unfold extract_step.
  destruct (i <? len buffer - 5) eqn:Hcond; [|eexists; split; [reflexivity|constructor]].
  destruct (getitem_in_range buffer i) as (b & -> & _); [unfold len in *; lia|].
  rewrite bind_Ok.
  destruct (b =? HEADER_INPUT); [|eexists; split; [reflexivity|constructor; lia]].
  destruct (i + 3 >=? len buffer) eqn:H3; [eexists; split; [reflexivity|constructor]|].
  destruct (getitem_in_range buffer (i + 3)) as (length & -> & Hl); [unfold len in *; lia|].
  rewrite bind_Ok.
  assert (Hlen : is_byte length) by (eapply is_bytes_lookup; eassumption).
  destruct (i + (5 + length) >? len buffer) eqn:Hfit;
    [eexists; split; [reflexivity|constructor]|].
  eexists; split; [reflexivity|]. unfold is_byte in Hlen. constructor; lia.
Qed.

(** The loop ends on every byte string, within the turns that [scan]
    allows, and leaves an index between the one it started from and the
    end of the buffer. *)
Lemma extract_loop_total buffer :
  is_bytes buffer ->
  forall fuel i packets,
    0 <= i <= len buffer -> len buffer - i < Z.of_nat fuel ->
    exists packets' i',
      extract_loop fuel buffer i packets = Some (Ok (packets', i'))
      /\ i <= i' <= len buffer.
Proof.
  intros Hb. induction fuel as [|fuel IH]; intros i packets Hi Hfuel; [lia|].
  cbn [extract_loop].
  destruct (extract_step_turn buffer i packets Hb) as (step & -> & Hturn); [lia|].
  destruct Hturn as [ | Hlt | length Hlt Hlen Hfit ].
  - exists packets, i. split; [reflexivity|lia].
  - destruct (IH (i + 1) packets) as (packets' & i' & -> & Hi'); [lia|lia|].
    exists packets', i'. split; [reflexivity|lia].
  - destruct (IH (i + (5 + length)) (packets ++ [slice buffer i (i + (5 + length))]))
      as (packets' & i' & -> & Hi'); [lia|lia|].
    exists packets', i'. split; [reflexivity|lia].
Qed.

Lemma scan_total buffer :
  is_bytes buffer ->
  exists packets i, scan buffer = Some (Ok (packets, i)) /\ 0 <= i <= len buffer.
Proof.
  intros Hb. unfold scan.
  apply (extract_loop_total buffer Hb); unfold len; lia.
Qed.

(** More turns than needed change nothing. *)
Lemma extract_loop_more_fuel buffer fuel i packets r :
  extract_loop fuel buffer i packets = Some r ->
  forall fuel', (fuel <= fuel')%nat -> extract_loop fuel' buffer i packets = Some r.
Proof.
  revert i packets. induction fuel as [|fuel IH]; intros i packets H fuel' Hle;
    [discriminate|].
  destruct fuel' as [|fuel']; [lia|]. cbn [extract_loop] in *.
  destruct (extract_step buffer i packets) as [[i' packets'|i' packets']|e]; try exact H.
  apply IH; [exact H|lia].
Qed.

(** C8 as it is stated fails on a call that finds no packet: on seven
    noise bytes the scan skips two of them and stops at index 2, and the
    buffer still holds all seven. The five bytes that the scan has not
    consumed are no start of a frame either: the inbound header is not
    among them. *)
Lemma extract_keeps_noise_counterexample :
  let self := {| buffer := [0; 0; 0; 0; 0; 0; 0] |} in
  scan (buffer self) = Some (Ok ([], 2))
  /\ extract_packets self = Some (Ok ([], self))
  /\ buffer self <> drop (Z.to_nat 2) (buffer self)
  /\ (HEADER_INPUT ∉ drop (Z.to_nat 2) (buffer self)).
Proof.
  cbv zeta. split; [reflexivity|]. split; [reflexivity|]. split; [discriminate|].
  apply (bool_decide_unpack _). vm_compute. exact I.
Qed.

(** ** Fragmentation *)

(** A frame that has not yet arrived in full is left in the buffer. *)
Lemma extract_proper_prefix command type_code payload arrived missing :
  arrived ++ missing = inbound_frame command type_code payload ->
  missing <> [] ->
  extract_packets {| buffer := arrived |} = Some (Ok ([], {| buffer := arrived |})).
Proof.
  intros Hsplit Hmissing.
  assert (Hshort : len arrived < 5 + len payload).
  { apply (f_equal len) in Hsplit. unfold inbound_frame, frame in Hsplit.
    rewrite !len_app, !len_cons, len_nil in Hsplit.
    destruct missing; [contradiction|]. rewrite len_cons in Hsplit.
    pose proof (len_nonneg missing). lia. }
  unfold extract_packets, scan. cbn [buffer extract_loop]. unfold extract_step.
  destruct (0 <? len arrived - 5) eqn:Hcond; [|reflexivity].
  destruct arrived as [|b0 [|b1 [|b2 [|b3 arrived]]]];
    try (rewrite ?len_cons, ?len_nil in Hcond; lia).
  unfold inbound_frame, frame in Hsplit. cbn [app] in Hsplit.
  injection Hsplit as -> -> -> -> Hrest.
  set (arrived' := HEADER_INPUT :: command :: type_code :: len payload :: arrived) in *.
  read arrived' 0 HEADER_INPUT. rewrite Z.eqb_refl.
  destruct (0 + 3 >=? len arrived') eqn:H3; [reflexivity|].
  read arrived' (0 + 3) (len payload).
  destruct (0 + (5 + len payload) >? len arrived') eqn:Hfit; [reflexivity|lia].
Qed.

(** A frame with a payload, alone in the buffer, is extracted, and the
    buffer is empty afterwards. *)
Lemma extract_whole_frame command type_code payload :
  1 <= len payload ->
  extract_packets {| buffer := inbound_frame command type_code payload |}
  = Some (Ok ([inbound_frame command type_code payload], {| buffer := [] |})).
Proof.
  intros Hpayload.
  set (packet := inbound_frame command type_code payload).
  assert (Hlen : len packet = 5 + len payload).
  { unfold packet, inbound_frame, frame. rewrite !len_app, !len_cons, len_nil.
    unfold len. simpl. lia. }
  assert (Hfirst : extract_step packet 0 [] = Ok (Continue (5 + len payload) [packet])).
  { unfold extract_step. destruct (0 <? len packet - 5) eqn:Hcond; [|lia].
    read packet 0 HEADER_INPUT. rewrite Z.eqb_refl.
    destruct (0 + 3 >=? len packet) eqn:H3; [lia|].
    read packet (0 + 3) (len payload).
    destruct (0 + (5 + len payload) >? len packet) eqn:Hfit; [lia|].
    rewrite Z.add_0_l, <- Hlen, slice_all. reflexivity. }
  assert (Hsecond : extract_step packet (5 + len payload) [packet]
                    = Ok (Leave (5 + len payload) [packet])).
  { unfold extract_step.
    destruct (5 + len payload <? len packet - 5) eqn:Hcond; [lia|reflexivity]. }
  assert (Hfuel : exists fuel, length packet = S fuel).
  { destruct packet; [discriminate|]. eauto. }
  destruct Hfuel as [fuel Hfuel].
  unfold extract_packets, scan. cbn [buffer]. rewrite Hfuel.
  cbn [extract_loop]. rewrite Hfirst, Hsecond.
  do 3 f_equal. unfold len in *.
  replace (Z.to_nat (5 + Z.of_nat (length payload))) with (length packet) by lia.
  rewrite drop_all. reflexivity.
Qed.

Lemma feed_empty_chunks chunks :
  concat chunks = [] ->
  feed_chunks chunks {| buffer := [] |} = Some (Ok ([], {| buffer := [] |})).
Proof.
  induction chunks as [|chunk chunks IH]; intros H; [reflexivity|].
  cbn [concat] in H. apply app_eq_nil in H as [-> H].
  cbn [feed_chunks]. unfold append. cbn [buffer app].
  change (extract_packets {| buffer := [] |}) with (Some (Ok ([] : list (list Z), {| buffer := [] |}))).
  cbn iota. now rewrite (IH H).
Qed.

Lemma feed_remaining_chunks command type_code payload chunks arrived :
  1 <= len payload ->
  arrived ++ concat chunks = inbound_frame command type_code payload ->
  concat chunks <> [] ->
  feed_chunks chunks {| buffer := arrived |}
  = Some (Ok ([inbound_frame command type_code payload], {| buffer := [] |})).
Proof.
  intros Hpayload. revert arrived.
  induction chunks as [|chunk chunks IH]; intros arrived Hsplit Hmore;
    [contradiction|].
  cbn [concat] in Hsplit. rewrite app_assoc in Hsplit.
  cbn [feed_chunks]. unfold append. cbn [buffer].
  destruct (decide (concat chunks = [])) as [Hdone|Hnot].
  - rewrite Hdone, app_nil_r in Hsplit. rewrite Hsplit.
    rewrite (extract_whole_frame _ _ _ Hpayload).
    now rewrite (feed_empty_chunks _ Hdone).
  - rewrite (extract_proper_prefix _ _ _ _ _ Hsplit Hnot).
    now rewrite (IH _ Hsplit Hnot).
Qed.

(** Where the payload is not empty the framer does what C4 says: however
    the bytes of a frame are cut into chunks, the extractions after the
    chunks give the frame, once, and leave the buffer empty, as the
    delivery of the whole frame in one chunk does. *)
Lemma framer_fragmentation command type_code payload chunks :
  1 <= len payload ->
  concat chunks = inbound_frame command type_code payload ->
  feed_chunks chunks PacketBuffer_init
  = Some (Ok ([inbound_frame command type_code payload], PacketBuffer_init))
  /\ feed_chunks chunks PacketBuffer_init
     = feed_chunks [inbound_frame command type_code payload] PacketBuffer_init.
Proof.
  intros Hpayload Hchunks.
  assert (Hfeed : forall chunks',
             concat chunks' = inbound_frame command type_code payload ->
             feed_chunks chunks' PacketBuffer_init
             = Some (Ok ([inbound_frame command type_code payload], PacketBuffer_init))).
  { intros chunks' H. apply feed_remaining_chunks; [exact Hpayload|exact H|].
    rewrite H. discriminate. }
  split; [now apply Hfeed|].
  rewrite (Hfeed chunks Hchunks). symmetry. apply Hfeed.
  cbn [concat]. apply app_nil_r.
Qed.

(** C4 fails on the code for a frame with an empty payload: the loop
    condition [i < len(self.buffer) - 5] asks for more than the five
    bytes such a frame has, so the frame, complete and valid, is not
    extracted, neither delivered whole nor byte by byte; it stays in the
    buffer. *)
Theorem framer_misses_empty_payload_frame :
  let packet := inbound_frame CMD_GET MODEL_NAME [] in
  packet = [0xF0; 0xA1; 222; 0; 222]
  /\ decode_packet packet = Ok (CMD_GET, MODEL_NAME, 0, [])
  /\ feed_chunks [packet] PacketBuffer_init = Some (Ok ([], {| buffer := packet |}))
  /\ feed_chunks [[0xF0]; [0xA1]; [222]; [0]; [222]] PacketBuffer_init
     = Some (Ok ([], {| buffer := packet |})).
Proof. cbv zeta. repeat split; reflexivity. Qed.

End Framer.

(* ===================================================================== *)
(** * The device session: writing                                         *)
(* ===================================================================== *)

Section Writing.
Import Protocol Device.

Lemma pack_f_bytes x data : Struct.pack_f x = Ok data -> len data = 4 /\ is_bytes data.
Proof.
  assert (Hsplit : forall w, len (Struct.le_split w) = 4 /\ is_bytes (Struct.le_split w)).
  { intros w. split; [reflexivity|]. unfold Struct.le_split.
    repeat constructor; apply Z.mod_pos_bound; lia. }
  unfold Struct.pack_f. destruct x as [s|s| |s m e]; try (intros [= <-]; apply Hsplit).
  destruct (binary_round _ _ _ _ _); intros [= <-]; apply Hsplit.
Qed.

(** On an attached session a command is written as one frame, and nothing
    else of the session changes. *)
Lemma send_command_attached self command type_code data :
  attached self -> is_byte command -> is_byte type_code -> len data <= 255 ->
  exists self',
    _send_command command type_code data self = (Ok tt, self')
    /\ attached self'
    /\ written self' = written self ++ [frame HEADER_OUTPUT command type_code data]
    /\ state self' = state self /\ info self' = info self
    /\ _callbacks self' = _callbacks self.
Proof.
  intros (t & w & Ht & Hc & Hw) Hcommand Htype Hlen.
  unfold _send_command. rewrite Ht, Hc. cbn [negb].
  rewrite (encode_packet_frame _ _ _ Hcommand Htype Hlen).
  unfold Transport.write. rewrite Hw. unfold Transport.is_connected in Hc.
  rewrite Hc. cbn [negb].
  eexists. split; [reflexivity|]. unfold written, attached. cbn. rewrite Ht, Hw. cbn.
  repeat split; try reflexivity. eexists _, _. repeat split; reflexivity.
Qed.

Lemma bind_ok {A B} (m : M A) (k : A -> M B) self a self' :
  m self = (Ok a, self') -> bind m k self = k a self'.
Proof. intros H. unfold bind. now rewrite H. Qed.

Lemma set_float_attached self type_code value data :
  attached self -> is_byte type_code -> Struct.pack_f value = Ok data ->
  exists self',
    (bind (lift (Struct.pack_f value)) (fun data => _send_command CMD_SET type_code data))
      self = (Ok tt, self')
    /\ attached self'
    /\ written self' = written self ++ [frame HEADER_OUTPUT CMD_SET type_code data].
Proof.
  intros Ha Htype Hpack. destruct (pack_f_bytes _ _ Hpack) as [Hlen _].
  destruct (send_command_attached self CMD_SET type_code data Ha) as (self' & Hs & Ha' & Hw & _);
    [byte_bound | exact Htype | lia |].
  exists self'. split; [|split; assumption].
  rewrite (bind_ok _ _ self data self); [exact Hs|]. unfold lift. now rewrite Hpack.
Qed.

Lemma set_byte_attached self type_code value :
  attached self -> is_byte type_code -> 0 <= value <= 10 ->
  exists self',
    (bind (lift (bytes_of_int value)) (fun data => _send_command CMD_SET type_code data))
      self = (Ok tt, self')
    /\ attached self'
    /\ written self' = written self ++ [frame HEADER_OUTPUT CMD_SET type_code [value]].
Proof.
  intros Ha Htype Hvalue.
  destruct (send_command_attached self CMD_SET type_code [value] Ha) as (self' & Hs & Ha' & Hw & _);
    [byte_bound | exact Htype | unfold len; simpl; lia |].
  exists self'. split; [|split; assumption].
  rewrite (bind_ok _ _ self [value] self); [exact Hs|].
  unfold lift, bytes_of_int. rewrite in_byte_range_true; [reflexivity|byte_bound].
Qed.

(** C7. [set_brightness] and [set_volume] raise the invalid-argument
    error for every value outside 0..10, and [set_group] for every group
    outside 1..6, and they leave the session as it was, so that nothing
    has been written; on a session whose transport is attached they
    succeed for every value in 0..10, the bounds 0 and 10 included, and
    write one frame. *)
Theorem domain_validation self ready bad_value bad_group good_value voltage current :
  ~ (0 <= bad_value <= 10) -> ~ (1 <= bad_group <= 6) ->
  attached ready -> 0 <= good_value <= 10 ->
  set_brightness bad_value self = (Raise InvalidArgument, self)
  /\ set_volume bad_value self = (Raise InvalidArgument, self)
  /\ set_group bad_group voltage current self = (Raise InvalidArgument, self)
  /\ written (snd (set_brightness bad_value self)) = written self
  /\ written (snd (set_volume bad_value self)) = written self
  /\ written (snd (set_group bad_group voltage current self)) = written self
  /\ (exists ready',
        set_brightness good_value ready = (Ok tt, ready')
        /\ written ready'
           = written ready ++ [frame HEADER_OUTPUT CMD_SET BRIGHTNESS [good_value]])
  /\ (exists ready',
        set_volume good_value ready = (Ok tt, ready')
        /\ written ready'
           = written ready ++ [frame HEADER_OUTPUT CMD_SET VOLUME [good_value]]).
Proof.
  intros Hbad Hgroup Hready Hgood.
  assert (Hb : set_brightness bad_value self = (Raise InvalidArgument, self)).
  { unfold set_brightness.
    destruct ((0 <=? bad_value) && (bad_value <=? 10)) eqn:E; [|reflexivity].
    apply andb_true_iff in E. lia. }
  assert (Hv : set_volume bad_value self = (Raise InvalidArgument, self)).
  { unfold set_volume.
    destruct ((0 <=? bad_value) && (bad_value <=? 10)) eqn:E; [|reflexivity].
    apply andb_true_iff in E. lia. }
  assert (Hg : set_group bad_group voltage current self = (Raise InvalidArgument, self)).
  { unfold set_group.
    destruct ((1 <=? bad_group) && (bad_group <=? 6)) eqn:E; [|reflexivity].
    apply andb_true_iff in E. lia. }
  rewrite Hb, Hv, Hg. repeat (split; [reflexivity|]).
  assert (Hin : (0 <=? good_value) && (good_value <=? 10) = true)
    by (apply andb_true_iff; lia).
  split.
  - unfold set_brightness. rewrite Hin. cbn [negb].
    destruct (set_byte_attached ready BRIGHTNESS good_value Hready) as (r & Hr & _ & Hw);
      [byte_bound | lia | eauto].
  - unfold set_volume. rewrite Hin. cbn [negb].
    destruct (set_byte_attached ready VOLUME good_value Hready) as (r & Hr & _ & Hw);
      [byte_bound | lia | eauto].
Qed.

Lemma connected_session_attached : attached connected_session.
Proof. eexists _, _. repeat split. Qed.

Lemma domain_validation_witness :
  set_brightness 11 DPS150_init = (Raise InvalidArgument, DPS150_init)
  /\ set_volume 11 DPS150_init = (Raise InvalidArgument, DPS150_init)
  /\ set_group 7 (S754_finite false 3 2) (S754_finite false 1 0) DPS150_init
     = (Raise InvalidArgument, DPS150_init)
  /\ written (snd (set_brightness 11 DPS150_init)) = written DPS150_init
  /\ written (snd (set_volume 11 DPS150_init)) = written DPS150_init
  /\ written (snd (set_group 7 (S754_finite false 3 2) (S754_finite false 1 0) DPS150_init))
     = written DPS150_init
  /\ (exists ready',
        set_brightness 10 connected_session = (Ok tt, ready')
        /\ written ready'
           = written connected_session ++ [frame HEADER_OUTPUT CMD_SET BRIGHTNESS [10]])
  /\ (exists ready',
        set_volume 10 connected_session = (Ok tt, ready')
        /\ written ready'
           = written connected_session ++ [frame HEADER_OUTPUT CMD_SET VOLUME [10]]).
Proof.
  apply (domain_validation DPS150_init connected_session 11 7 10).
  - lia.
  - lia.
  - exact connected_session_attached.
  - lia.
Defined.

(** C9, as the code has it. For every group 1..6 and every voltage and
    current that [struct.pack] can pack, [set_group] on an attached
    session writes exactly four frames, in this order: the live set-point
    voltage, the live set-point current, the voltage of the group slot and
    the current of the group slot. *)
Theorem set_group_frames self group voltage current data_v data_c :
  attached self -> 1 <= group <= 6 ->
  Struct.pack_f voltage = Ok data_v -> Struct.pack_f current = Ok data_c ->
  exists self',
    set_group group voltage current self = (Ok tt, self')
    /\ written self'
       = written self ++
         [ frame HEADER_OUTPUT CMD_SET VOLTAGE_SET data_v;
           frame HEADER_OUTPUT CMD_SET CURRENT_SET data_c;
           frame HEADER_OUTPUT CMD_SET (GROUP1_VOLTAGE_SET + (group - 1) * 2) data_v;
           frame HEADER_OUTPUT CMD_SET (GROUP1_CURRENT_SET + (group - 1) * 2) data_c ].
Proof.
  intros Ha Hgroup Hv Hc. unfold set_group.
  assert (Hin : (1 <=? group) && (group <=? 6) = true) by (apply andb_true_iff; lia).
  rewrite Hin. cbn [negb].
  destruct (set_float_attached self VOLTAGE_SET voltage data_v Ha) as (s1 & H1 & A1 & W1);
    [byte_bound | exact Hv |].
  destruct (set_float_attached s1 CURRENT_SET current data_c A1) as (s2 & H2 & A2 & W2);
    [byte_bound | exact Hc |].
  destruct (set_float_attached s2 (GROUP1_VOLTAGE_SET + (group - 1) * 2) voltage data_v A2)
    as (s3 & H3 & A3 & W3); [byte_bound | exact Hv |].
  destruct (set_float_attached s3 (GROUP1_CURRENT_SET + (group - 1) * 2) current data_c A3)
    as (s4 & H4 & A4 & W4); [byte_bound | exact Hc |].
  exists s4. split.
  - rewrite (bind_ok _ _ self tt s1 H1). rewrite (bind_ok _ _ s1 tt s2 H2).
    unfold bind at 1. unfold lift at 1. rewrite Hv.
    assert (H3' : _send_command CMD_SET (GROUP1_VOLTAGE_SET + (group - 1) * 2) data_v s2
                  = (Ok tt, s3)).
    { revert H3. unfold bind, lift. now rewrite Hv. }
    rewrite (bind_ok _ _ s2 tt s3 H3'). exact H4.
  - rewrite W4, W3, W2, W1. rewrite <- !app_assoc. reflexivity.
Qed.

Lemma set_group_frames_witness :
  exists self',
    set_group 1 (S754_finite false 3 2) (S754_finite false 1 0) connected_session
    = (Ok tt, self')
    /\ written self'
       = written connected_session ++
         [ frame HEADER_OUTPUT CMD_SET VOLTAGE_SET [0x00; 0x00; 0x40; 0x41];
           frame HEADER_OUTPUT CMD_SET CURRENT_SET [0x00; 0x00; 0x80; 0x3F];
           frame HEADER_OUTPUT CMD_SET (GROUP1_VOLTAGE_SET + (1 - 1) * 2)
             [0x00; 0x00; 0x40; 0x41];
           frame HEADER_OUTPUT CMD_SET (GROUP1_CURRENT_SET + (1 - 1) * 2)
             [0x00; 0x00; 0x80; 0x3F] ].
Proof.
  apply (set_group_frames connected_session 1 (S754_finite false 3 2) (S754_finite false 1 0)).
  - exact connected_session_attached.
  - lia.
  - reflexivity.
  - reflexivity.
Defined.

(** C9 as it is stated fails in the number of frames: for group 1,
    12.0 V and 1.0 A the session has written four frames, not two. *)
Lemma set_group_frames_counterexample :
  let r := set_group 1 (S754_finite false 3 2) (S754_finite false 1 0) connected_session in
  fst r = Ok tt
  /\ written (snd r)
     = [ [0xF1; 0xB1; 193; 4; 0x00; 0x00; 0x40; 0x41; 70];
         [0xF1; 0xB1; 194; 4; 0x00; 0x00; 0x80; 0x3F; 133];
         [0xF1; 0xB1; 197; 4; 0x00; 0x00; 0x40; 0x41; 74];
         [0xF1; 0xB1; 198; 4; 0x00; 0x00; 0x80; 0x3F; 137] ]
  /\ length (written (snd r)) <> 2%nat.
Proof. cbv zeta. repeat split; try reflexivity. vm_compute. discriminate. Qed.

End Writing.

(* ===================================================================== *)
(** * The device session: receiving                                       *)
(* ===================================================================== *)

Section Receiving.
Import Protocol Models Device.

Variable decode_text : list Z -> string.

(** A parse that gives [None] leaves the session alone and calls no
    callback. *)
Lemma on_packet_received_None command type_code data self :
  _parse_packet_data decode_text type_code data = Ok None ->
  _on_packet_received decode_text command type_code data self = (self, []).
Proof. intros H. unfold _on_packet_received. now rewrite H. Qed.

Lemma parse_empty_payload type_code :
  _parse_packet_data decode_text type_code [] = Ok None.
Proof. reflexivity. Qed.

Lemma decode_packet_data packet command type_code length data :
  decode_packet packet = Ok (command, type_code, length, data) ->
  data = slice packet 4 (4 + length).
Proof.
  unfold decode_packet. destruct (len packet <? 5); [discriminate|].
  destruct (getitem packet 0) as [header|]; [|discriminate]. rewrite bind_Ok.
  destruct (negb (header =? HEADER_INPUT)); [discriminate|].
  destruct (getitem packet 1) as [c|]; [|discriminate]. rewrite bind_Ok.
  destruct (getitem packet 2) as [t|]; [|discriminate]. rewrite bind_Ok.
  destruct (getitem packet 3) as [l|]; [|discriminate]. rewrite bind_Ok.
  destruct (len packet <? 5 + l); [discriminate|].
  destruct (getitem packet (4 + l)) as [cs|]; [|discriminate]. rewrite bind_Ok.
  destruct (negb _); [discriminate|].
  intros [= <- <- <- <-]. reflexivity.
Qed.

(** C10. A frame whose declared length is 0 decodes to an empty payload,
    and on an empty payload the packet handler changes nothing: the
    session afterwards is the session before, state and device
    information included, and no callback is called. *)
Theorem empty_payload_no_update self packet command type_code data :
  decode_packet packet = Ok (command, type_code, 0, data) ->
  data = []
  /\ _on_packet_received decode_text command type_code data self = (self, [])
  /\ (forall command' type_code',
        _on_packet_received decode_text command' type_code' [] self = (self, [])).
Proof.
  intros Hdecode. apply decode_packet_data in Hdecode.
  assert (Hdata : data = []) by (rewrite Hdecode; reflexivity).
  subst data. rewrite Hdata. repeat split; intros;
    apply on_packet_received_None, parse_empty_payload.
Qed.

(** ** The protection state *)

Lemma parse_protection_out_of_range index rest :
  ~ (0 <= index <= 6) ->
  _parse_packet_data decode_text PROTECTION_STATE (index :: rest) = Ok None.
Proof.
  intros Hout. unfold _parse_packet_data. rewrite len_cons.
  pose proof (len_nonneg rest) as Hrest.
  destruct (1 + len rest =? 0) eqn:E; [lia|].
  change (parse_body decode_text PROTECTION_STATE (index :: rest))
    with (state_index ← (if len (index :: rest) >? 0
                         then getitem (index :: rest) 0 else mret 0);
          if (0 <=? state_index) && (state_index <? Z.of_nat (length PROTECTION_STATES))
          then s ← getitem PROTECTION_STATES state_index;
               mret ({[ "protectionState" := PStr s ]} : gmap string pyval)
          else mret ∅).
  rewrite len_cons. destruct (1 + len rest >? 0) eqn:E1; [|lia].
  read (index :: rest) 0 index.
  destruct ((0 <=? index) && (index <? Z.of_nat (length PROTECTION_STATES))) eqn:E2.
  - apply andb_true_iff in E2.
    change (Z.of_nat (length PROTECTION_STATES)) with 7 in E2. lia.
  - reflexivity.
Qed.

(** ** The all-state packet *)

Lemma float_at_ok view lo hi :
  0 <= lo -> hi = lo + 4 -> hi <= len view ->
  float_at view lo hi = Ok (PFloat (Struct.unpack_f (slice view lo hi))).
Proof.
  intros Hlo -> Hhi. unfold float_at, bytes_to_float.
  assert (Hlen : len (slice view lo (lo + 4)) = 4) by (rewrite len_slice; lia).
  rewrite Hlen. cbn [Z.ltb Z.compare Pos.compare Pos.compare_cont].
  rewrite <- Hlen at 2. now rewrite slice_all.
Qed.

Lemma gtb_true a b : b < a -> (a >? b) = true.
Proof. intros H. apply Z.gtb_lt. exact H. Qed.

Lemma parse_all_ok view :
  139 <= len view ->
  exists result : gmap string pyval,
    parse_all view = Ok result
    /\ dom result = list_to_set all_state_keys
    /\ result !! "inputVoltage" = Some (PFloat (Struct.unpack_f (slice view 0 4)))
    /\ result !! "upperLimitCurrent"
       = Some (PFloat (Struct.unpack_f (slice view 115 119))).
Proof.
  intros Hlen.
  destruct (getitem_in_range view 96) as (b96 & H96 & _); [unfold len in Hlen; lia|].
  destruct (getitem_in_range view 97) as (b97 & H97 & _); [unfold len in Hlen; lia|].
  destruct (getitem_in_range view 98) as (b98 & H98 & _); [unfold len in Hlen; lia|].
  destruct (getitem_in_range view 107) as (b107 & H107 & _); [unfold len in Hlen; lia|].
  destruct (getitem_in_range view 108) as (b108 & H108 & _); [unfold len in Hlen; lia|].
  destruct (getitem_in_range view 109) as (b109 & H109 & _); [unfold len in Hlen; lia|].
  assert (Hprot : exists s,
             (if (0 <=? b108) && (b108 <? Z.of_nat (length PROTECTION_STATES))
              then PStr <$> getitem PROTECTION_STATES b108
              else mret (PStr "")) = Ok (PStr s)).
  { destruct ((0 <=? b108) && (b108 <? Z.of_nat (length PROTECTION_STATES))) eqn:E.
    - apply andb_true_iff in E.
      destruct (getitem_in_range PROTECTION_STATES b108) as (s & -> & _); [lia|].
      now exists s.
    - now exists "". }
  destruct Hprot as [s Hprot].
  eexists. split; [|split; [|split]].
  - unfold parse_all.
    rewrite !float_at_ok by lia. rewrite !gtb_true by lia.
    rewrite H96, H97, H98, H107, H108, H109.
    repeat (rewrite bind_Ok || rewrite fmap_Ok || rewrite Hprot).
    reflexivity.
  - rewrite dom_list_to_map_L. reflexivity.
  - reflexivity.
  - cbn [list_to_map foldr uncurry fst snd].
    repeat (rewrite lookup_insert_ne by discriminate).
    apply lookup_insert_eq.
Qed.

Lemma parse_all_state_short data :
  len data < 139 -> _parse_packet_data decode_text ALL data = Ok None.
Proof.
  intros Hshort. unfold _parse_packet_data.
  destruct (len data =? 0); [reflexivity|].
  change (parse_body decode_text ALL data)
    with (if len data >=? 139 then parse_all data else mret ∅).
  destruct (len data >=? 139) eqn:E; [lia|]. cbn.
  destruct (decide (∅ = ∅)) as [_|Hne]; [reflexivity|]. now contradiction Hne.
Qed.

Lemma parse_all_state_full data :
  139 <= len data ->
  exists result : gmap string pyval,
    _parse_packet_data decode_text ALL data = Ok (Some result)
    /\ dom result = list_to_set all_state_keys
    /\ result !! "inputVoltage" = Some (PFloat (Struct.unpack_f (slice data 0 4)))
    /\ result !! "upperLimitCurrent"
       = Some (PFloat (Struct.unpack_f (slice data 115 119))).
Proof.
  intros Hlen. destruct (parse_all_ok data Hlen) as (result & Hparse & Hdom & Hfirst & Hlast).
  exists result. split; [|auto]. unfold _parse_packet_data.
  destruct (len data =? 0) eqn:E0; [lia|].
  change (parse_body decode_text ALL data)
    with (if len data >=? 139 then parse_all data else mret ∅).
  destruct (len data >=? 139) eqn:E; [|lia]. rewrite Hparse.
  destruct (decide (result = ∅)) as [Hempty|_]; [|reflexivity].
  rewrite Hempty in Hfirst. discriminate.
Qed.

End Receiving.

Section ReceivingInstances.
Import Protocol Models Device.

Lemma empty_payload_no_update_witness :
  ([] : list Z) = []
  /\ _on_packet_received ascii_text CMD_GET MODEL_NAME [] connected_session
     = (connected_session, [])
  /\ (forall command' type_code',
        _on_packet_received ascii_text command' type_code' [] connected_session
        = (connected_session, [])).
Proof.
  apply (empty_payload_no_update ascii_text connected_session
           (inbound_frame CMD_GET MODEL_NAME []) CMD_GET MODEL_NAME []).
  reflexivity.
Defined.

(** C5 as it is stated fails where the state was not Normal before: after
    a frame with index 1 the protection state is OVP, and a frame with the
    index 7 that follows leaves it OVP; it does not become Normal. *)
Lemma protection_index_counterexample :
  let tripped :=
    fst (_on_packet_received ascii_text CMD_GET PROTECTION_STATE [1] connected_session) in
  let after :=
    fst (_on_packet_received ascii_text CMD_GET PROTECTION_STATE [7] tripped) in
  protection_state (state tripped) = Models.OVP
  /\ _parse_packet_data ascii_text PROTECTION_STATE [7] = Ok None
  /\ protection_state (state after) = Models.OVP
  /\ protection_state (state after) <> NORMAL.
Proof. cbv zeta. repeat split; try (vm_compute; reflexivity). vm_compute. discriminate. Qed.

(** C1 as it is stated fails on a payload of 100 bytes: the payload below
    carries 5.0 as the input voltage in its bytes 0..3, well within the
    100 bytes, and the state's input voltage is still 0.0 afterwards. *)
Lemma all_state_truncated_counterexample :
  let data := [0x00; 0x00; 0xA0; 0x40] ++ replicate 96 0 in
  let after := fst (_on_packet_received ascii_text CMD_GET ALL data connected_session) in
  len data = 100
  /\ bytes_to_float (slice data 0 4) = Ok (S754_finite false 10485760 (-21))
  /\ _parse_packet_data ascii_text ALL data = Ok None
  /\ input_voltage (state after) = PFloat (S754_zero false)
  /\ input_voltage (state after) <> PFloat (S754_finite false 10485760 (-21)).
Proof. cbv zeta. repeat split; try (vm_compute; reflexivity). vm_compute. discriminate. Qed.

End ReceivingInstances.

(* ===================================================================== *)
(** * More on the codec: binary32 bit patterns                            *)
(* ===================================================================== *)

Section Binary32Bits.

Lemma le_split_combine b0 b1 b2 b3 :
  is_byte b0 -> is_byte b1 -> is_byte b2 -> is_byte b3 ->
  Struct.le_split (Struct.le_combine [b0; b1; b2; b3]) = [b0; b1; b2; b3].
Proof.
  unfold is_byte, Struct.le_split, Struct.le_combine. intros. cbn [foldr].
  repeat f_equal; Z.div_mod_to_equations; lia.
Qed.

Lemma le_combine_split w :
  0 <= w < 2 ^ 32 -> Struct.le_combine (Struct.le_split w) = w.
Proof.
  unfold Struct.le_split, Struct.le_combine. intros. cbn [foldr].
  change (2 ^ 32) with 4294967296 in *.
  Z.div_mod_to_equations; lia.
Qed.

Lemma binary_round_valid s m e :
  bounded Struct.prec32 Struct.emax32 m e = true ->
  binary_round Struct.prec32 Struct.emax32 s m e = S754_finite s m e.
Proof.
  unfold bounded, canonical_mantissa. intros H. apply andb_true_iff in H as [Hc He].
  apply Z.eqb_eq in Hc.
  unfold binary_round, shl_align. rewrite Hc, Z.sub_diag.
  unfold binary_round_aux, shr_fexp. cbn [Zdigits2 shr_record_of_loc].
  rewrite Hc, Z.sub_diag. cbn [shr shr_m loc_of_shr_record round_nearest_even Zdigits2 shr_record_of_loc].
  rewrite Hc, Z.sub_diag. cbn [shr shr_m]. now rewrite He.
Qed.

Lemma testbit_sign s r : 0 <= r < 2 ^ 31 -> Z.testbit (Struct.sign_bit s + r) 31 = s.
Proof.
  intros Hr. rewrite Z.testbit_eqb by lia. change (2 ^ 31) with 2147483648 in *.
  destruct s; unfold Struct.sign_bit; change (2 ^ 31) with 2147483648.
  - apply Z.eqb_eq. Z.div_mod_to_equations; lia.
  - apply Z.eqb_neq. Z.div_mod_to_equations; lia.
Qed.

Lemma sign_bit_cases s : Struct.sign_bit s = 0 \/ Struct.sign_bit s = 2147483648.
Proof. destruct s; [right|left]; reflexivity. Qed.

(** The fields of a bit pattern put together from a sign, a biased exponent and a fraction. *)
Lemma b32_fields s E f :
  0 <= E < 256 -> 0 <= f < 2 ^ 23 ->
  let w := Struct.sign_bit s + E * 2 ^ 23 + f in
  Z.testbit w 31 = s /\ (w / 2 ^ 23) mod 256 = E /\ w mod 2 ^ 23 = f /\ 0 <= w < 2 ^ 32.
Proof.
  intros HE Hf w. unfold w. change (2 ^ 23) with 8388608 in *. change (2 ^ 32) with 4294967296.
  split; [|split; [|split]].
  - rewrite <- Z.add_assoc. apply testbit_sign. change (2 ^ 31) with 2147483648. lia.
  - destruct (sign_bit_cases s) as [-> | ->]; Z.div_mod_to_equations; lia.
  - destruct (sign_bit_cases s) as [-> | ->]; Z.div_mod_to_equations; lia.
  - destruct (sign_bit_cases s) as [-> | ->]; lia.
Qed.

Lemma b32_of_bits_fields s E f :
  0 <= E < 256 -> 0 <= f < 2 ^ 23 ->
  Struct.b32_of_bits (Struct.sign_bit s + E * 2 ^ 23 + f)
  = if E =? 0 then
      match f with Z.pos p => S754_finite s p (-149) | _ => S754_zero s end
    else if E =? 255 then (if f =? 0 then S754_infinity s else S754_nan)
    else match f + 2 ^ 23 with Z.pos p => S754_finite s p (E - 150) | _ => S754_nan end.
Proof.
  intros HE Hf. destruct (b32_fields s E f HE Hf) as (H1 & H2 & H3 & _).
  unfold Struct.b32_of_bits. cbv zeta. now rewrite H1, H2, H3.
Qed.

Lemma valid_finite_cases m e :
  bounded Struct.prec32 Struct.emax32 m e = true ->
  (Z.pos m < 2 ^ 23 /\ e = -149) \/ (2 ^ 23 <= Z.pos m < 2 ^ 24 /\ -149 <= e <= 104).
Proof.
  unfold bounded, canonical_mantissa, fexp, emin, Struct.prec32, Struct.emax32.
  intros H. apply andb_true_iff in H as [Hc He].
  apply Z.eqb_eq in Hc. apply Z.leb_le in He.
  destruct (digits2_pos_bounds m) as [Dlo Dhi].
  set (d := Z.pos (digits2_pos m)) in *.
  assert (Hd : 0 < d) by (unfold d; lia).
  destruct (Z_lt_le_dec (Z.pos m) (2 ^ 23)) as [Hlt|Hge].
  - left. split; [exact Hlt|].
    assert (d - 1 < 23) by (apply (Z.pow_lt_mono_r_iff 2); lia). lia.
  - right.
    assert (23 < d) by (apply (Z.pow_lt_mono_r_iff 2); lia).
    assert (d = 24) by lia.
    replace d with 24 in Dhi by lia. lia.
Qed.

Lemma b32_bits_round_trip x :
  valid_binary Struct.prec32 Struct.emax32 x = true ->
  Struct.b32_of_bits (Struct.bits_of_b32 x) = x /\ 0 <= Struct.bits_of_b32 x < 2 ^ 32.
Proof.
  destruct x as [s|s| |s m e]; cbn [valid_binary Struct.bits_of_b32]; intros Hv.
  - replace (Struct.sign_bit s) with (Struct.sign_bit s + 0 * 2 ^ 23 + 0) by lia.
    split; [now rewrite b32_of_bits_fields by lia | apply b32_fields; lia].
  - replace (Struct.sign_bit s + 255 * 2 ^ 23)
      with (Struct.sign_bit s + 255 * 2 ^ 23 + 0) by lia.
    split; [now rewrite b32_of_bits_fields by lia | apply b32_fields; lia].
  - split; [reflexivity|]. split; [apply Z.leb_le | apply Z.ltb_lt]; reflexivity.
  - destruct (valid_finite_cases m e Hv) as [[Hm He]|[Hm He]].
    + destruct (Z.pos m <? 2 ^ 23) eqn:E; [|lia].
      replace (Struct.sign_bit s + Z.pos m)
        with (Struct.sign_bit s + 0 * 2 ^ 23 + Z.pos m) by lia.
      split; [|apply b32_fields; lia].
      rewrite b32_of_bits_fields by lia. now subst e.
    + destruct (Z.pos m <? 2 ^ 23) eqn:E; [lia|].
      split; [|apply b32_fields; lia].
      rewrite b32_of_bits_fields by lia.
      destruct (Z.eqb_spec (e + 150) 0); [lia|].
      destruct (Z.eqb_spec (e + 150) 255); [lia|].
      replace (Z.pos m - 2 ^ 23 + 2 ^ 23) with (Z.pos m) by lia.
      f_equal. lia.
Qed.

Lemma bits_b32_round_trip w :
  0 <= w < 2 ^ 32 -> Struct.b32_of_bits w <> S754_nan ->
  Struct.bits_of_b32 (Struct.b32_of_bits w) = w.
Proof.
  intros Hw. unfold Struct.b32_of_bits. cbv zeta.
  pose proof (Z.mod_pos_bound (w / 2 ^ 23) 256 ltac:(lia)) as He.
  pose proof (Z.mod_pos_bound w (2 ^ 23) ltac:(lia)) as Hm.
  assert (Hs : w = Struct.sign_bit (Z.testbit w 31) + ((w / 2 ^ 23) mod 256) * 2 ^ 23 + w mod 2 ^ 23).
  { rewrite Z.testbit_eqb by lia. change (2 ^ 23) with 8388608 in *. change (2 ^ 32) with 4294967296 in *.
    change (2 ^ 31) with 2147483648.
    destruct (Z.eqb_spec ((w / 2147483648) mod 2) 1) as [E|E]; unfold Struct.sign_bit;
    change (2 ^ 31) with 2147483648; Z.div_mod_to_equations; lia. }
  set (s := Z.testbit w 31) in *. set (e := (w / 2 ^ 23) mod 256) in *. set (m := w mod 2 ^ 23) in *.
  destruct (Z.eqb_spec e 0) as [He0|He0].
  - destruct m as [|p|p] eqn:Em; intros _; cbn [Struct.bits_of_b32]; try lia.
    destruct (Z.pos p <? 2 ^ 23) eqn:E; lia.
  - destruct (Z.eqb_spec e 255) as [He1|He1].
    + destruct (Z.eqb_spec m 0); [|congruence]. intros _. cbn [Struct.bits_of_b32]. lia.
    + destruct (m + 2 ^ 23) as [|p|p] eqn:Em; try congruence; intros _.
      cbn [Struct.bits_of_b32]. destruct (Z.pos p <? 2 ^ 23) eqn:E; lia.
Qed.

Lemma pack_f_valid x :
  valid_binary Struct.prec32 Struct.emax32 x = true ->
  Struct.pack_f x = Ok (Struct.le_split (Struct.bits_of_b32 x)).
Proof.
  destruct x as [s|s| |s m e]; try reflexivity.
  cbn [valid_binary]. intros Hv. unfold Struct.pack_f.
  now rewrite (binary_round_valid s m e Hv).
Qed.

Lemma le_combine_bytes b0 b1 b2 b3 :
  is_byte b0 -> is_byte b1 -> is_byte b2 -> is_byte b3 ->
  0 <= Struct.le_combine [b0; b1; b2; b3] < 2 ^ 32.
Proof.
  unfold is_byte, Struct.le_combine. intros. cbn [foldr].
  change (2 ^ 32) with 4294967296. lia.
Qed.

Lemma bytes_to_float_four b0 b1 b2 b3 :
  Protocol.bytes_to_float [b0; b1; b2; b3]
  = Ok (Struct.b32_of_bits (Struct.le_combine [b0; b1; b2; b3])).
Proof. reflexivity. Qed.

Lemma float_bytes_float_aux x :
  valid_binary Struct.prec32 Struct.emax32 x = true ->
  exists data,
    Protocol.float_to_bytes x = Ok data /\ len data = 4
    /\ Protocol.bytes_to_float data = Ok x.
Proof.
  intros Hv. exists (Struct.le_split (Struct.bits_of_b32 x)).
  destruct (b32_bits_round_trip x Hv) as [Hx Hrange].
  split; [exact (pack_f_valid x Hv)|]. split; [reflexivity|].
  unfold Struct.le_split. rewrite bytes_to_float_four.
  change (Struct.le_combine _)
    with (Struct.le_combine (Struct.le_split (Struct.bits_of_b32 x))).
  now rewrite le_combine_split, Hx.
Qed.

End Binary32Bits.

(* ===================================================================== *)
(** * More on the codec: properties                                      *)
(* ===================================================================== *)

Section CodecExtras.
Import Protocol.

(** X1. A float that is a binary32 and no NaN survives the way to bytes
    and back: [float_to_bytes] gives four bytes and [bytes_to_float] of
    them is the float, bit for bit (the sign of a zero included). *)
Theorem float_bytes_float x :
  valid_binary Struct.prec32 Struct.emax32 x = true -> x <> S754_nan ->
  exists data,
    float_to_bytes x = Ok data /\ len data = 4 /\ is_bytes data
    /\ bytes_to_float data = Ok x.
Proof.
  intros Hv _. destruct (float_bytes_float_aux x Hv) as (data & Hpack & Hlen & Hback).
  exists data. destruct (pack_f_bytes _ _ Hpack) as [_ Hbytes]. auto.
Qed.

Lemma float_bytes_float_witness :
  exists data,
    float_to_bytes (S754_finite true 12582912 (-25)) = Ok data /\ len data = 4
    /\ is_bytes data
    /\ bytes_to_float data = Ok (S754_finite true 12582912 (-25)).
Proof.
  apply (float_bytes_float (S754_finite true 12582912 (-25))).
  - reflexivity.
  - discriminate.
Defined.

(** X2. Four bytes survive the way to a float and back, unless they are the
    pattern of a NaN: [float_to_bytes] of what [bytes_to_float] read gives
    the same four bytes. *)
Theorem bytes_float_bytes b0 b1 b2 b3 x :
  is_byte b0 -> is_byte b1 -> is_byte b2 -> is_byte b3 ->
  bytes_to_float [b0; b1; b2; b3] = Ok x -> x <> S754_nan ->
  float_to_bytes x = Ok [b0; b1; b2; b3].
Proof.
  intros H0 H1 H2 H3 Hx Hnan.
  assert (Hw : x = Struct.b32_of_bits (Struct.le_combine [b0; b1; b2; b3]))
    by (rewrite bytes_to_float_four in Hx; congruence).
  subst x.
  unfold float_to_bytes. rewrite pack_f_valid by apply b32_of_bits_valid.
  rewrite bits_b32_round_trip; [|now apply le_combine_bytes|exact Hnan].
  now rewrite le_split_combine.
Qed.

Lemma bytes_float_bytes_witness :
  float_to_bytes (S754_finite false 13421773 (-22)) = Ok [0xCD; 0xCC; 0x4C; 0x40].
Proof.
  apply (bytes_float_bytes 0xCD 0xCC 0x4C 0x40); try byte_bound.
  - reflexivity.
  - discriminate.
Defined.

(** X3. [encode_packet] raises [ValueError] exactly when the command or the
    type code is no byte or the payload is longer than 255 bytes;
    otherwise it returns the frame, which is 5 bytes longer than the
    payload. *)
Theorem encode_packet_cases command type_code data :
  (is_byte command /\ is_byte type_code /\ len data <= 255 ->
   encode_packet command type_code data = Ok (frame HEADER_OUTPUT command type_code data)
   /\ len (frame HEADER_OUTPUT command type_code data) = 5 + len data)
  /\ (~ (is_byte command /\ is_byte type_code /\ len data <= 255) ->
      encode_packet command type_code data = Raise ValueError).
Proof.
  split.
  - intros (Hc & Ht & Hl). split; [now apply encode_packet_frame|].
    unfold frame. rewrite !len_app, !len_cons, len_nil. unfold len. simpl. lia.
  - intros Hnot. unfold encode_packet, bytearray_append.
    change (in_byte_range HEADER_OUTPUT) with true. cbn iota. rewrite bind_Ok.
    destruct (in_byte_range command) eqn:Ec; [rewrite bind_Ok|reflexivity].
    destruct (in_byte_range type_code) eqn:Et; [rewrite bind_Ok|reflexivity].
    destruct (in_byte_range (len data)) eqn:El; [|reflexivity].
    apply in_byte_range_spec in Ec, Et, El. contradict Hnot.
    unfold is_byte in *. lia.
Qed.

Lemma decode_packet_frame_prefix packet command type_code length data :
  is_bytes packet ->
  decode_packet packet = Ok (command, type_code, length, data) ->
  length = len data /\ is_bytes data
  /\ exists trailer, packet = inbound_frame command type_code data ++ trailer.
Proof.
  intros Hb. unfold decode_packet.
  destruct (len packet <? 5) eqn:E5; [discriminate|].
  destruct packet as [|b0 [|b1 [|b2 [|b3 rest]]]];
    try (rewrite ?len_cons, ?len_nil in E5; lia).
  read (b0 :: b1 :: b2 :: b3 :: rest) 0 b0.
  destruct (Z.eqb_spec b0 HEADER_INPUT) as [->|]; [|discriminate]. cbn [negb].
  read (HEADER_INPUT :: b1 :: b2 :: b3 :: rest) 1 b1.
  read (HEADER_INPUT :: b1 :: b2 :: b3 :: rest) 2 b2.
  read (HEADER_INPUT :: b1 :: b2 :: b3 :: rest) 3 b3.
  assert (H3 : is_byte b3).
  { apply (is_bytes_lookup _ 3%nat b3 Hb). reflexivity. }
  unfold is_byte in H3. rewrite !len_cons.
  destruct (1 + (1 + (1 + (1 + len rest))) <? 5 + b3) eqn:El; [discriminate|].
  destruct (getitem_in_range rest b3) as (cs & Hcs & Hlook); [unfold len in *; lia|].
  assert (Hget : getitem (HEADER_INPUT :: b1 :: b2 :: b3 :: rest) (4 + b3) = Ok cs).
  { apply getitem_lookup; [lia|].
    replace (Z.to_nat (4 + b3)) with (4 + Z.to_nat b3)%nat by lia. exact Hlook. }
  rewrite Hget, bind_Ok.
  assert (Hdata : slice (HEADER_INPUT :: b1 :: b2 :: b3 :: rest) 4 (4 + b3)
                  = take (Z.to_nat b3) rest).
  { unfold slice. replace (4 + b3 - 4) with b3 by lia. reflexivity. }
  rewrite Hdata, calculate_checksum_formula.
  destruct (Z.eqb_spec cs (checksum_of b2 (take (Z.to_nat b3) rest))) as [Hsum|];
    [|discriminate].
  cbn [negb]. intros [= <- <- <- <-].
  assert (Hlen : len (take (Z.to_nat b3) rest) = b3).
  { unfold len in *. rewrite length_take. lia. }
  split; [now rewrite Hlen|]. split.
  - apply Forall_take. now do 4 apply Forall_inv_tail in Hb.
  - exists (drop (S (Z.to_nat b3)) rest). unfold inbound_frame, frame.
    rewrite Hlen, <- Hsum. cbn [app]. do 4 f_equal.
    rewrite <- app_assoc. cbn [app].
    rewrite <- (take_drop (Z.to_nat b3) rest) at 1. f_equal.
    now apply drop_S.
Qed.

(** X4. On a byte string [decode_packet] fails in one way only, with the
    protocol error: an index error never leaves it. It fails in
    particular on fewer than 5 bytes and on a first byte other than
    0xF0. *)
Theorem decode_packet_failure packet :
  is_bytes packet ->
  (forall e, decode_packet packet = Raise e -> e = DPS150ProtocolError)
  /\ (len packet < 5 -> decode_packet packet = Raise DPS150ProtocolError)
  /\ (packet !! 0%nat <> Some HEADER_INPUT ->
      decode_packet packet = Raise DPS150ProtocolError).
Proof.
  intros Hb.
  assert (Hshort : len packet < 5 -> decode_packet packet = Raise DPS150ProtocolError).
  { intros H. unfold decode_packet. destruct (len packet <? 5) eqn:E; [reflexivity|lia]. }
  assert (Hhead : packet !! 0%nat <> Some HEADER_INPUT ->
                  decode_packet packet = Raise DPS150ProtocolError).
  { intros H. unfold decode_packet. destruct (len packet <? 5) eqn:E; [reflexivity|].
    destruct packet as [|b0 rest]; [rewrite len_nil in E; lia|].
    read (b0 :: rest) 0 b0.
    destruct (Z.eqb_spec b0 HEADER_INPUT) as [->|]; [|reflexivity].
    now contradiction H. }
  split; [|split; assumption].
  intros e. unfold decode_packet.
  destruct (len packet <? 5) eqn:E5; [now intros [= <-]|].
  destruct packet as [|b0 [|b1 [|b2 [|b3 rest]]]];
    try (rewrite ?len_cons, ?len_nil in E5; lia).
  read (b0 :: b1 :: b2 :: b3 :: rest) 0 b0.
  destruct (negb (b0 =? HEADER_INPUT)); [now intros [= <-]|].
  read (b0 :: b1 :: b2 :: b3 :: rest) 1 b1.
  read (b0 :: b1 :: b2 :: b3 :: rest) 2 b2.
  read (b0 :: b1 :: b2 :: b3 :: rest) 3 b3.
  assert (H3 : is_byte b3).
  { apply (is_bytes_lookup _ 3%nat b3 Hb). reflexivity. }
  unfold is_byte in H3. rewrite !len_cons.
  destruct (1 + (1 + (1 + (1 + len rest))) <? 5 + b3) eqn:El; [now intros [= <-]|].
  destruct (getitem_in_range rest b3) as (cs & Hcs & Hlook); [unfold len in *; lia|].
  assert (Hget : getitem (b0 :: b1 :: b2 :: b3 :: rest) (4 + b3) = Ok cs).
  { apply getitem_lookup; [lia|].
    replace (Z.to_nat (4 + b3)) with (4 + Z.to_nat b3)%nat by lia. exact Hlook. }
  rewrite Hget, bind_Ok.
  destruct (negb _); [now intros [= <-]|discriminate].
Qed.

Lemma decode_packet_failure_witness :
  (forall e, decode_packet [0xFF; 0xA1; 193; 0; 0] = Raise e -> e = DPS150ProtocolError)
  /\ (len [0xFF; 0xA1; 193; 0; 0] < 5 ->
      decode_packet [0xFF; 0xA1; 193; 0; 0] = Raise DPS150ProtocolError)
  /\ ([0xFF; 0xA1; 193; 0; 0] !! 0%nat <> Some HEADER_INPUT ->
      decode_packet [0xFF; 0xA1; 193; 0; 0] = Raise DPS150ProtocolError).
Proof. apply (decode_packet_failure [0xFF; 0xA1; 193; 0; 0]). byte_bound. Defined.

(** Bytes that follow a complete frame do not disturb its decoding. *)
Lemma decode_frame_with_trailer command type_code payload trailer :
  decode_packet (inbound_frame command type_code payload ++ trailer)
  = Ok (command, type_code, len payload, payload).
Proof.
  unfold inbound_frame, frame.
  replace (([HEADER_INPUT; command; type_code; len payload]
              ++ payload ++ [checksum_of type_code payload]) ++ trailer)
    with ([HEADER_INPUT; command; type_code; len payload]
            ++ payload ++ checksum_of type_code payload :: trailer)
    by (rewrite <- !app_assoc; reflexivity).
  rewrite decode_packet_shape. now rewrite Z.eqb_refl.
Qed.

(** X5. What [decode_packet] accepts are the byte strings that begin with a
    well-formed inbound frame: it returns a command, type code, length and
    payload exactly when the length is that of the payload and the byte
    string is the frame of that command, type code and payload, followed
    by any bytes, which are ignored. *)
Theorem decode_packet_accepts_frames packet command type_code length data :
  is_bytes packet ->
  decode_packet packet = Ok (command, type_code, length, data)
  <-> (length = len data /\ is_bytes data
       /\ exists trailer, packet = inbound_frame command type_code data ++ trailer).
Proof.
  intros Hb. split.
  - now apply decode_packet_frame_prefix.
  - intros (-> & _ & trailer & ->). apply decode_frame_with_trailer.
Qed.

Lemma decode_packet_accepts_frames_witness :
  decode_packet [0xF0; 0xA1; 193; 1; 193; 131; 0xF0; 0x07] = Ok (0xA1, 193, 1, [193])
  <-> (1 = len [193] /\ is_bytes [193]
       /\ exists trailer,
            [0xF0; 0xA1; 193; 1; 193; 131; 0xF0; 0x07]
            = inbound_frame 0xA1 193 [193] ++ trailer).
Proof.
  apply (decode_packet_accepts_frames [0xF0; 0xA1; 193; 1; 193; 131; 0xF0; 0x07]).
  byte_bound.
Defined.

(** X6. A float packet carries its value: for a binary32 value and a command
    and type code that are bytes, [encode_float_packet] gives a frame of
    9 bytes; read as an inbound frame it decodes to the command, the
    type code and a payload of 4 bytes, of which [bytes_to_float] is the
    value. *)
Theorem encode_float_packet_round_trip command type_code value :
  is_byte command -> is_byte type_code ->
  valid_binary Struct.prec32 Struct.emax32 value = true ->
  exists packet data,
    encode_float_packet command type_code value = Ok packet
    /\ len packet = 9
    /\ decode_packet (to_inbound packet) = Ok (command, type_code, 4, data)
    /\ bytes_to_float data = Ok value.
Proof.
  intros Hc Ht Hv.
  destruct (float_bytes_float_aux value Hv) as (data & Hpack & Hlen & Hback).
  exists (frame HEADER_OUTPUT command type_code data), data.
  unfold encode_float_packet. rewrite Hpack, bind_Ok.
  rewrite encode_packet_frame by (assumption || lia).
  split; [reflexivity|]. split; [|split; [|exact Hback]].
  - unfold frame. rewrite !len_app, !len_cons, len_nil. lia.
  - rewrite to_inbound_frame, decode_inbound_frame. now rewrite Hlen.
Qed.

Lemma encode_float_packet_round_trip_witness :
  exists packet data,
    encode_float_packet CMD_SET VOLTAGE_SET (S754_finite false 12582912 (-20)) = Ok packet
    /\ len packet = 9
    /\ decode_packet (to_inbound packet) = Ok (CMD_SET, VOLTAGE_SET, 4, data)
    /\ bytes_to_float data = Ok (S754_finite false 12582912 (-20)).
Proof.
  apply (encode_float_packet_round_trip CMD_SET VOLTAGE_SET
           (S754_finite false 12582912 (-20))).
  - byte_bound.
  - byte_bound.
  - reflexivity.
Defined.

(** X7. [encode_byte_packet] raises [ValueError] for every value outside
    0..255 and writes nothing of it into a frame; for a value inside, and
    a command and type code that are bytes, it gives a frame of 6 bytes
    that decodes, read as an inbound frame, to the one-byte payload. *)
Theorem encode_byte_packet_cases command type_code value :
  is_byte command -> is_byte type_code ->
  (~ (0 <= value <= 255) -> encode_byte_packet command type_code value = Raise ValueError)
  /\ (0 <= value <= 255 ->
      exists packet,
        encode_byte_packet command type_code value = Ok packet
        /\ len packet = 6
        /\ decode_packet (to_inbound packet) = Ok (command, type_code, 1, [value])).
Proof.
  intros Hc Ht. unfold encode_byte_packet. split.
  - intros Hout. destruct ((0 <=? value) && (value <=? 255)) eqn:E; [|reflexivity].
    apply andb_true_iff in E. lia.
  - intros Hin.
    assert (E : (0 <=? value) && (value <=? 255) = true) by (apply andb_true_iff; lia).
    rewrite E. cbn [negb]. unfold bytes_of_int.
    rewrite in_byte_range_true by byte_bound. rewrite bind_Ok.
    rewrite encode_packet_frame by (assumption || (unfold len; simpl; lia)).
    eexists. split; [reflexivity|]. split; [reflexivity|].
    rewrite to_inbound_frame. apply decode_inbound_frame.
Qed.

Lemma encode_byte_packet_cases_witness :
  (~ (0 <= 255 <= 255) -> encode_byte_packet CMD_SET BRIGHTNESS 255 = Raise ValueError)
  /\ (0 <= 255 <= 255 ->
      exists packet,
        encode_byte_packet CMD_SET BRIGHTNESS 255 = Ok packet
        /\ len packet = 6
        /\ decode_packet (to_inbound packet) = Ok (CMD_SET, BRIGHTNESS, 1, [255])).
Proof. apply (encode_byte_packet_cases CMD_SET BRIGHTNESS 255); byte_bound. Defined.

End CodecExtras.

(* ===================================================================== *)
(** * More on the stream framer                                           *)
(* ===================================================================== *)

Section FramerExtras.
Import Protocol.

Lemma len_frame header command type_code payload :
  len (frame header command type_code payload) = 5 + len payload.
Proof.
  unfold frame. rewrite !len_app, !len_cons, len_nil. unfold len. simpl. lia.
Qed.

Lemma getitem_app_r {A} (pre l : list A) (j : Z) :
  0 <= j -> getitem (pre ++ l) (Z.of_nat (length pre) + j) = getitem l j.
Proof.
  intros Hj. unfold getitem.
  destruct (Z.ltb_spec (Z.of_nat (length pre) + j) 0) as [E1|E1]; [lia|].
  destruct (Z.ltb_spec j 0) as [E2|E2]; [lia|].
  destruct (Z.ltb_spec (Z.of_nat (length pre) + j) 0) as [E3|E3]; [lia|].
  destruct (Z.ltb_spec j 0) as [E4|E4]; [lia|].
  rewrite lookup_app_r by lia.
  replace (Z.to_nat (Z.of_nat (length pre) + j) - length pre)%nat with (Z.to_nat j) by lia.
  reflexivity.
Qed.

Lemma getitem_drop {A} (l : list A) (i j : Z) :
  0 <= i -> 0 <= j -> getitem (drop (Z.to_nat i) l) j = getitem l (i + j).
Proof.
  intros Hi Hj. unfold getitem.
  destruct (Z.ltb_spec (i + j) 0) as [E1|E1]; [lia|].
  destruct (Z.ltb_spec j 0) as [E2|E2]; [lia|].
  destruct (Z.ltb_spec (i + j) 0) as [E3|E3]; [lia|].
  destruct (Z.ltb_spec j 0) as [E4|E4]; [lia|].
  rewrite lookup_drop. now replace (Z.to_nat i + Z.to_nat j)%nat with (Z.to_nat (i + j)) by lia.
Qed.

(** The two ways in which a turn of the loop goes on. *)
Lemma extract_step_continue buffer i packets i' packets' :
  extract_step buffer i packets = Ok (Continue i' packets') ->
  (i' = i + 1 /\ packets' = packets)
  \/ (exists length,
        getitem buffer i = Ok HEADER_INPUT /\ getitem buffer (i + 3) = Ok length
        /\ i + (5 + length) <= len buffer
        /\ i' = i + (5 + length)
        /\ packets' = packets ++ [slice buffer i (i + (5 + length))]).
Proof.
  unfold extract_step. destruct (i <? len buffer - 5); [|discriminate].
  destruct (getitem buffer i) as [b|] eqn:Hb; [|discriminate]. rewrite bind_Ok.
  destruct (Z.eqb_spec b HEADER_INPUT) as [->|].
  - destruct (i + 3 >=? len buffer); [discriminate|].
    destruct (getitem buffer (i + 3)) as [length|] eqn:Hl; [|discriminate].
    rewrite bind_Ok.
    destruct (i + (5 + length) >? len buffer) eqn:Hfit; [discriminate|].
    intros [= <- <-]. right. exists length. repeat split; try reflexivity. lia.
  - intros [= <- <-]. now left.
Qed.

Lemma extract_step_leave buffer i packets i' packets' :
  extract_step buffer i packets = Ok (Leave i' packets') -> i' = i /\ packets' = packets.
Proof.
  unfold extract_step. destruct (i <? len buffer - 5); [|now intros [= <- <-]].
  destruct (getitem buffer i) as [b|]; [|discriminate]. rewrite bind_Ok.
  destruct (b =? HEADER_INPUT); [|discriminate].
  destruct (i + 3 >=? len buffer); [now intros [= <- <-]|].
  destruct (getitem buffer (i + 3)) as [length|]; [|discriminate]. rewrite bind_Ok.
  destruct (i + (5 + length) >? len buffer); [now intros [= <- <-]|discriminate].
Qed.

(** A property of the packet list and the index that every turn keeps
    holds when the loop is left, and the loop is left by a turn that
    leaves it. *)
Lemma extract_loop_invariant (P : list (list Z) -> Z -> Prop) buffer :
  (forall i packets i' packets',
      P packets i -> extract_step buffer i packets = Ok (Continue i' packets') ->
      P packets' i') ->
  forall fuel i packets packets' i',
    P packets i ->
    extract_loop fuel buffer i packets = Some (Ok (packets', i')) ->
    P packets' i' /\ extract_step buffer i' packets' = Ok (Leave i' packets').
Proof.
  intros Hstep. induction fuel as [|fuel IH]; intros i packets packets' i' HP;
    [discriminate|].
  cbn [extract_loop].
  destruct (extract_step buffer i packets) as [[j pk|j pk]|e] eqn:E; [| |discriminate].
  - apply IH. eapply Hstep; eassumption.
  - intros [= <- <-]. destruct (extract_step_leave _ _ _ _ _ E) as [-> ->]. auto.
Qed.

(** A packet as the framer delimits it: the inbound header, two bytes, a
    length byte, as many bytes as it says, and one more. *)
Lemma slice_is_framed buffer i length :
  is_bytes buffer -> 0 <= i ->
  getitem buffer i = Ok HEADER_INPUT -> getitem buffer (i + 3) = Ok length ->
  i + (5 + length) <= len buffer ->
  exists command type_code payload cs,
    slice buffer i (i + (5 + length))
    = [HEADER_INPUT; command; type_code; len payload] ++ payload ++ [cs]
    /\ length = len payload.
Proof.
  intros Hb Hi H0 H3 Hfit.
  assert (Hl : 0 <= length).
  { unfold getitem in H3. destruct (i + 3 <? 0) eqn:E; [lia|]. rewrite E in H3.
    destruct (buffer !! Z.to_nat (i + 3)) as [x|] eqn:Hx; [|discriminate].
    injection H3 as ->. apply (is_bytes_lookup _ _ _ Hb Hx). }
  set (p := slice buffer i (i + (5 + length))).
  assert (Hlen : len p = 5 + length) by (unfold p; rewrite len_slice; lia).
  assert (Hget : forall j, 0 <= j < 5 + length -> getitem p j = getitem buffer (i + j)).
  { intros j Hj. unfold p, slice, getitem.
    destruct (j <? 0) eqn:E1; [lia|]. destruct (i + j <? 0) eqn:E2; [lia|].
    rewrite E1, E2. rewrite lookup_take_lt by lia. rewrite lookup_drop.
    now replace (Z.to_nat i + Z.to_nat j)%nat with (Z.to_nat (i + j)) by lia. }
  destruct p as [|b0 [|b1 [|b2 [|b3 rest]]]] eqn:Ep;
    try (rewrite ?len_cons, ?len_nil in Hlen; lia).
  pose proof (Hget 0 ltac:(lia)) as G0. rewrite Z.add_0_r, H0 in G0.
  pose proof (Hget 3 ltac:(lia)) as G3. rewrite H3 in G3.
  injection G0 as ->. injection G3 as ->.
  rewrite !len_cons in Hlen.
  assert (Hrest : rest <> []) by (intros ->; rewrite len_nil in Hlen; lia).
  destruct (exists_last Hrest) as (payload & cs & ->).
  exists b1, b2, payload, cs. rewrite len_app, len_cons, len_nil in Hlen.
  assert (Hp : length = len payload) by lia. now rewrite Hp.
Qed.

(** X8. Every packet that [extract_packets] returns has the shape of a frame:
    it is made of bytes, it begins with the inbound header, and it has
    five bytes around as many payload bytes as its length byte says, so
    never fewer than five. Its checksum is not looked at. *)
Theorem extracted_packets_framed self packets self' :
  is_bytes (buffer self) ->
  extract_packets self = Some (Ok (packets, self')) ->
  Forall framed packets /\ Forall (fun packet => 5 <= len packet) packets.
Proof.
  intros Hb. unfold extract_packets, scan.
  destruct (extract_loop _ _ _ _) as [[[pk i]|e]|] eqn:Hloop; try discriminate.
  intros H. assert (pk = packets) as -> by (destruct pk; congruence). clear H.
  assert (Hall : Forall framed packets).
  { apply (extract_loop_invariant (fun pk i => Forall framed pk /\ 0 <= i) (buffer self))
      in Hloop as [[Hall _] _]; [exact Hall| |split; [constructor|lia]].
    intros j pk j' pk' [Hpk Hj] Hstep.
    destruct (extract_step_continue _ _ _ _ _ Hstep)
      as [[-> ->]|(length & H0 & H3 & Hfit & -> & ->)].
    - split; [exact Hpk|lia].
    - destruct (slice_is_framed _ _ _ Hb Hj H0 H3 Hfit) as (c & t & p & cs & Hshape & Hlen).
      split; [|pose proof (len_nonneg p); lia].
      apply Forall_app. split; [exact Hpk|]. constructor; [|constructor].
      split; [|eauto]. unfold slice. apply Forall_take, Forall_drop, Hb. }
  split; [exact Hall|].
  eapply Forall_impl; [exact Hall|]. intros packet (_ & c & t & p & cs & ->).
  rewrite !len_app, !len_cons, len_nil. pose proof (len_nonneg p). unfold len. simpl. lia.
Qed.

Lemma extracted_packets_framed_witness :
  Forall framed [[0xF0; 0xA1; 0xC1; 1; 5; 0x00]]
  /\ Forall (fun packet => 5 <= len packet) [[0xF0; 0xA1; 0xC1; 1; 5; 0x00]].
Proof.
  apply (extracted_packets_framed
           {| buffer := [0x00; 0xF0; 0xA1; 0xC1; 1; 5; 0x00; 0xF0; 0xA1] |}
           [[0xF0; 0xA1; 0xC1; 1; 5; 0x00]] {| buffer := [0xF0; 0xA1] |}).
  - byte_bound.
  - reflexivity.
Defined.

(** ** What a call consumes and what it leaves *)

Lemma extract_step_taken buffer i packets i' packets' :
  0 <= i ->
  extract_step buffer i packets = Ok (Continue i' packets') ->
  i < len buffer - 5
  /\ ((exists b, buffer !! Z.to_nat i = Some b /\ b <> HEADER_INPUT
                 /\ i' = i + 1 /\ packets' = packets)
      \/ (exists length,
            getitem buffer i = Ok HEADER_INPUT /\ getitem buffer (i + 3) = Ok length
            /\ i + (5 + length) <= len buffer
            /\ i' = i + (5 + length)
            /\ packets' = packets ++ [slice buffer i (i + (5 + length))])).
Proof.
  intros Hi. unfold extract_step.
  destruct (Z.ltb_spec i (len buffer - 5)) as [Hlt|]; [|discriminate].
  destruct (getitem_in_range buffer i) as (b & Hb & Hlook); [unfold len in *; lia|].
  rewrite Hb, bind_Ok.
  destruct (Z.eqb_spec b HEADER_INPUT) as [->|Hne].
  - destruct (i + 3 >=? len buffer); [discriminate|].
    destruct (getitem buffer (i + 3)) as [length|] eqn:Hl; [|discriminate].
    rewrite bind_Ok.
    destruct (i + (5 + length) >? len buffer) eqn:Hfit; [discriminate|].
    intros [= <- <-]. split; [exact Hlt|]. right. exists length.
    split; [reflexivity|]. split; [reflexivity|]. split; [lia|]. split; reflexivity.
  - intros [= <- <-]. split; [exact Hlt|]. left. exists b. auto.
Qed.

Lemma take_slice buffer i n :
  0 <= i -> 0 <= n ->
  take (Z.to_nat (i + n)) buffer = take (Z.to_nat i) buffer ++ slice buffer i (i + n).
Proof.
  intros Hi Hn. unfold slice. replace (i + n - i) with n by lia.
  rewrite take_take_drop. f_equal. lia.
Qed.

(** The bytes before the index at which the scan stops are noise and the
    packets returned, and the scan stops by a turn that leaves the loop. *)
Lemma scan_consumed buffer packets i :
  is_bytes buffer ->
  scan buffer = Some (Ok (packets, i)) ->
  consumed (take (Z.to_nat i) buffer) packets
  /\ extract_step buffer i packets = Ok (Leave i packets).
Proof.
  intros Hb Hscan. unfold scan in Hscan.
  assert (Hstep : forall j pk j' pk',
            (0 <= j <= len buffer /\ consumed (take (Z.to_nat j) buffer) pk) ->
            extract_step buffer j pk = Ok (Continue j' pk') ->
            0 <= j' <= len buffer /\ consumed (take (Z.to_nat j') buffer) pk').
  { intros j pk j' pk' [Hj Hc] Hstep.
    destruct (extract_step_taken _ _ _ _ _ (proj1 Hj) Hstep)
      as [Hlt [(b & Hlook & Hne & -> & ->)|(length & H0 & H3 & Hfit & -> & ->)]].
    - split; [lia|]. replace (Z.to_nat (j + 1)) with (S (Z.to_nat j)) by lia.
      rewrite (take_S_r _ _ _ Hlook). now constructor.
    - destruct (slice_is_framed _ _ _ Hb (proj1 Hj) H0 H3 Hfit)
        as (c & t & p & cs & Hshape & Hlen).
      pose proof (len_nonneg p). split; [lia|].
      rewrite take_slice by lia. constructor; [exact Hc|].
      split; [unfold slice; apply Forall_take, Forall_drop, Hb|eauto]. }
  destruct (extract_loop_invariant
              (fun pk j => 0 <= j <= len buffer /\ consumed (take (Z.to_nat j) buffer) pk)
              buffer Hstep (S (length buffer)) 0 [] packets i) as [[_ Hc] Hleave];
    [split; [pose proof (len_nonneg buffer); lia|constructor]|exact Hscan|].
  now split.
Qed.

(** Where the scan stops there are at most five bytes left, or the start
    of a frame that has not arrived in full. *)
Lemma extract_step_leave_pending buffer i packets :
  0 <= i <= len buffer ->
  extract_step buffer i packets = Ok (Leave i packets) ->
  pending (drop (Z.to_nat i) buffer).
Proof.
  intros Hi. unfold extract_step.
  assert (Hlen : len (drop (Z.to_nat i) buffer) = len buffer - i).
  { unfold len in *. rewrite length_drop. lia. }
  destruct (Z.ltb_spec i (len buffer - 5)) as [Hlt|Hge]; [|intros _; left; lia].
  destruct (getitem buffer i) as [b|] eqn:Hb; [|discriminate]. rewrite bind_Ok.
  destruct (Z.eqb_spec b HEADER_INPUT) as [->|]; [|discriminate].
  destruct (i + 3 >=? len buffer) eqn:E3; [lia|].
  destruct (getitem buffer (i + 3)) as [length|] eqn:Hl; [|discriminate]. rewrite bind_Ok.
  destruct (i + (5 + length) >? len buffer) eqn:Hfit; [|discriminate].
  intros _. right.
  pose proof (getitem_drop buffer i 0 ltac:(lia) ltac:(lia)) as G0.
  pose proof (getitem_drop buffer i 3 ltac:(lia) ltac:(lia)) as G3.
  rewrite Z.add_0_r, Hb in G0. rewrite Hl in G3.
  destruct (drop (Z.to_nat i) buffer) as [|b0 [|b1 [|b2 [|b3 tail]]]];
    try (rewrite ?len_cons, ?len_nil in Hlen; lia).
  injection G0 as ->. injection G3 as ->.
  exists b1, b2, length, tail. split; [reflexivity|]. rewrite !len_cons in Hlen. lia.
Qed.

(** C8, as the code has it. A call of [extract_packets] on any byte
    buffer ends, and it splits the buffer in two: the bytes that the
    scan has consumed, which are skipped noise bytes and the packets
    returned, in order, and the bytes it has not, which are at most five
    bytes or the start of a frame that has not arrived in full. The
    bytes not consumed are kept in both cases. The bytes consumed are
    dropped when the call returns a packet; when it returns none the
    buffer is left as it was, skipped noise included. *)
Theorem extract_packets_buffer self :
  is_bytes (buffer self) ->
  exists packets skipped rest,
    buffer self = skipped ++ rest
    /\ consumed skipped packets
    /\ pending rest
    /\ extract_packets self
       = Some (Ok (packets, {| buffer := match packets with
                                         | [] => buffer self
                                         | _ :: _ => rest
                                         end |})).
Proof.
  intros Hb. destruct (scan_total _ Hb) as (packets & i & Hscan & Hi).
  destruct (scan_consumed _ _ _ Hb Hscan) as [Hc Hleave].
  exists packets, (take (Z.to_nat i) (buffer self)), (drop (Z.to_nat i) (buffer self)).
  split; [now rewrite take_drop|]. split; [exact Hc|].
  split; [now apply (extract_step_leave_pending _ _ packets)|].
  unfold extract_packets. rewrite Hscan.
  destruct packets; [now destruct self|reflexivity].
Qed.

Lemma extract_packets_buffer_witness :
  exists packets skipped rest,
    buffer {| buffer := [0x00; 0xF0; 0xA1; 0xC1; 1; 5; 0xC7; 0xF0; 0xA1] |}
    = skipped ++ rest
    /\ consumed skipped packets
    /\ pending rest
    /\ extract_packets {| buffer := [0x00; 0xF0; 0xA1; 0xC1; 1; 5; 0xC7; 0xF0; 0xA1] |}
       = Some (Ok (packets,
                   {| buffer :=
                        match packets with
                        | [] => buffer {| buffer := [0x00; 0xF0; 0xA1; 0xC1; 1; 5; 0xC7;
                                                     0xF0; 0xA1] |}
                        | _ :: _ => rest
                        end |})).
Proof.
  apply (extract_packets_buffer
           {| buffer := [0x00; 0xF0; 0xA1; 0xC1; 1; 5; 0xC7; 0xF0; 0xA1] |}).
  byte_bound.
Defined.

(** The same call, worked out: the noise byte and the frame are consumed
    and dropped, the two bytes of the next frame are kept. *)
Example extract_packets_buffer_run :
  extract_packets {| buffer := [0x00; 0xF0; 0xA1; 0xC1; 1; 5; 0xC7; 0xF0; 0xA1] |}
  = Some (Ok ([[0xF0; 0xA1; 0xC1; 1; 5; 0xC7]], {| buffer := [0xF0; 0xA1] |})).
Proof. reflexivity. Qed.

(** ** A call takes what its loop can take *)

Lemma len_raw_frame command type_code payload cs :
  len (raw_frame command type_code payload cs) = 5 + len payload.
Proof.
  unfold raw_frame. rewrite !len_app, !len_cons, len_nil. unfold len. simpl. lia.
Qed.

Lemma extract_step_raw_frame command type_code payload cs rest packets :
  5 < len (raw_frame command type_code payload cs ++ rest) ->
  extract_step (raw_frame command type_code payload cs ++ rest) 0 packets
  = Ok (Continue (5 + len payload) (packets ++ [raw_frame command type_code payload cs])).
Proof.
  intros Hlong. unfold extract_step.
  set (packet := raw_frame command type_code payload cs) in *.
  assert (Hpacket : len packet = 5 + len payload) by apply len_raw_frame.
  pose proof (len_nonneg payload) as Hpay. pose proof (len_nonneg rest) as Hrest.
  rewrite !len_app in *.
  destruct (0 <? len packet + len rest - 5) eqn:E; [|lia].
  read (packet ++ rest) 0 HEADER_INPUT. rewrite Z.eqb_refl.
  destruct (0 + 3 >=? len packet + len rest) eqn:E3; [lia|].
  read (packet ++ rest) (0 + 3) (len payload).
  destruct (0 + (5 + len payload) >? len packet + len rest) eqn:Hfit; [lia|].
  rewrite (slice_middle [] packet rest) by (rewrite ?len_nil; lia). reflexivity.
Qed.

(** The packets found so far stay, in front of those found later. *)
Lemma extract_loop_prefix buffer fuel :
  forall i packets packets' i',
    extract_loop fuel buffer i packets = Some (Ok (packets', i')) ->
    exists more, packets' = packets ++ more.
Proof.
  induction fuel as [|fuel IH]; intros i packets packets' i' H; [discriminate|].
  cbn [extract_loop] in H.
  destruct (extract_step buffer i packets) as [[j pk|j pk]|e] eqn:E; [| |discriminate].
  - destruct (IH _ _ _ _ H) as [more ->].
    destruct (extract_step_continue _ _ _ _ _ E)
      as [[_ ->]|(length & _ & _ & _ & _ & ->)]; [eauto|].
    eexists. now rewrite <- app_assoc.
  - injection H as <- <-. destruct (extract_step_leave _ _ _ _ _ E) as [_ ->].
    exists []. now rewrite app_nil_r.
Qed.

Lemma extract_step_leave_drop buffer i packets :
  0 <= i <= len buffer ->
  extract_step buffer i packets = Ok (Leave i packets) ->
  extract_step (drop (Z.to_nat i) buffer) 0 [] = Ok (Leave 0 []).
Proof.
  intros Hi. unfold extract_step.
  assert (Hlen : len (drop (Z.to_nat i) buffer) = len buffer - i).
  { unfold len in *. rewrite length_drop. lia. }
  rewrite Hlen.
  destruct (i <? len buffer - 5) eqn:E1.
  - destruct (0 <? len buffer - i - 5) eqn:E2; [|lia].
    rewrite (getitem_drop buffer i 0) by lia. rewrite Z.add_0_r.
    destruct (getitem buffer i) as [b|]; [|discriminate]. rewrite !bind_Ok.
    destruct (b =? HEADER_INPUT); [|discriminate].
    destruct (i + 3 >=? len buffer) eqn:E3.
    + destruct (0 + 3 >=? len buffer - i) eqn:E4; [reflexivity|lia].
    + destruct (0 + 3 >=? len buffer - i) eqn:E4; [lia|].
      rewrite (getitem_drop buffer i (0 + 3)) by lia. rewrite Z.add_0_l.
      destruct (getitem buffer (i + 3)) as [length|]; [|discriminate]. rewrite !bind_Ok.
      destruct (i + (5 + length) >? len buffer) eqn:E5; [|discriminate].
      destruct (0 + (5 + length) >? len buffer - i) eqn:E6; [reflexivity|lia].
  - destruct (0 <? len buffer - i - 5) eqn:E2; [lia|reflexivity].
Qed.

(** X9. A call of [extract_packets] on a byte buffer takes what its loop
    can take. A buffer of more than five bytes that begins with a
    complete packet gives that packet first. When the call has returned
    a packet, what it leaves is at most five bytes or the start of a
    frame that has not arrived in full. And a second call at once
    returns no packet and leaves the buffer as it is. The five bytes
    that may be left can be a whole frame with an empty payload. *)
Theorem extract_packets_twice self packets self' :
  is_bytes (buffer self) ->
  extract_packets self = Some (Ok (packets, self')) ->
  (forall command type_code payload cs rest,
      buffer self = raw_frame command type_code payload cs ++ rest ->
      5 < len (buffer self) ->
      exists more, packets = raw_frame command type_code payload cs :: more)
  /\ (packets <> [] -> pending (buffer self'))
  /\ extract_packets self' = Some (Ok ([], self')).
Proof.
  intros Hb Hfirst.
  destruct (scan_total _ Hb) as (pk & i & Hscan & Hi).
  unfold extract_packets in Hfirst. rewrite Hscan in Hfirst.
  destruct (scan_consumed _ _ _ Hb Hscan) as [_ Hexit].
  assert (Hpk : pk = packets) by (destruct pk; congruence). subst pk.
  split; [|split].
  - intros command type_code payload cs rest Hshape Hlong.
    unfold scan in Hscan. cbn [extract_loop] in Hscan. rewrite Hshape in Hscan.
    rewrite extract_step_raw_frame in Hscan by (rewrite <- Hshape; exact Hlong).
    apply extract_loop_prefix in Hscan as [more ->]. now exists more.
  - intros Hne. destruct packets as [|packet packets]; [contradiction|].
    injection Hfirst as <-. cbn [buffer].
    now apply (extract_step_leave_pending _ _ (packet :: packets)).
  - destruct packets as [|packet packets].
    + injection Hfirst as <-. unfold extract_packets. now rewrite Hscan.
    + injection Hfirst as <-.
      apply extract_step_leave_drop in Hexit; [|exact Hi].
      unfold extract_packets, scan. cbn [buffer extract_loop]. now rewrite Hexit.
Qed.

Lemma extract_packets_twice_witness :
  (forall command type_code payload cs rest,
      buffer {| buffer := inbound_frame CMD_GET MODE [1] ++ [0xF0; 0xA1; 222; 0; 222] |}
      = raw_frame command type_code payload cs ++ rest ->
      5 < len (buffer {| buffer := inbound_frame CMD_GET MODE [1]
                                   ++ [0xF0; 0xA1; 222; 0; 222] |}) ->
      exists more, [inbound_frame CMD_GET MODE [1]]
                   = raw_frame command type_code payload cs :: more)
  /\ ([inbound_frame CMD_GET MODE [1]] <> [] ->
      pending (buffer {| buffer := [0xF0; 0xA1; 222; 0; 222] |}))
  /\ extract_packets {| buffer := [0xF0; 0xA1; 222; 0; 222] |}
     = Some (Ok ([], {| buffer := [0xF0; 0xA1; 222; 0; 222] |})).
Proof.
  apply (extract_packets_twice
           {| buffer := inbound_frame CMD_GET MODE [1] ++ [0xF0; 0xA1; 222; 0; 222] |}
           [inbound_frame CMD_GET MODE [1]] {| buffer := [0xF0; 0xA1; 222; 0; 222] |}).
  - cbv -[is_bytes]. byte_bound.
  - reflexivity.
Defined.

(** ** Noise and frames back to back *)

Lemma extract_step_noise pre b rest packets :
  b <> HEADER_INPUT -> 5 < len (b :: rest) ->
  extract_step (pre ++ b :: rest) (len pre) packets
  = Ok (Continue (len pre + 1) packets).
Proof.
  intros Hb Hlong. unfold extract_step. rewrite len_app.
  pose proof (len_nonneg pre) as Hpre.
  destruct (len pre <? len pre + len (b :: rest) - 5) eqn:E; [|lia].
  replace (len pre) with (Z.of_nat (length pre) + 0) at 1 by (unfold len; lia).
  rewrite getitem_app_r by lia.
  read (b :: rest) 0 b.
  destruct (Z.eqb_spec b HEADER_INPUT); [contradiction|reflexivity].
Qed.

Lemma extract_step_frame pre command type_code payload rest packets :
  5 < len (inbound_frame command type_code payload ++ rest) ->
  extract_step (pre ++ inbound_frame command type_code payload ++ rest) (len pre) packets
  = Ok (Continue (len pre + (5 + len payload))
          (packets ++ [inbound_frame command type_code payload])).
Proof.
  intros Hlong. unfold extract_step.
  set (packet := inbound_frame command type_code payload) in *.
  assert (Hpacket : len packet = 5 + len payload) by apply len_frame.
  pose proof (len_nonneg pre) as Hpre. pose proof (len_nonneg payload) as Hpay.
  pose proof (len_nonneg rest) as Hrest.
  rewrite !len_app in *.
  destruct (len pre <? len pre + (len packet + len rest) - 5) eqn:E; [|lia].
  replace (len pre) with (Z.of_nat (length pre) + 0) at 1 by (unfold len; lia).
  rewrite getitem_app_r by lia.
  read (packet ++ rest) 0 HEADER_INPUT. rewrite Z.eqb_refl.
  destruct (len pre + 3 >=? len pre + (len packet + len rest)) eqn:E3; [lia|].
  replace (len pre + 3) with (Z.of_nat (length pre) + 3) by (unfold len; lia).
  rewrite getitem_app_r by lia.
  read (packet ++ rest) 3 (len payload).
  destruct (len pre + (5 + len payload) >? len pre + (len packet + len rest)) eqn:Hfit;
    [lia|].
  rewrite (slice_middle pre packet rest) by lia. reflexivity.
Qed.

Lemma extract_step_end buffer packets :
  extract_step buffer (len buffer) packets = Ok (Leave (len buffer) packets).
Proof.
  unfold extract_step. destruct (len buffer <? len buffer - 5) eqn:E; [lia|reflexivity].
Qed.

Lemma len_concat_frames messages :
  5 * Z.of_nat (length messages) <= len (concat (inbound_frames messages)).
Proof.
  induction messages as [|m messages IH]; [unfold len; simpl; lia|].
  cbn [inbound_frames map concat]. fold (inbound_frames messages).
  rewrite len_app. unfold inbound_frame. rewrite len_frame.
  pose proof (len_nonneg m.2). cbn [length]. lia.
Qed.

Lemma extract_loop_S fuel buffer i packets :
  extract_loop (S fuel) buffer i packets
  = match extract_step buffer i packets with
    | Raise e => Some (Raise e)
    | Ok (Leave j found) => Some (Ok (found, j))
    | Ok (Continue j found) => extract_loop fuel buffer j found
    end.
Proof. reflexivity. Qed.

Lemma extract_loop_frames messages command type_code payload :
  1 <= len payload ->
  forall pre packets,
    extract_loop (S (S (length messages)))
      (pre ++ concat (inbound_frames (messages ++ [(command, type_code, payload)])))
      (len pre) packets
    = Some (Ok (packets ++ inbound_frames (messages ++ [(command, type_code, payload)]),
                len (pre ++ concat (inbound_frames
                                      (messages ++ [(command, type_code, payload)]))))).
Proof.
  intros Hpayload. induction messages as [|m messages IH]; intros pre packets.
  - cbn [app inbound_frames map concat fst snd length]. rewrite app_nil_r.
    cbn [extract_loop].
    pose proof (extract_step_frame pre command type_code payload [] packets) as Hstep.
    rewrite app_nil_r in Hstep. rewrite Hstep
      by (unfold inbound_frame; rewrite len_frame; lia).
    replace (len pre + (5 + len payload))
      with (len (pre ++ inbound_frame command type_code payload))
      by (rewrite len_app; unfold inbound_frame; rewrite len_frame; lia).
    now rewrite extract_step_end.
  - cbn [app inbound_frames map concat length].
    fold (inbound_frames (messages ++ [(command, type_code, payload)])).
    set (rest := concat (inbound_frames (messages ++ [(command, type_code, payload)]))) in *.
    assert (Hrest : 5 <= len rest).
    { pose proof (len_concat_frames (messages ++ [(command, type_code, payload)])) as H.
      rewrite length_app in H. cbn [length] in H. unfold rest. lia. }
    rewrite extract_loop_S.
    rewrite extract_step_frame
      by (rewrite len_app; unfold inbound_frame; rewrite len_frame;
          pose proof (len_nonneg m.2); lia).
    replace (len pre + (5 + len m.2)) with (len (pre ++ inbound_frame m.1.1 m.1.2 m.2))
      by (rewrite len_app; unfold inbound_frame; rewrite len_frame; lia).
    rewrite (app_assoc pre). rewrite IH. now rewrite <- !app_assoc.
Qed.

Lemma extract_loop_noise noise rest :
  Forall (fun b => b <> HEADER_INPUT) noise -> 5 < len rest ->
  forall fuel pre packets,
    extract_loop (length noise + fuel) (pre ++ noise ++ rest) (len pre) packets
    = extract_loop fuel (pre ++ noise ++ rest) (len pre + len noise) packets.
Proof.
  intros Hnoise Hrest. induction Hnoise as [|b noise Hb Hnoise IH]; intros fuel pre packets.
  - cbn [length app Nat.add]. now rewrite len_nil, Z.add_0_r.
  - cbn [length Nat.add extract_loop app].
    rewrite extract_step_noise;
      [|exact Hb|rewrite len_cons, len_app; pose proof (len_nonneg noise); lia].
    replace (pre ++ b :: noise ++ rest) with ((pre ++ [b]) ++ noise ++ rest)
      by (rewrite <- app_assoc; reflexivity).
    replace (len pre + 1) with (len (pre ++ [b]))
      by (rewrite len_app, len_cons, len_nil; lia).
    rewrite IH. rewrite len_app, !len_cons, len_nil. f_equal. lia.
Qed.

(** X10. Noise without the sync byte, followed by complete frames back to
    back of which the last has a payload: one extraction skips the noise,
    returns every frame, in order, and leaves the buffer empty. *)
Theorem extract_frames_after_noise noise messages command type_code payload :
  Forall (fun b => b <> HEADER_INPUT) noise ->
  1 <= len payload ->
  extract_packets
    {| buffer := noise ++ concat (inbound_frames
                                    (messages ++ [(command, type_code, payload)])) |}
  = Some (Ok (inbound_frames (messages ++ [(command, type_code, payload)]),
              {| buffer := [] |})).
Proof.
  intros Hnoise Hpayload.
  set (frames := inbound_frames (messages ++ [(command, type_code, payload)])).
  assert (Hlong : 5 < len (concat frames)).
  { unfold frames. unfold inbound_frames. rewrite map_app, concat_app, len_app.
    cbn [map concat fst snd]. rewrite app_nil_r. unfold inbound_frame at 2.
    rewrite len_frame. pose proof (len_nonneg (concat (map (fun m => inbound_frame m.1.1 m.1.2 m.2) messages))). lia. }
  assert (Hscan : scan (noise ++ concat frames)
                  = Some (Ok (frames, len (noise ++ concat frames)))).
  { unfold scan.
    apply (extract_loop_more_fuel _ (length noise + S (S (length messages)))).
    - pose proof (extract_loop_noise noise (concat frames) Hnoise Hlong
                    (S (S (length messages))) [] []) as H.
      cbn [app] in H. rewrite len_nil, Z.add_0_l in H. rewrite H.
      pose proof (extract_loop_frames messages command type_code payload Hpayload noise [])
        as H2.
      cbn [app] in H2. exact H2.
    - pose proof (len_concat_frames (messages ++ [(command, type_code, payload)])) as H.
      rewrite length_app in H. cbn [length] in H. fold frames in H.
      rewrite length_app. unfold len in H. lia. }
  unfold extract_packets. cbn [buffer]. rewrite Hscan.
  assert (Hne : frames <> []).
  { unfold frames, inbound_frames. rewrite map_app. cbn [map].
    intros H. apply app_eq_nil in H as [_ H]. discriminate. }
  destruct frames as [|packet frames'] eqn:Ef; [contradiction|].
  do 3 f_equal. unfold len. rewrite Nat2Z.id. f_equal. apply drop_all.
Qed.

Lemma extract_frames_after_noise_witness :
  extract_packets
    {| buffer := [0x00; 0x07] ++ concat (inbound_frames
                                  ([(CMD_GET, MODEL_NAME, [])] ++ [(CMD_GET, MODE, [1])])) |}
  = Some (Ok (inbound_frames ([(CMD_GET, MODEL_NAME, [])] ++ [(CMD_GET, MODE, [1])]),
              {| buffer := [] |})).
Proof.
  apply (extract_frames_after_noise [0x00; 0x07] [(CMD_GET, MODEL_NAME, [])]
           CMD_GET MODE [1]).
  - repeat constructor; discriminate.
  - vm_compute. discriminate.
Defined.

End FramerExtras.

(* ===================================================================== *)
(** * More on the data models                                             *)
(* ===================================================================== *)

Section ModelsExtras.
Import Models.

Lemma assign_if_in_union (d2 d1 : gmap string pyval) key old :
  assign_if_in (d2 ∪ d1) key old = assign_if_in d2 key (assign_if_in d1 key old).
Proof.
  unfold assign_if_in. rewrite lookup_union.
  destruct (d2 !! key), (d1 !! key); reflexivity.
Qed.

Lemma lookup_union_match {A} (d2 d1 : gmap string pyval) key (f : pyval -> A) (old : A) :
  match (d2 ∪ d1) !! key with Some v => f v | None => old end
  = match d2 !! key with
    | Some v => f v
    | None => match d1 !! key with Some v => f v | None => old end
    end.
Proof. rewrite lookup_union. destruct (d2 !! key), (d1 !! key); reflexivity. Qed.

Lemma update_from_dict_union d2 d1 s :
  update_from_dict d2 (update_from_dict d1 s) = update_from_dict (d2 ∪ d1) s.
Proof.
  unfold update_from_dict. cbn -[union].
  rewrite !assign_if_in_union.
  rewrite (lookup_union_match d2 d1 "protectionState" from_string).
  rewrite (lookup_union_match d2 d1 "mode" (fun v => if value_eq_str v "CC" then CC else CV)).
  reflexivity.
Qed.

(** X11. Two update dictionaries applied one after the other do what the
    merged dictionary does in which the second has precedence; so
    applying a dictionary twice is applying it once, and the empty
    dictionary changes nothing. *)
Theorem update_from_dict_compose (d1 d2 : gmap string pyval) s :
  update_from_dict d2 (update_from_dict d1 s) = update_from_dict (d2 ∪ d1) s
  /\ update_from_dict d1 (update_from_dict d1 s) = update_from_dict d1 s
  /\ update_from_dict ∅ s = s.
Proof.
  split; [apply update_from_dict_union|]. split.
  - rewrite update_from_dict_union. now rewrite (idemp_L (∪) d1).
  - destruct s. reflexivity.
Qed.

(** X12. The strings of the constant table and the members of the enumeration
    agree: entry [i] of [PROTECTION_STATES] is the value of the [i]-th
    member, [from_string] of the value of a member is the member, and
    [from_string] of anything that is not the value of a member is
    [NORMAL]. *)
Theorem from_string_values :
  map ProtectionState_value protection_states = PROTECTION_STATES
  /\ (forall member, from_string (PStr (ProtectionState_value member)) = member)
  /\ (forall value,
        (forall member, value <> PStr (ProtectionState_value member)) ->
        from_string value = NORMAL).
Proof.
  split; [reflexivity|]. split.
  - intros []; reflexivity.
  - intros value Hnone. unfold from_string.
    assert (H : forall member, value_eq_str value (ProtectionState_value member) = false).
    { intros member. destruct value as [x|n|b|s]; try reflexivity.
      cbn [value_eq_str]. apply String.eqb_neq. intros E.
      apply (Hnone member). now rewrite E. }
    now rewrite !H.
Qed.

End ModelsExtras.

(* ===================================================================== *)
(** * More on receiving: the single-field packets                         *)
(* ===================================================================== *)

Section ReceiveExtras.
Import Protocol Models Device.

Variable decode_text : list Z -> string.

Lemma info_eta i :
  {| model_name := model_name i; hardware_version := hardware_version i;
     firmware_version := firmware_version i |} = i.
Proof. now destruct i. Qed.

(** The handler on a payload that parses to a dictionary. *)
Lemma on_packet_received_Some command type_code data self d :
  _parse_packet_data decode_text type_code data = Ok (Some d) ->
  _on_packet_received decode_text command type_code data self
  = after_update self (update_from_dict d (state self))
      {| model_name := assign_if_in d "modelName" (model_name (info self));
         hardware_version :=
           assign_if_in d "hardwareVersion" (hardware_version (info self));
         firmware_version :=
           assign_if_in d "firmwareVersion" (firmware_version (info self)) |}.
Proof. intros H. unfold _on_packet_received, after_update. now rewrite H. Qed.

Lemma parse_result_Some type_code data (d : gmap string pyval) :
  len data <> 0 -> d <> ∅ ->
  parse_body decode_text type_code data = Ok d ->
  _parse_packet_data decode_text type_code data = Ok (Some d).
Proof.
  intros Hlen Hd Hbody. unfold _parse_packet_data.
  destruct (Z.eqb_spec (len data) 0); [contradiction|]. rewrite Hbody.
  destruct (decide (d = ∅)); [contradiction|reflexivity].
Qed.

Lemma bytes_to_float_ok data :
  4 <= len data -> bytes_to_float data = Ok (Struct.unpack_f (slice data 0 4)).
Proof.
  intros H. unfold bytes_to_float. destruct (len data <? 4) eqn:E; [lia|reflexivity].
Qed.

Lemma bytes_to_float_short data :
  len data < 4 -> bytes_to_float data = Raise DPS150ProtocolError.
Proof.
  intros H. unfold bytes_to_float. destruct (len data <? 4) eqn:E; [reflexivity|lia].
Qed.

(** A dictionary with the one key [key] changes the field of that key
    and no other. *)
Lemma update_singleton key value s :
  key <> "protectionState" -> key <> "mode" ->
  only_changes key value s (update_from_dict {[ key := value ]} s).
Proof.
  intros Hp Hm. unfold only_changes. split; [|split].
  - unfold state_fields.
    repeat (apply List.Forall_cons;
            [cbn [fst snd]; unfold update_from_dict, assign_if_in;
             match goal with
             | |- context [String.eqb ?k key] =>
                 cbn [input_voltage output_voltage output_current output_power temperature
                      Models.set_voltage Models.set_current group1_set_voltage group1_set_current
                      group2_set_voltage group2_set_current group3_set_voltage
                      group3_set_current group4_set_voltage group4_set_current
                      group5_set_voltage group5_set_current group6_set_voltage
                      group6_set_current over_voltage_protection over_current_protection
                      over_power_protection over_temperature_protection
                      low_voltage_protection brightness volume metering_closed
                      output_capacity output_energy output_closed upper_limit_voltage
                      upper_limit_current];
                 rewrite lookup_singleton;
                 destruct (String.eqb_spec k key) as [->|Hne];
                 [rewrite decide_True by reflexivity; reflexivity
                 |rewrite decide_False by congruence; reflexivity]
             end|]).
    apply List.Forall_nil.
  - unfold update_from_dict. cbn [protection_state].
    now rewrite lookup_singleton_ne by congruence.
  - unfold update_from_dict. cbn [mode].
    now rewrite lookup_singleton_ne by congruence.
Qed.

Lemma update_singleton_info key value (old : pyval) other :
  key <> other -> assign_if_in ({[ key := value ]} : gmap string pyval) other old = old.
Proof. intros H. unfold assign_if_in. now rewrite lookup_singleton_ne. Qed.

(** The parse of a payload of one float. *)
Lemma parse_body_float type_code key data :
  (type_code, key) ∈ float_type_codes ->
  parse_body decode_text type_code data
  = (x ← bytes_to_float data; mret ({[ key := PFloat x ]} : gmap string pyval)).
Proof.
  intros Hin. unfold float_type_codes in Hin.
  repeat (apply elem_of_cons in Hin as [[= -> ->]|Hin]; [reflexivity|]).
  now apply elem_of_nil in Hin.
Qed.

Lemma float_key_plain type_code key :
  (type_code, key) ∈ float_type_codes ->
  key <> "protectionState" /\ key <> "mode" /\ key <> "modelName"
  /\ key <> "hardwareVersion" /\ key <> "firmwareVersion".
Proof.
  intros Hin. unfold float_type_codes in Hin.
  repeat (apply elem_of_cons in Hin as [[= -> ->]|Hin]; [repeat split; discriminate|]).
  now apply elem_of_nil in Hin.
Qed.

(** X13. A packet of one of the six type codes that carry one float, with a
    payload of 4 bytes or more, sets the field of that type code to the
    float of the first 4 bytes and changes no other field of the state
    and nothing of the device information. *)
Theorem float_packet_updates_one_field self command type_code key data :
  (type_code, key) ∈ float_type_codes -> 4 <= len data ->
  exists updated,
    _on_packet_received decode_text command type_code data self
    = after_update self updated (info self)
    /\ only_changes key (PFloat (Struct.unpack_f (slice data 0 4))) (state self) updated.
Proof.
  intros Hin Hlen.
  destruct (float_key_plain _ _ Hin) as (Hp & Hm & Hn1 & Hn2 & Hn3).
  set (v := PFloat (Struct.unpack_f (slice data 0 4))).
  exists (update_from_dict {[ key := v ]} (state self)).
  split; [|now apply update_singleton].
  rewrite (on_packet_received_Some _ _ _ _ {[ key := v ]}).
  - rewrite !update_singleton_info by assumption. now rewrite info_eta.
  - apply parse_result_Some; [lia|apply insert_non_empty|].
    rewrite (parse_body_float _ _ _ Hin), bytes_to_float_ok by exact Hlen.
    reflexivity.
Qed.

(** X14. A packet of one of those type codes with a payload of 1 to 3 bytes
    makes the parser raise the protocol error, which its own [except]
    clause does not catch; the handler swallows it, and the session is
    as before, no callback called. *)
Theorem float_packet_too_short self command type_code key data :
  (type_code, key) ∈ float_type_codes -> 1 <= len data < 4 ->
  _parse_packet_data decode_text type_code data = Raise DPS150ProtocolError
  /\ _on_packet_received decode_text command type_code data self = (self, []).
Proof.
  intros Hin Hlen.
  assert (Hparse : _parse_packet_data decode_text type_code data
                   = Raise DPS150ProtocolError).
  { unfold _parse_packet_data. destruct (Z.eqb_spec (len data) 0); [lia|].
    rewrite (parse_body_float _ _ _ Hin), bytes_to_float_short by lia. reflexivity. }
  split; [exact Hparse|]. unfold _on_packet_received. now rewrite Hparse.
Qed.

(** ** Packets that change the state only *)

(** Every field of [state_fields] is assigned from its own key. *)
Lemma update_fields d s :
  Forall (fun kf : string * (DeviceState -> pyval) =>
            kf.2 (update_from_dict d s) = assign_if_in d kf.1 (kf.2 s))
         state_fields.
Proof.
  unfold state_fields. repeat (apply List.Forall_cons; [reflexivity|]).
  apply List.Forall_nil.
Qed.

Lemma update_field d s kf :
  kf ∈ state_fields -> kf.2 (update_from_dict d s) = assign_if_in d kf.1 (kf.2 s).
Proof. intros Hin. exact (proj1 (Forall_forall _ _) (update_fields d s) kf Hin). Qed.

Lemma update_same_values d s :
  (forall kf, kf ∈ state_fields -> d !! kf.1 = None) ->
  same_values s (update_from_dict d s).
Proof.
  intros Hnone. apply Forall_forall. intros kf Hin.
  rewrite (update_field d s kf Hin). unfold assign_if_in. now rewrite (Hnone kf Hin).
Qed.

Lemma singleton_no_state_field key (value : pyval) kf :
  key ∉ state_fields.*1 -> kf ∈ state_fields ->
  ({[ key := value ]} : gmap string pyval) !! kf.1 = None.
Proof.
  intros Hkey Hin. apply lookup_singleton_ne. intros ->. apply Hkey.
  now apply (list_elem_of_fmap_2 fst _ kf).
Qed.

Lemma computed_keys :
  ("protectionState" ∉ state_fields.*1) /\ ("mode" ∉ state_fields.*1).
Proof. split; apply (bool_decide_unpack _); vm_compute; exact I. Qed.

(** The handler on a payload whose dictionary has none of the three keys
    of the device information. *)
Lemma on_packet_state_only command type_code data self (d : gmap string pyval) :
  len data <> 0 -> d <> ∅ ->
  parse_body decode_text type_code data = Ok d ->
  d !! "modelName" = None -> d !! "hardwareVersion" = None ->
  d !! "firmwareVersion" = None ->
  _on_packet_received decode_text command type_code data self
  = after_update self (update_from_dict d (state self)) (info self).
Proof.
  intros Hlen Hd Hbody H1 H2 H3.
  rewrite (on_packet_received_Some _ _ _ _ d) by now apply parse_result_Some.
  unfold assign_if_in. rewrite H1, H2, H3. now rewrite info_eta.
Qed.

(** The strings of [PROTECTION_STATES] are the values of the members of
    [ProtectionState], index by index. *)
Lemma protection_string index :
  0 <= index <= 6 ->
  exists s, getitem PROTECTION_STATES index = Ok s
            /\ protection_states !! Z.to_nat index = Some (from_string (PStr s)).
Proof.
  intros H.
  assert (Hcases : index = 0 \/ index = 1 \/ index = 2 \/ index = 3
                   \/ index = 4 \/ index = 5 \/ index = 6) by lia.
  destruct Hcases as [->|[->|[->|[->|[->|[->| ->]]]]]]; eexists; split; reflexivity.
Qed.

(** X15. A protection-state packet whose index byte is one of 0..6 sets the
    protection state to the member of [ProtectionState] with that index,
    in definition order, and changes nothing else: not the mode, no other
    field of the state, nothing of the device information. *)
Theorem protection_packet_sets_state self command index rest :
  0 <= index <= 6 ->
  exists updated,
    _on_packet_received decode_text command PROTECTION_STATE (index :: rest) self
    = after_update self updated (info self)
    /\ protection_states !! Z.to_nat index = Some (protection_state updated)
    /\ same_values (state self) updated
    /\ mode updated = mode (state self).
Proof.
  intros Hindex. destruct (protection_string index Hindex) as (s & Hs & Hmember).
  set (d := ({[ "protectionState" := PStr s ]} : gmap string pyval)).
  exists (update_from_dict d (state self)).
  pose proof (len_nonneg rest) as Hrest.
  split; [|split; [|split]].
  - apply on_packet_state_only; try reflexivity.
    + rewrite len_cons. lia.
    + apply insert_non_empty.
    + change (parse_body decode_text PROTECTION_STATE (index :: rest))
        with (state_index ← (if len (index :: rest) >? 0
                             then getitem (index :: rest) 0 else mret 0);
              if (0 <=? state_index) && (state_index <? Z.of_nat (length PROTECTION_STATES))
              then s ← getitem PROTECTION_STATES state_index;
                   mret ({[ "protectionState" := PStr s ]} : gmap string pyval)
              else mret ∅).
      rewrite len_cons. destruct (1 + len rest >? 0) eqn:E1; [|lia].
      read (index :: rest) 0 index.
      destruct ((0 <=? index) && (index <? Z.of_nat (length PROTECTION_STATES))) eqn:E2.
      * now rewrite Hs.
      * apply andb_false_iff in E2.
        change (Z.of_nat (length PROTECTION_STATES)) with 7 in E2. lia.
  - rewrite Hmember. reflexivity.
  - apply update_same_values. intros kf Hin.
    apply singleton_no_state_field; [apply computed_keys|exact Hin].
  - reflexivity.
Qed.

(** X16. A packet of output enable sets the output flag to whether the first
    byte is 1, and a packet of mode sets the mode to CC when the first
    byte is 0 and to CV for every other byte; neither changes anything
    else. *)
Theorem status_packets self command b rest :
  (exists updated,
     _on_packet_received decode_text command OUTPUT_ENABLE (b :: rest) self
     = after_update self updated (info self)
     /\ only_changes "outputClosed" (PBool (b =? 1)) (state self) updated)
  /\ (exists updated,
        _on_packet_received decode_text command MODE (b :: rest) self
        = after_update self updated (info self)
        /\ mode updated = (if b =? 0 then CC else CV)
        /\ same_values (state self) updated
        /\ protection_state updated = protection_state (state self)).
Proof.
  pose proof (len_nonneg rest) as Hrest.
  split.
  - exists (update_from_dict {[ "outputClosed" := PBool (b =? 1) ]} (state self)).
    split; [|apply update_singleton; discriminate].
    apply on_packet_state_only; try reflexivity.
    + rewrite len_cons. lia.
    + apply insert_non_empty.
  - set (d := ({[ "mode" := PStr (if b =? 0 then "CC" else "CV") ]} : gmap string pyval)).
    exists (update_from_dict d (state self)).
    split; [|split; [|split]].
    + apply on_packet_state_only; try reflexivity.
      * rewrite len_cons. lia.
      * apply insert_non_empty.
    + unfold update_from_dict, d. cbn [mode]. rewrite lookup_singleton.
      now destruct (b =? 0).
    + apply update_same_values. intros kf Hin.
      apply singleton_no_state_field; [apply computed_keys|exact Hin].
    + reflexivity.
Qed.

Lemma bytes_to_float_slice view lo hi :
  0 <= lo -> hi = lo + 4 -> hi <= len view ->
  bytes_to_float (slice view lo hi) = Ok (Struct.unpack_f (slice view lo hi)).
Proof.
  intros Hlo Hhi Hlen. pose proof (float_at_ok view lo hi Hlo Hhi Hlen) as H.
  unfold float_at in H. destruct (bytes_to_float (slice view lo hi)) as [x|e].
  - rewrite fmap_Ok in H. now injection H as ->.
  - discriminate.
Qed.

(** X17. A packet of output voltage, current and power is all or nothing: with
    fewer than 12 bytes nothing is updated, the voltage neither, though
    its 4 bytes may be there; with 12 bytes or more the three fields are
    set from the bytes 0..3, 4..7 and 8..11, and nothing else changes. *)
Theorem measurement_packet self command short full :
  len short < 12 -> 12 <= len full ->
  _on_packet_received decode_text command OUTPUT_VOLTAGE_CURRENT_POWER short self
  = (self, [])
  /\ exists updated,
       _on_packet_received decode_text command OUTPUT_VOLTAGE_CURRENT_POWER full self
       = after_update self updated (info self)
       /\ output_voltage updated = PFloat (Struct.unpack_f (slice full 0 4))
       /\ output_current updated = PFloat (Struct.unpack_f (slice full 4 8))
       /\ output_power updated = PFloat (Struct.unpack_f (slice full 8 12))
       /\ (forall kf, kf ∈ state_fields ->
             kf.1 ∉ ["outputVoltage"; "outputCurrent"; "outputPower"] ->
             kf.2 updated = kf.2 (state self))
       /\ protection_state updated = protection_state (state self)
       /\ mode updated = mode (state self).
Proof.
  intros Hshort Hfull. split.
  - apply on_packet_received_None. unfold _parse_packet_data.
    destruct (len short =? 0); [reflexivity|].
    change (parse_body decode_text OUTPUT_VOLTAGE_CURRENT_POWER short)
      with (if len short >=? 12
            then outputVoltage ← bytes_to_float (slice short 0 4);
                 outputCurrent ← bytes_to_float (slice short 4 8);
                 outputPower ← bytes_to_float (slice short 8 12);
                 mret (<["outputPower" := PFloat outputPower]>
                        (<["outputCurrent" := PFloat outputCurrent]>
                          ({[ "outputVoltage" := PFloat outputVoltage ]}
                           : gmap string pyval)))
            else mret ∅).
    destruct (len short >=? 12) eqn:E; [lia|].
    cbn [mret result_ret]. destruct (decide (∅ = ∅)) as [_|Hne]; [reflexivity|].
    now contradiction Hne.
  - set (d := <["outputPower" := PFloat (Struct.unpack_f (slice full 8 12))]>
                (<["outputCurrent" := PFloat (Struct.unpack_f (slice full 4 8))]>
                  ({[ "outputVoltage" := PFloat (Struct.unpack_f (slice full 0 4)) ]}
                   : gmap string pyval))).
    exists (update_from_dict d (state self)).
    split; [|repeat split; try reflexivity].
    + apply on_packet_state_only; try reflexivity.
      * lia.
      * apply insert_non_empty.
      * change (parse_body decode_text OUTPUT_VOLTAGE_CURRENT_POWER full)
          with (if len full >=? 12
                then outputVoltage ← bytes_to_float (slice full 0 4);
                     outputCurrent ← bytes_to_float (slice full 4 8);
                     outputPower ← bytes_to_float (slice full 8 12);
                     mret (<["outputPower" := PFloat outputPower]>
                            (<["outputCurrent" := PFloat outputCurrent]>
                              ({[ "outputVoltage" := PFloat outputVoltage ]}
                               : gmap string pyval)))
                else mret ∅).
        destruct (len full >=? 12) eqn:E; [|lia].
        rewrite !bytes_to_float_slice by lia. reflexivity.
    + intros kf Hin Hkey. rewrite (update_field d _ kf Hin). unfold assign_if_in, d.
      rewrite !not_elem_of_cons in Hkey. destruct Hkey as (H1 & H2 & H3 & _).
      rewrite !lookup_insert_ne by congruence.
      now rewrite lookup_singleton_ne by congruence.
Qed.

(** X18. A packet whose type code is none of those that the parser knows is
    ignored: the session is as before and no callback is called. The
    answers of the device to the set commands are of this kind. *)
Theorem unknown_type_code_ignored self command type_code data :
  type_code ∉ parsed_type_codes ->
  _on_packet_received decode_text command type_code data self = (self, []).
Proof.
  intros Hcode. apply on_packet_received_None.
  unfold parsed_type_codes in Hcode. rewrite !not_elem_of_cons in Hcode.
  destruct Hcode as (H1 & H2 & H3 & H4 & H5 & H6 & H7 & H8 & H9 & H10 & H11
                     & H12 & H13 & H14 & _).
  unfold _parse_packet_data. destruct (len data =? 0); [reflexivity|].
  unfold parse_body.
  repeat match goal with
         | |- context [type_code =? ?c] =>
             destruct (Z.eqb_spec type_code c); [contradiction|]
         end.
  cbn [mret result_ret]. destruct (decide (∅ = ∅)) as [_|Hne]; [reflexivity|].
  now contradiction Hne.
Qed.

(** ** The device information *)

Lemma update_info_key key value s :
  key ∈ ["modelName"; "hardwareVersion"; "firmwareVersion"] ->
  update_from_dict {[ key := value ]} s = s.
Proof.
  intros Hkey.
  assert (Hnone : forall other, other ∈ all_state_keys ->
                    ({[ key := value ]} : gmap string pyval) !! other = None).
  { intros other Hother. apply lookup_singleton_ne. intros ->.
    revert Hother.
    repeat (apply elem_of_cons in Hkey as [->|Hkey];
            [apply (bool_decide_unpack _); vm_compute; exact I|]).
    now apply elem_of_nil in Hkey. }
  destruct s. unfold update_from_dict, assign_if_in.
  cbn [input_voltage output_voltage output_current output_power temperature
       Models.set_voltage Models.set_current group1_set_voltage group1_set_current
       group2_set_voltage group2_set_current group3_set_voltage
       group3_set_current group4_set_voltage group4_set_current
       group5_set_voltage group5_set_current group6_set_voltage
       group6_set_current over_voltage_protection over_current_protection
       over_power_protection over_temperature_protection
       low_voltage_protection brightness volume metering_closed
       output_capacity output_energy output_closed protection_state mode
       upper_limit_voltage upper_limit_current].
  rewrite !Hnone by (apply (bool_decide_unpack _); vm_compute; exact I).
  reflexivity.
Qed.

(** X19. A packet of model name, hardware version or firmware version with a
    payload sets that field of the device information to the decoded
    text, leaves the other two and the whole state as they are, and the
    callbacks are called, with the state unchanged. *)
Theorem text_packet_updates_info self command data :
  1 <= len data ->
  _on_packet_received decode_text command MODEL_NAME data self
  = after_update self (state self)
      {| model_name := PStr (decode_text data);
         hardware_version := hardware_version (info self);
         firmware_version := firmware_version (info self) |}
  /\ _on_packet_received decode_text command HARDWARE_VERSION data self
     = after_update self (state self)
         {| model_name := model_name (info self);
            hardware_version := PStr (decode_text data);
            firmware_version := firmware_version (info self) |}
  /\ _on_packet_received decode_text command FIRMWARE_VERSION data self
     = after_update self (state self)
         {| model_name := model_name (info self);
            hardware_version := hardware_version (info self);
            firmware_version := PStr (decode_text data) |}.
Proof.
  intros Hlen. split; [|split].
  - rewrite (on_packet_received_Some _ _ _ _ {[ "modelName" := PStr (decode_text data) ]}).
    + rewrite update_info_key by (apply (bool_decide_unpack _); vm_compute; exact I).
      reflexivity.
    + apply parse_result_Some; [lia|apply insert_non_empty|reflexivity].
  - rewrite (on_packet_received_Some _ _ _ _
               {[ "hardwareVersion" := PStr (decode_text data) ]}).
    + rewrite update_info_key by (apply (bool_decide_unpack _); vm_compute; exact I).
      reflexivity.
    + apply parse_result_Some; [lia|apply insert_non_empty|reflexivity].
  - rewrite (on_packet_received_Some _ _ _ _
               {[ "firmwareVersion" := PStr (decode_text data) ]}).
    + rewrite update_info_key by (apply (bool_decide_unpack _); vm_compute; exact I).
      reflexivity.
    + apply parse_result_Some; [lia|apply insert_non_empty|reflexivity].
Qed.

(** ** The all-state packet, field by field *)

Lemma all_state_keys_NoDup : NoDup all_state_keys.
Proof. apply (bool_decide_unpack _). vm_compute. exact I. Qed.

(** The string filed under the protection state by the all-state branch:
    that of the index where the index is one of 0..6, the empty string
    otherwise; read back by [from_string] it is a member in both cases. *)
Lemma protection_byte b :
  exists s,
    (if (0 <=? b) && (b <? Z.of_nat (length PROTECTION_STATES))
     then PStr <$> getitem PROTECTION_STATES b
     else mret (PStr "")) = Ok (PStr s)
    /\ Some (from_string (PStr s))
       = if (0 <=? b) && (b <=? 6) then protection_states !! Z.to_nat b else Some NORMAL.
Proof.
  change (Z.of_nat (length PROTECTION_STATES)) with 7.
  destruct (Z.leb_spec 0 b) as [H0|H0]; [destruct (Z.ltb_spec b 7) as [H7|H7]|].
  - destruct (protection_string b ltac:(lia)) as (s & Hs & Hmember).
    exists s. cbn [andb]. rewrite Hs, fmap_Ok. split; [reflexivity|].
    destruct (Z.leb_spec b 6); [now rewrite Hmember|lia].
  - exists "". cbn [andb]. split; [reflexivity|].
    destruct (Z.leb_spec b 6); [lia|reflexivity].
  - exists "". cbn [andb]. split; reflexivity.
Qed.

Lemma parse_all_values view b96 b97 b98 b107 b108 b109 s :
  139 <= len view ->
  view !! 96%nat = Some b96 -> view !! 97%nat = Some b97 ->
  view !! 98%nat = Some b98 -> view !! 107%nat = Some b107 ->
  view !! 108%nat = Some b108 -> view !! 109%nat = Some b109 ->
  (if (0 <=? b108) && (b108 <? Z.of_nat (length PROTECTION_STATES))
   then PStr <$> getitem PROTECTION_STATES b108
   else mret (PStr "")) = Ok (PStr s) ->
  exists result : gmap string pyval,
    parse_all view = Ok result
    /\ (forall key offset, (key, offset) ∈ all_state_floats ->
          result !! key = Some (PFloat (Struct.unpack_f (slice view offset (offset + 4)))))
    /\ result !! "brightness" = Some (PInt b96)
    /\ result !! "volume" = Some (PInt b97)
    /\ result !! "meteringClosed" = Some (PBool (b98 =? 0))
    /\ result !! "outputClosed" = Some (PBool (b107 =? 1))
    /\ result !! "protectionState" = Some (PStr s)
    /\ result !! "mode" = Some (PStr (if b109 =? 0 then "CC" else "CV"))
    /\ result !! "modelName" = None
    /\ result !! "hardwareVersion" = None
    /\ result !! "firmwareVersion" = None.
Proof.
  intros Hlen H96 H97 H98 H107 H108 H109 Hprot.
  apply (getitem_lookup view 96) in H96; [|lia].
  apply (getitem_lookup view 97) in H97; [|lia].
  apply (getitem_lookup view 98) in H98; [|lia].
  apply (getitem_lookup view 107) in H107; [|lia].
  apply (getitem_lookup view 108) in H108; [|lia].
  apply (getitem_lookup view 109) in H109; [|lia].
  eexists. split.
  - unfold parse_all.
    rewrite !float_at_ok by lia. rewrite !gtb_true by lia.
    rewrite H96, H97, H98, H107, H108, H109.
    repeat (rewrite bind_Ok || rewrite fmap_Ok || rewrite Hprot).
    reflexivity.
  - pose proof all_state_keys_NoDup as Hkeys.
    repeat split;
      try (apply elem_of_list_to_map_1; [exact Hkeys|];
           repeat first [apply list_elem_of_here | apply list_elem_of_further]);
      try (apply not_elem_of_list_to_map_1; apply (bool_decide_unpack _);
           vm_compute; exact I).
    intros key offset Hin. unfold all_state_floats in Hin.
    repeat (apply elem_of_cons in Hin as [[= -> ->]|Hin];
            [apply elem_of_list_to_map_1; [exact Hkeys|];
             repeat first [apply list_elem_of_here | apply list_elem_of_further]|]).
    now apply elem_of_nil in Hin.
Qed.

(** X20. An all-state payload of 139 bytes or more sets the whole state: each
    of the 28 floats from the 4 bytes at its offset, brightness and
    volume from the bytes 96 and 97, the metering flag to whether byte 98
    is 0, the output flag to whether byte 107 is 1, the mode to CC when
    byte 109 is 0 and to CV otherwise, and the protection state to the
    member with the index of byte 108; an index outside 0..6 gives
    Normal here, where the packet of the protection state alone keeps
    the state it finds. The device information is left as it is. *)
Theorem all_state_packet_updates self command data b96 b97 b98 b107 b108 b109 :
  139 <= len data ->
  data !! 96%nat = Some b96 -> data !! 97%nat = Some b97 ->
  data !! 98%nat = Some b98 -> data !! 107%nat = Some b107 ->
  data !! 108%nat = Some b108 -> data !! 109%nat = Some b109 ->
  exists updated,
    _on_packet_received decode_text command ALL data self
    = after_update self updated (info self)
    /\ (forall key field offset,
          (key, field) ∈ state_fields -> (key, offset) ∈ all_state_floats ->
          field updated = PFloat (Struct.unpack_f (slice data offset (offset + 4))))
    /\ brightness updated = PInt b96
    /\ volume updated = PInt b97
    /\ metering_closed updated = PBool (b98 =? 0)
    /\ output_closed updated = PBool (b107 =? 1)
    /\ Some (protection_state updated)
       = (if (0 <=? b108) && (b108 <=? 6)
          then protection_states !! Z.to_nat b108 else Some NORMAL)
    /\ mode updated = (if b109 =? 0 then CC else CV).
Proof.
  intros Hlen H96 H97 H98 H107 H108 H109.
  destruct (protection_byte b108) as (s & Hs & Hmember).
  destruct (parse_all_values data b96 b97 b98 b107 b108 b109 s Hlen H96 H97 H98 H107 H108
              H109 Hs)
    as (d & Hparse & Hfloat & Hb & Hv & Hm & Ho & Hp & Hmode & Hn1 & Hn2 & Hn3).
  exists (update_from_dict d (state self)).
  split; [|split; [|split; [|split; [|split; [|split; [|split]]]]]].
  - apply on_packet_state_only; try assumption.
    + lia.
    + intros ->. rewrite lookup_empty in Hb. discriminate.
    + change (parse_body decode_text ALL data)
        with (if len data >=? 139 then parse_all data else mret ∅).
      destruct (len data >=? 139) eqn:E; [exact Hparse|lia].
  - intros key field offset Hfield Hoffset.
    rewrite (update_field d _ (key, field) Hfield). unfold assign_if_in.
    cbn [fst snd]. now rewrite (Hfloat key offset Hoffset).
  - unfold update_from_dict, assign_if_in. cbn [brightness]. now rewrite Hb.
  - unfold update_from_dict, assign_if_in. cbn [volume]. now rewrite Hv.
  - unfold update_from_dict, assign_if_in. cbn [metering_closed]. now rewrite Hm.
  - unfold update_from_dict, assign_if_in. cbn [output_closed]. now rewrite Ho.
  - unfold update_from_dict. cbn [protection_state]. rewrite Hp. exact Hmember.
  - unfold update_from_dict. cbn [mode]. rewrite Hmode. now destruct (b109 =? 0).
Qed.

(** ** The all-state packet as a dictionary, and the protection index *)

(** The text that the all-state branch files under the protection state. *)
Lemma protection_byte_text b :
  (if (0 <=? b) && (b <? Z.of_nat (length PROTECTION_STATES))
   then PStr <$> getitem PROTECTION_STATES b
   else mret (PStr ""))
  = Ok (PStr (default "" (if (0 <=? b) && (b <=? 6)
                          then PROTECTION_STATES !! Z.to_nat b else None))).
Proof.
  change (Z.of_nat (length PROTECTION_STATES)) with 7.
  destruct (Z.leb_spec 0 b) as [H0|H0]; [destruct (Z.ltb_spec b 7) as [H7|H7]|].
  - destruct (Z.leb_spec b 6); [|lia]. cbn [andb].
    assert (Hcases : b = 0 \/ b = 1 \/ b = 2 \/ b = 3 \/ b = 4 \/ b = 5 \/ b = 6) by lia.
    destruct Hcases as [->|[->|[->|[->|[->|[->| ->]]]]]]; reflexivity.
  - destruct (Z.leb_spec b 6); [lia|]. reflexivity.
  - reflexivity.
Qed.

(** The dictionary of an all-state payload of 139 bytes or more. *)
Lemma parse_all_state_values full b96 b97 b98 b107 b108 b109 :
  139 <= len full ->
  full !! 96%nat = Some b96 -> full !! 97%nat = Some b97 ->
  full !! 98%nat = Some b98 -> full !! 107%nat = Some b107 ->
  full !! 108%nat = Some b108 -> full !! 109%nat = Some b109 ->
  exists result : gmap string pyval,
    _parse_packet_data decode_text ALL full = Ok (Some result)
    /\ dom result = list_to_set all_state_keys
    /\ (forall key offset, (key, offset) ∈ all_state_floats ->
          result !! key
          = Some (PFloat (Struct.unpack_f (slice full offset (offset + 4)))))
    /\ result !! "brightness" = Some (PInt b96)
    /\ result !! "volume" = Some (PInt b97)
    /\ result !! "meteringClosed" = Some (PBool (b98 =? 0))
    /\ result !! "outputClosed" = Some (PBool (b107 =? 1))
    /\ result !! "protectionState"
       = Some (PStr (default "" (if (0 <=? b108) && (b108 <=? 6)
                                 then PROTECTION_STATES !! Z.to_nat b108 else None)))
    /\ result !! "mode" = Some (PStr (if b109 =? 0 then "CC" else "CV")).
Proof.
  intros Hfull H96 H97 H98 H107 H108 H109.
  destruct (parse_all_values full b96 b97 b98 b107 b108 b109 _ Hfull H96 H97 H98 H107 H108
              H109 (protection_byte_text b108))
    as (result & Hall & Hfloat & Hb & Hv & Hm & Ho & Hp & Hmode & _).
  destruct (parse_all_ok full Hfull) as (result' & Hall' & Hdom & _).
  assert (result' = result) as -> by congruence.
  exists result. split; [|auto 10].
  unfold _parse_packet_data. destruct (len full =? 0) eqn:E0; [lia|].
  change (parse_body decode_text ALL full)
    with (if len full >=? 139 then parse_all full else mret ∅).
  destruct (len full >=? 139) eqn:E; [|lia]. rewrite Hall.
  destruct (decide (result = ∅)) as [Hempty|_]; [|reflexivity].
  rewrite Hempty, lookup_empty in Hb. discriminate.
Qed.

(** C1, as the code has it. An all-state payload shorter than 139 bytes,
    one of 100 bytes among them, does not make the handler fail, and it
    gives no update at all: the parse result is [None], every field of the
    state and of the device information is left as it was, those whose
    offsets lie within the payload too, and no callback is called. A
    payload of 139 bytes or more is decoded in full: the result has the 34
    keys, each with the value at its offset, which is for the 28 floats
    the float of the four bytes there, for the brightness and the volume
    the bytes 96 and 97, for the metering flag whether byte 98 is 0, for
    the output flag whether byte 107 is 1, for the protection state the
    text of the index in byte 108, empty when the index is outside 0..6,
    and for the mode CC when byte 109 is 0 and CV otherwise. *)
Theorem all_state_short_payload self command short full b96 b97 b98 b107 b108 b109 :
  len short < 139 -> 139 <= len full ->
  full !! 96%nat = Some b96 -> full !! 97%nat = Some b97 ->
  full !! 98%nat = Some b98 -> full !! 107%nat = Some b107 ->
  full !! 108%nat = Some b108 -> full !! 109%nat = Some b109 ->
  _parse_packet_data decode_text ALL short = Ok None
  /\ _on_packet_received decode_text command ALL short self = (self, [])
  /\ (exists result : gmap string pyval,
        _parse_packet_data decode_text ALL full = Ok (Some result)
        /\ dom result = list_to_set all_state_keys
        /\ (forall key offset, (key, offset) ∈ all_state_floats ->
              result !! key
              = Some (PFloat (Struct.unpack_f (slice full offset (offset + 4)))))
        /\ result !! "brightness" = Some (PInt b96)
        /\ result !! "volume" = Some (PInt b97)
        /\ result !! "meteringClosed" = Some (PBool (b98 =? 0))
        /\ result !! "outputClosed" = Some (PBool (b107 =? 1))
        /\ result !! "protectionState"
           = Some (PStr (default "" (if (0 <=? b108) && (b108 <=? 6)
                                     then PROTECTION_STATES !! Z.to_nat b108 else None)))
        /\ result !! "mode" = Some (PStr (if b109 =? 0 then "CC" else "CV"))).
Proof.
  intros Hshort Hfull H96 H97 H98 H107 H108 H109.
  pose proof (parse_all_state_short decode_text short Hshort) as Hparse.
  split; [exact Hparse|]. split; [now apply on_packet_received_None|].
  now apply parse_all_state_values.
Qed.

(** C5. The code does not do what C5 asks. A protection-state packet
    whose index byte is outside 0..6 does not make the handler fail, but
    it gives no update: the parse result is [None], the session is left
    as it was, so the protection state keeps the value it had, whatever
    it was, and no callback is called. The all-state branch of the same
    method treats the same index, at byte 108, as C5 asks: the
    protection state becomes Normal. *)
Theorem protection_index_dropped self command index rest data :
  ~ (0 <= index <= 6) -> 139 <= len data -> data !! 108%nat = Some index ->
  _parse_packet_data decode_text PROTECTION_STATE (index :: rest) = Ok None
  /\ _on_packet_received decode_text command PROTECTION_STATE (index :: rest) self
     = (self, [])
  /\ protection_state
       (state (fst (_on_packet_received decode_text command PROTECTION_STATE
                      (index :: rest) self)))
     = protection_state (state self)
  /\ exists updated,
       _on_packet_received decode_text command ALL data self
       = after_update self updated (info self)
       /\ protection_state updated = NORMAL.
Proof.
  intros Hout Hlen H108.
  pose proof (parse_protection_out_of_range decode_text index rest Hout) as Hparse.
  split; [exact Hparse|].
  rewrite (on_packet_received_None _ _ _ _ _ Hparse).
  split; [reflexivity|]. split; [reflexivity|].
  destruct (lookup_lt_is_Some_2 data 96) as [b96 H96]; [unfold len in Hlen; lia|].
  destruct (lookup_lt_is_Some_2 data 97) as [b97 H97]; [unfold len in Hlen; lia|].
  destruct (lookup_lt_is_Some_2 data 98) as [b98 H98]; [unfold len in Hlen; lia|].
  destruct (lookup_lt_is_Some_2 data 107) as [b107 H107]; [unfold len in Hlen; lia|].
  destruct (lookup_lt_is_Some_2 data 109) as [b109 H109]; [unfold len in Hlen; lia|].
  destruct (protection_byte index) as (s & Hs & Hmember).
  destruct (parse_all_values data b96 b97 b98 b107 index b109 s Hlen H96 H97 H98 H107 H108
              H109 Hs)
    as (d & Hall & _ & Hb & _ & _ & _ & Hp & _ & Hn1 & Hn2 & Hn3).
  exists (update_from_dict d (state self)). split.
  - apply on_packet_state_only; try assumption.
    + lia.
    + intros ->. rewrite lookup_empty in Hb. discriminate.
    + change (parse_body decode_text ALL data)
        with (if len data >=? 139 then parse_all data else mret ∅).
      destruct (len data >=? 139) eqn:E; [exact Hall|lia].
  - unfold update_from_dict. cbn [protection_state]. rewrite Hp.
    assert (Hcond : (0 <=? index) && (index <=? 6) = false).
    { destruct (Z.leb_spec 0 index); destruct (Z.leb_spec index 6); try reflexivity. lia. }
    rewrite Hcond in Hmember. now injection Hmember as ->.
Qed.

End ReceiveExtras.

(* ===================================================================== *)
(** * More on writing: the commands of the session                        *)
(* ===================================================================== *)

#[global] Hint Unfold Constants.OVP Constants.OCP Constants.OPP Constants.OTP
  Constants.LVP METERING_ENABLE OUTPUT_ENABLE ALL : bytes.

Section WritingExtras.
Import Protocol Device.

Lemma session_eta self t :
  transport self = Some t ->
  {| transport := Some t; state := state self; info := info self;
     _callbacks := _callbacks self |} = self.
Proof. intros H. destruct self. cbn in *. now subst. Qed.

Lemma send_command_detached self command type_code data :
  ~ attached self -> is_byte command -> is_byte type_code -> len data <= 255 ->
  _send_command command type_code data self = (Raise ConnectionError, self).
Proof.
  intros Hdetached Hcommand Htype Hlen. unfold _send_command.
  destruct (transport self) as [t|] eqn:Ht; [|reflexivity].
  destruct (Transport.is_connected t) eqn:Hc; cbn [negb]; [|reflexivity].
  rewrite (encode_packet_frame _ _ _ Hcommand Htype Hlen).
  unfold Transport.write.
  destruct (Transport.writer t) as [w|] eqn:Hw.
  - exfalso. apply Hdetached. now exists t, w.
  - now rewrite (session_eta self t Ht).
Qed.

(** X21. On a session that is not attached (no transport, a transport that
    is not connected, or one without a writer) every command raises the
    connection error and the session is as before: nothing is written.
    So it is for a float setter, for a switch and for the request of the
    whole state. *)
Theorem commands_need_connection self command type_code data value packed :
  ~ attached self -> is_byte command -> is_byte type_code -> len data <= 255 ->
  Struct.pack_f value = Ok packed ->
  _send_command command type_code data self = (Raise ConnectionError, self)
  /\ (forall setter code, (setter, code) ∈ float_setters ->
        setter value self = (Raise ConnectionError, self))
  /\ (forall switch code flag, (switch, code, flag) ∈ switch_commands ->
        switch self = (Raise ConnectionError, self))
  /\ get_all self = (Raise ConnectionError, self).
Proof.
  intros Hdetached Hcommand Htype Hlen Hpack.
  destruct (pack_f_bytes _ _ Hpack) as [Hpacked _].
  split; [now apply send_command_detached|]. split; [|split].
  - intros setter code Hin. unfold float_setters in Hin.
    repeat (apply elem_of_cons in Hin as [[= -> ->]|Hin];
            [unfold set_voltage, set_current, set_ovp, set_ocp, set_opp, set_otp, set_lvp;
             unfold bind, lift; rewrite Hpack;
             apply send_command_detached; [exact Hdetached|byte_bound|byte_bound|lia]|]).
    now apply elem_of_nil in Hin.
  - intros switch code flag Hin. unfold switch_commands in Hin.
    repeat (apply elem_of_cons in Hin as [[= -> -> ->]|Hin];
            [unfold enable_output, disable_output, start_metering, stop_metering;
             unfold bind, lift, bytes_of_int; cbn [in_byte_range Z.leb Z.ltb Z.compare andb];
             apply send_command_detached;
             [exact Hdetached|byte_bound|byte_bound|unfold len; simpl; lia]|]).
    now apply elem_of_nil in Hin.
  - unfold get_all, bind.
    rewrite send_command_detached;
      [reflexivity|exact Hdetached|byte_bound|byte_bound|unfold len; simpl; lia].
Qed.

Lemma commands_need_connection_witness :
  _send_command CMD_SET VOLTAGE_SET [0x00; 0x00; 0x40; 0x41] DPS150_init
  = (Raise ConnectionError, DPS150_init)
  /\ (forall setter code, (setter, code) ∈ float_setters ->
        setter (S754_finite false 3 2) DPS150_init = (Raise ConnectionError, DPS150_init))
  /\ (forall switch code flag, (switch, code, flag) ∈ switch_commands ->
        switch DPS150_init = (Raise ConnectionError, DPS150_init))
  /\ get_all DPS150_init = (Raise ConnectionError, DPS150_init).
Proof.
  apply (commands_need_connection DPS150_init CMD_SET VOLTAGE_SET [0x00; 0x00; 0x40; 0x41]
           (S754_finite false 3 2) [0x00; 0x00; 0x40; 0x41]).
  - intros (t & w & Ht & _). discriminate.
  - byte_bound.
  - byte_bound.
  - vm_compute. discriminate.
  - reflexivity.
Defined.

(** A packed float sent on an attached session: one frame more, and the
    rest of the session as it was. *)
Lemma send_float_attached self type_code value data :
  attached self -> is_byte type_code -> Struct.pack_f value = Ok data ->
  exists self',
    (bind (lift (Struct.pack_f value)) (fun data => _send_command CMD_SET type_code data))
      self = (Ok tt, self')
    /\ attached self'
    /\ written self' = written self ++ [frame HEADER_OUTPUT CMD_SET type_code data]
    /\ state self' = state self /\ info self' = info self
    /\ _callbacks self' = _callbacks self.
Proof.
  intros Ha Htype Hpack. destruct (pack_f_bytes _ _ Hpack) as [Hlen _].
  destruct (send_command_attached self CMD_SET type_code data Ha) as (self' & Hs & Hrest);
    [byte_bound | exact Htype | lia |].
  exists self'. split; [|exact Hrest].
  rewrite (bind_ok _ _ self data self); [exact Hs|]. unfold lift. now rewrite Hpack.
Qed.

(** X22. Each of the seven methods that set one float writes, on an attached
    session and for a value that [struct.pack] can pack, exactly one
    frame: the set command, the type code of the method, the four bytes
    of the value. The state of the session is not touched: the value
    set shows in it only when the device reports it. *)
Theorem float_setters_write_one_frame self setter type_code value data :
  (setter, type_code) ∈ float_setters ->
  attached self -> Struct.pack_f value = Ok data ->
  exists self',
    setter value self = (Ok tt, self')
    /\ written self' = written self ++ [frame HEADER_OUTPUT CMD_SET type_code data]
    /\ len (frame HEADER_OUTPUT CMD_SET type_code data) = 9
    /\ state self' = state self /\ info self' = info self.
Proof.
  intros Hin Ha Hpack. destruct (pack_f_bytes _ _ Hpack) as [Hlen _].
  assert (Hsend : is_byte type_code ->
            exists self',
              (bind (lift (Struct.pack_f value))
                 (fun data => _send_command CMD_SET type_code data)) self = (Ok tt, self')
              /\ written self' = written self ++ [frame HEADER_OUTPUT CMD_SET type_code data]
              /\ len (frame HEADER_OUTPUT CMD_SET type_code data) = 9
              /\ state self' = state self /\ info self' = info self).
  { intros Htype.
    destruct (send_float_attached self type_code value data Ha Htype Hpack)
      as (self' & Hs & _ & Hw & Hst & Hi & _).
    exists self'. rewrite len_frame. repeat split; try assumption. lia. }
  unfold float_setters in Hin.
  repeat (apply elem_of_cons in Hin as [[= -> ->]|Hin]; [apply Hsend; byte_bound|]).
  now apply elem_of_nil in Hin.
Qed.

Lemma float_setters_write_one_frame_witness :
  exists self',
    set_ovp (S754_finite false 3 2) connected_session = (Ok tt, self')
    /\ written self'
       = written connected_session
         ++ [frame HEADER_OUTPUT CMD_SET Constants.OVP [0x00; 0x00; 0x40; 0x41]]
    /\ len (frame HEADER_OUTPUT CMD_SET Constants.OVP [0x00; 0x00; 0x40; 0x41]) = 9
    /\ state self' = state connected_session /\ info self' = info connected_session.
Proof.
  apply (float_setters_write_one_frame connected_session set_ovp Constants.OVP
           (S754_finite false 3 2) [0x00; 0x00; 0x40; 0x41]).
  - unfold float_setters. do 2 apply list_elem_of_further. apply list_elem_of_here.
  - exact connected_session_attached.
  - reflexivity.
Defined.

(** X23. The four switches, output on and off and metering on and off, write
    one frame of six bytes each on an attached session: the set command,
    the type code, and the one byte 1 for on and 0 for off. The state of
    the session is not touched. *)
Theorem switches_write_one_frame self switch type_code flag :
  (switch, type_code, flag) ∈ switch_commands -> attached self ->
  exists self',
    switch self = (Ok tt, self')
    /\ written self' = written self ++ [frame HEADER_OUTPUT CMD_SET type_code [flag]]
    /\ frame HEADER_OUTPUT CMD_SET type_code [flag]
       = [0xF1; 0xB1; type_code; 1; flag; (type_code + 1 + flag) mod 256]
    /\ state self' = state self /\ info self' = info self.
Proof.
  intros Hin Ha.
  assert (Hsend : is_byte type_code -> is_byte flag ->
            exists self',
              (bind (lift (bytes_of_int flag))
                 (fun data => _send_command CMD_SET type_code data)) self = (Ok tt, self')
              /\ written self' = written self ++ [frame HEADER_OUTPUT CMD_SET type_code [flag]]
              /\ frame HEADER_OUTPUT CMD_SET type_code [flag]
                 = [0xF1; 0xB1; type_code; 1; flag; (type_code + 1 + flag) mod 256]
              /\ state self' = state self /\ info self' = info self).
  { intros Htype Hflag.
    destruct (send_command_attached self CMD_SET type_code [flag] Ha)
      as (self' & Hs & _ & Hw & Hst & Hi & _);
      [byte_bound | exact Htype | unfold len; simpl; lia |].
    exists self'. split; [|split; [exact Hw|split; [|split; assumption]]].
    - rewrite (bind_ok _ _ self [flag] self); [exact Hs|].
      unfold lift, bytes_of_int. now rewrite (in_byte_range_true _ Hflag).
    - unfold frame, checksum_of, Zsum, len.
      cbn [app foldr length]. change (Z.of_nat 1) with 1.
      replace (type_code + 1 + (flag + 0)) with (type_code + 1 + flag) by lia.
      reflexivity. }
  unfold switch_commands in Hin.
  repeat (apply elem_of_cons in Hin as [[= -> -> ->]|Hin]; [apply Hsend; byte_bound|]).
  now apply elem_of_nil in Hin.
Qed.

Lemma switches_write_one_frame_witness :
  exists self',
    enable_output connected_session = (Ok tt, self')
    /\ written self'
       = written connected_session ++ [frame HEADER_OUTPUT CMD_SET OUTPUT_ENABLE [1]]
    /\ frame HEADER_OUTPUT CMD_SET OUTPUT_ENABLE [1]
       = [0xF1; 0xB1; OUTPUT_ENABLE; 1; 1; (OUTPUT_ENABLE + 1 + 1) mod 256]
    /\ state self' = state connected_session /\ info self' = info connected_session.
Proof.
  apply (switches_write_one_frame connected_session enable_output OUTPUT_ENABLE 1).
  - unfold switch_commands. apply list_elem_of_here.
  - exact connected_session_attached.
Defined.

(** X24. [get_all] on an attached session writes the request of the whole
    state, the five bytes F1 A1 FF 00 FF, and returns the state object of
    the session, which the method itself has not changed: what it
    returns is new only as far as the packet handler has run since. *)
Theorem get_all_request self :
  attached self ->
  exists self',
    get_all self = (Ok (state self'), self')
    /\ written self' = written self ++ [[0xF1; 0xA1; 0xFF; 0x00; 0xFF]]
    /\ state self' = state self /\ info self' = info self.
Proof.
  intros Ha.
  destruct (send_command_attached self CMD_GET ALL [] Ha)
    as (self' & Hs & _ & Hw & Hst & Hi & _);
    [byte_bound | byte_bound | unfold len; simpl; lia |].
  exists self'. split; [|split; [exact Hw|split; assumption]].
  unfold get_all. now rewrite (bind_ok _ _ self tt self' Hs).
Qed.

Lemma get_all_request_witness :
  exists self',
    get_all connected_session = (Ok (state self'), self')
    /\ written self' = written connected_session ++ [[0xF1; 0xA1; 0xFF; 0x00; 0xFF]]
    /\ state self' = state connected_session /\ info self' = info connected_session.
Proof. apply (get_all_request connected_session). exact connected_session_attached. Defined.

(** X25. [set_group] is not atomic. Where the voltage can be packed and the
    current cannot, the live set-point voltage has been written to the
    device when the packing of the current raises: the call fails with
    [OverflowError], one frame is out, and no group slot has been
    written. *)
Theorem set_group_not_atomic self group voltage current data_v :
  attached self -> 1 <= group <= 6 ->
  Struct.pack_f voltage = Ok data_v -> Struct.pack_f current = Raise OverflowError ->
  exists self',
    set_group group voltage current self = (Raise OverflowError, self')
    /\ written self' = written self ++ [frame HEADER_OUTPUT CMD_SET VOLTAGE_SET data_v].
Proof.
  intros Ha Hgroup Hv Hc. unfold set_group.
  assert (Hin : (1 <=? group) && (group <=? 6) = true) by (apply andb_true_iff; lia).
  rewrite Hin. cbn [negb].
  destruct (send_float_attached self VOLTAGE_SET voltage data_v Ha) as (s1 & H1 & _ & W1 & _);
    [byte_bound | exact Hv |].
  exists s1. split; [|exact W1].
  rewrite (bind_ok _ _ self tt s1 H1).
  unfold bind at 1. unfold set_current, bind, lift. now rewrite Hc.
Qed.

Lemma set_group_not_atomic_witness :
  exists self',
    set_group 1 (S754_finite false 3 2) (S754_finite false 1 200) connected_session
    = (Raise OverflowError, self')
    /\ written self'
       = written connected_session
         ++ [frame HEADER_OUTPUT CMD_SET VOLTAGE_SET [0x00; 0x00; 0x40; 0x41]].
Proof.
  apply (set_group_not_atomic connected_session 1 (S754_finite false 3 2)
           (S754_finite false 1 200)).
  - exact connected_session_attached.
  - lia.
  - reflexivity.
  - reflexivity.
Defined.

End WritingExtras.

(* ===================================================================== *)
(** * The read loop: from the bytes read to the packet handler            *)
(* ===================================================================== *)

Section ReadLoop.
Import Protocol Models Device.

Variable decode_text : list Z -> string.

Lemma with_buffer_twice b b' self :
  with_buffer b (with_buffer b' self) = with_buffer b self.
Proof. unfold with_buffer. cbn. now destruct (transport self). Qed.

Lemma with_buffer_empty self :
  buffer_empty self -> with_buffer {| buffer := [] |} self = self.
Proof.
  intros (t & Ht & Hb). destruct self as [tr st inf cbs]. cbn in *. subst tr.
  unfold with_buffer. cbn. destruct t as [c w b]. cbn in *. now subst b.
Qed.

Lemma receiving_buffer_empty self : receiving self -> buffer_empty self.
Proof. intros (t & Ht & _ & Hb). now exists t. Qed.

Lemma with_buffer_transport b self t :
  transport self = Some t ->
  exists t', transport (with_buffer b self) = Some t'
             /\ Transport.is_connected t' = Transport.is_connected t
             /\ Transport.buffer t' = b.
Proof.
  intros Ht. unfold with_buffer. cbn. rewrite Ht. eexists. repeat split; reflexivity.
Qed.

(** The handler keeps the transport of the session. *)
Lemma on_packet_received_transport command type_code data self :
  transport (fst (_on_packet_received decode_text command type_code data self))
  = transport self.
Proof.
  unfold _on_packet_received.
  destruct (_parse_packet_data decode_text type_code data) as [[d|]|e]; try reflexivity.
  now destruct (invoke_callbacks _ _).
Qed.

(** A well-formed frame, alone in the list, is decoded and handed to the
    packet handler. *)
Lemma process_one_frame command type_code payload self :
  process_packets decode_text [inbound_frame command type_code payload] self
  = (Ok tt, _on_packet_received decode_text command type_code payload self).
Proof.
  cbn [process_packets]. rewrite decode_inbound_frame.
  destruct (_on_packet_received decode_text command type_code payload self) as [s calls].
  now rewrite app_nil_r.
Qed.

Lemma no_empty_chunks chunks :
  Forall (fun chunk : list Z => chunk <> []) chunks -> concat chunks = [] -> chunks = [].
Proof.
  intros Hall Hcat. destruct chunks as [|chunk chunks]; [reflexivity|].
  apply Forall_cons in Hall as [Hchunk _]. cbn [concat] in Hcat.
  apply app_eq_nil in Hcat as [-> _]. contradiction.
Qed.

(** A turn of the loop on a connected transport, in which data is read. *)
Lemma read_turns_data data reads self t :
  transport self = Some t -> Transport.is_connected t = true -> data <> [] ->
  read_turns decode_text (data :: reads) self
  = match read_chunk decode_text data self with
    | None => None
    | Some (Raise _, (self, calls)) => Some (self, calls)
    | Some (Ok _, (self, calls)) =>
        match read_turns decode_text reads self with
        | Some (self, more) => Some (self, calls ++ more)
        | None => None
        end
    end.
Proof.
  intros Ht Hc Hdata. cbn [read_turns]. rewrite Ht.
  unfold Transport.is_connected in Hc. rewrite Hc. cbn [negb].
  destruct data; [contradiction|reflexivity].
Qed.

(** When no read returns any more, the loop has nothing to do. *)
Lemma read_turns_end self t :
  transport self = Some t -> read_turns decode_text [] self = Some (self, []).
Proof.
  intros Ht. cbn [read_turns]. rewrite Ht. now destruct (negb (Transport._connected t)).
Qed.

Lemma read_turns_handled command type_code payload self t :
  transport self = Some t ->
  match read_turns decode_text []
          (fst (_on_packet_received decode_text command type_code payload self)) with
  | Some (s, more) =>
      Some (s, snd (_on_packet_received decode_text command type_code payload self) ++ more)
  | None => None
  end
  = Some (_on_packet_received decode_text command type_code payload self).
Proof.
  intros Ht.
  rewrite (read_turns_end _ t)
    by (now rewrite on_packet_received_transport).
  destruct (_on_packet_received _ _ _ _ _) as [s calls]. cbn [fst snd].
  now rewrite app_nil_r.
Qed.

Lemma read_loop_remaining command type_code payload :
  1 <= len payload ->
  forall chunks arrived self t,
    Forall (fun chunk : list Z => chunk <> []) chunks ->
    arrived ++ concat chunks = inbound_frame command type_code payload ->
    concat chunks <> [] ->
    transport self = Some t -> Transport.is_connected t = true ->
    Transport.buffer t = {| buffer := arrived |} ->
    read_turns decode_text chunks self
    = Some (_on_packet_received decode_text command type_code payload
              (with_buffer {| buffer := [] |} self)).
Proof.
  intros Hpayload.
  induction chunks as [|chunk chunks IH];
    intros arrived self t Hall Hsplit Hmore Ht Hc Hb; [contradiction|].
  apply Forall_cons in Hall as [Hchunk Hall].
  cbn [concat] in Hsplit. rewrite app_assoc in Hsplit.
  rewrite (read_turns_data chunk chunks self t Ht Hc Hchunk).
  unfold read_chunk. rewrite Ht, Hb. unfold append. cbn [buffer].
  destruct (decide (concat chunks = [])) as [Hdone|Hnot].
  - rewrite Hdone, app_nil_r in Hsplit. rewrite Hsplit.
    rewrite (extract_whole_frame _ _ _ Hpayload). rewrite process_one_frame.
    rewrite (no_empty_chunks chunks Hall Hdone).
    destruct (with_buffer_transport {| buffer := [] |} self t Ht) as (t' & Ht' & _).
    pose proof (read_turns_handled command type_code payload _ t' Ht') as Hend.
    destruct (_on_packet_received _ _ _ _ _) as [s calls]. exact Hend.
  - rewrite (extract_proper_prefix _ _ _ _ _ Hsplit Hnot). cbn [process_packets].
    destruct (with_buffer_transport {| buffer := arrived ++ chunk |} self t Ht)
      as (t' & Ht' & Hc' & Hb').
    rewrite (IH (arrived ++ chunk) _ t' Hall Hsplit Hnot Ht' (eq_trans Hc' Hc) Hb').
    rewrite with_buffer_twice.
    now destruct (_on_packet_received _ _ _ _ _) as [s calls].
Qed.

(** X26. From the wire to the handler. On a transport that is connected,
    has a reader and an empty buffer, the bytes of one well-formed frame
    with a payload, read in any number of pieces of any sizes, reach the
    packet handler once, as the command, type code and payload of the
    frame, when the last piece is in; the pieces before it change nothing
    but the buffer, which is empty again at the end. On a transport that
    is not connected, or has no reader, the loop reads nothing and calls
    nothing. *)
Theorem read_loop_delivers_frame self idle command type_code payload chunks :
  receiving self -> disconnected idle -> 1 <= len payload ->
  Forall (fun chunk : list Z => chunk <> []) chunks ->
  concat chunks = inbound_frame command type_code payload ->
  _read_loop decode_text (Some chunks) self
  = Some (_on_packet_received decode_text command type_code payload self)
  /\ _read_loop decode_text (Some chunks) idle = Some (idle, [])
  /\ _read_loop decode_text None self = Some (self, []).
Proof.
  intros Hself (t' & Ht' & Hc') Hpayload Hall Hchunks.
  pose proof Hself as (t & Ht & Hc & Hb).
  split; [|split].
  - unfold _read_loop. rewrite Ht.
    rewrite (read_loop_remaining command type_code payload Hpayload chunks [] self t);
      try assumption.
    + now rewrite (with_buffer_empty self (receiving_buffer_empty self Hself)).
    + rewrite Hchunks. discriminate.
  - unfold _read_loop. rewrite Ht'. unfold Transport.is_connected in Hc'.
    destruct chunks; cbn [read_turns]; now rewrite Ht', Hc'.
  - unfold _read_loop. now rewrite Ht.
Qed.

(** ** A frame with a wrong checksum *)

Lemma extract_raw_then_frame command type_code payload cs command' type_code' payload' :
  1 <= len payload' ->
  extract_packets
    {| buffer := raw_frame command type_code payload cs
                 ++ inbound_frame command' type_code' payload' |}
  = Some (Ok ([raw_frame command type_code payload cs;
               inbound_frame command' type_code' payload'], {| buffer := [] |})).
Proof.
  intros Hpayload.
  set (raw := raw_frame command type_code payload cs).
  set (packet := inbound_frame command' type_code' payload').
  assert (Hraw : len raw = 5 + len payload) by apply len_raw_frame.
  assert (Hpacket : len packet = 5 + len payload') by apply len_frame.
  pose proof (len_nonneg payload) as Hpay.
  assert (Hscan : scan (raw ++ packet) = Some (Ok ([raw; packet], len (raw ++ packet)))).
  { unfold scan. apply (extract_loop_more_fuel _ 3).
    - rewrite extract_loop_S. unfold raw.
      rewrite extract_step_raw_frame by (fold raw; rewrite len_app; lia).
      fold raw. change ([] ++ [raw]) with [raw]. rewrite extract_loop_S.
      pose proof (extract_step_frame raw command' type_code' payload' [] [raw]) as Hstep.
      rewrite app_nil_r in Hstep. fold packet in Hstep.
      rewrite <- Hraw. rewrite Hstep by lia.
      replace (len raw + (5 + len payload')) with (len (raw ++ packet))
        by (rewrite len_app; lia).
      rewrite extract_loop_S. now rewrite extract_step_end.
    - rewrite length_app. unfold len in *. lia. }
  unfold extract_packets. cbn [buffer]. rewrite Hscan.
  do 3 f_equal. unfold len. rewrite Nat2Z.id. f_equal. apply drop_all.
Qed.

(** Behind the packet there is a frame with an empty payload: the packet
    is taken, the frame stays. *)
Lemma extract_raw_then_empty command type_code payload cs command' type_code' :
  extract_packets
    {| buffer := raw_frame command type_code payload cs
                 ++ inbound_frame command' type_code' [] |}
  = Some (Ok ([raw_frame command type_code payload cs],
              {| buffer := inbound_frame command' type_code' [] |})).
Proof.
  set (raw := raw_frame command type_code payload cs).
  set (held := inbound_frame command' type_code' []).
  assert (Hraw : len raw = 5 + len payload) by apply len_raw_frame.
  assert (Hheld : len held = 5) by reflexivity.
  pose proof (len_nonneg payload) as Hpay.
  assert (Hscan : scan (raw ++ held) = Some (Ok ([raw], len raw))).
  { unfold scan. apply (extract_loop_more_fuel _ 2).
    - rewrite extract_loop_S. unfold raw.
      rewrite extract_step_raw_frame by (fold raw; rewrite len_app; lia).
      fold raw. change ([] ++ [raw]) with [raw]. rewrite extract_loop_S.
      unfold extract_step. rewrite len_app.
      destruct (5 + len payload <? len raw + len held - 5) eqn:E; [lia|].
      now rewrite Hraw.
    - rewrite length_app. unfold len in *. lia. }
  unfold extract_packets. cbn [buffer]. rewrite Hscan.
  do 3 f_equal. unfold len. rewrite Nat2Z.id. f_equal. apply drop_app_length.
Qed.

(** X27. A frame with a wrong checksum does no harm to the frame behind
    it. It is rejected by [decode_packet] with the protocol error. Read
    in one piece with a well-formed frame behind it, on a transport that
    is connected and has an empty buffer, it is taken out of the buffer
    and discarded without a call of the handler; the frame behind it,
    when it has a payload, is taken out too and handled as if it had
    come alone, and when its payload is empty it stays in the buffer,
    not handled. *)
Theorem corrupt_frame_skipped self command type_code payload cs
    command' type_code' payload' :
  receiving self -> cs <> checksum_of type_code payload ->
  decode_packet (raw_frame command type_code payload cs) = Raise ProtocolError
  /\ (1 <= len payload' ->
      _read_loop decode_text
        (Some [raw_frame command type_code payload cs
               ++ inbound_frame command' type_code' payload']) self
      = Some (_on_packet_received decode_text command' type_code' payload' self))
  /\ _read_loop decode_text
       (Some [raw_frame command type_code payload cs
              ++ inbound_frame command' type_code' []]) self
     = Some (with_buffer {| buffer := inbound_frame command' type_code' [] |} self, []).
Proof.
  intros Hself Hcs.
  assert (Hdecode : decode_packet (raw_frame command type_code payload cs)
                    = Raise ProtocolError).
  { unfold raw_frame. rewrite decode_packet_shape.
    destruct (Z.eqb_spec cs (checksum_of type_code payload)); [contradiction|reflexivity]. }
  assert (Hskip : forall packets s,
            process_packets decode_text (raw_frame command type_code payload cs :: packets) s
            = process_packets decode_text packets s).
  { intros packets s. cbn [process_packets]. now rewrite Hdecode. }
  assert (Hdata : forall rest, raw_frame command type_code payload cs ++ rest <> []).
  { intros rest. unfold raw_frame. discriminate. }
  pose proof Hself as (t & Ht & Hc & Hb).
  pose proof (with_buffer_empty self (receiving_buffer_empty self Hself)) as Hsame.
  split; [exact Hdecode|]. split.
  - intros Hpayload. unfold _read_loop. rewrite Ht.
    rewrite (read_turns_data _ [] self t Ht Hc (Hdata _)).
    unfold read_chunk. rewrite Ht, Hb. unfold append. cbn [buffer app].
    rewrite (extract_raw_then_frame _ _ _ _ _ _ _ Hpayload).
    rewrite Hsame, Hskip, process_one_frame.
    pose proof (read_turns_handled command' type_code' payload' self t Ht) as Hend.
    destruct (_on_packet_received _ _ _ _ _) as [s calls]. exact Hend.
  - unfold _read_loop. rewrite Ht.
    rewrite (read_turns_data _ [] self t Ht Hc (Hdata _)).
    unfold read_chunk. rewrite Ht, Hb. unfold append. cbn [buffer app].
    rewrite extract_raw_then_empty, Hskip. cbn [process_packets].
    destruct (with_buffer_transport {| buffer := inbound_frame command' type_code' [] |}
                self t Ht) as (t' & Ht' & _).
    now rewrite (read_turns_end _ t' Ht').
Qed.

End ReadLoop.

(* ===================================================================== *)
(** * The receiving side run on a text decoder                            *)
(* ===================================================================== *)

Section ReceiveInstances.
Import Protocol Models Device.

Lemma float_packet_updates_one_field_witness :
  exists updated,
    _on_packet_received ascii_text CMD_GET TEMPERATURE [0x00; 0x00; 0xC8; 0x41]
      connected_session
    = after_update connected_session updated (info connected_session)
    /\ only_changes "temperature"
         (PFloat (Struct.unpack_f (slice [0x00; 0x00; 0xC8; 0x41] 0 4)))
         (state connected_session) updated.
Proof.
  apply (float_packet_updates_one_field ascii_text connected_session CMD_GET
           TEMPERATURE "temperature" [0x00; 0x00; 0xC8; 0x41]).
  - apply (bool_decide_unpack _). vm_compute. exact I.
  - vm_compute. discriminate.
Defined.

Lemma float_packet_too_short_witness :
  _parse_packet_data ascii_text INPUT_VOLTAGE [0x00; 0x00; 0xA0] = Raise DPS150ProtocolError
  /\ _on_packet_received ascii_text CMD_GET INPUT_VOLTAGE [0x00; 0x00; 0xA0]
       connected_session
     = (connected_session, []).
Proof.
  apply (float_packet_too_short ascii_text connected_session CMD_GET
           INPUT_VOLTAGE "inputVoltage" [0x00; 0x00; 0xA0]).
  - apply (bool_decide_unpack _). vm_compute. exact I.
  - split; vm_compute; [discriminate|reflexivity].
Defined.

Lemma protection_packet_sets_state_witness :
  exists updated,
    _on_packet_received ascii_text CMD_GET PROTECTION_STATE (2 :: []) connected_session
    = after_update connected_session updated (info connected_session)
    /\ protection_states !! Z.to_nat 2 = Some (protection_state updated)
    /\ same_values (state connected_session) updated
    /\ mode updated = mode (state connected_session).
Proof.
  apply (protection_packet_sets_state ascii_text connected_session CMD_GET 2 []). lia.
Defined.

Lemma measurement_packet_witness :
  _on_packet_received ascii_text CMD_GET OUTPUT_VOLTAGE_CURRENT_POWER
    [0x00; 0x00; 0xA0; 0x40] connected_session
  = (connected_session, [])
  /\ exists updated,
       _on_packet_received ascii_text CMD_GET OUTPUT_VOLTAGE_CURRENT_POWER
         [0x00; 0x00; 0xA0; 0x40; 0x00; 0x00; 0x80; 0x3F; 0x00; 0x00; 0xA0; 0x40]
         connected_session
       = after_update connected_session updated (info connected_session)
       /\ output_voltage updated
          = PFloat (Struct.unpack_f
                      (slice [0x00; 0x00; 0xA0; 0x40; 0x00; 0x00; 0x80; 0x3F;
                              0x00; 0x00; 0xA0; 0x40] 0 4))
       /\ output_current updated
          = PFloat (Struct.unpack_f
                      (slice [0x00; 0x00; 0xA0; 0x40; 0x00; 0x00; 0x80; 0x3F;
                              0x00; 0x00; 0xA0; 0x40] 4 8))
       /\ output_power updated
          = PFloat (Struct.unpack_f
                      (slice [0x00; 0x00; 0xA0; 0x40; 0x00; 0x00; 0x80; 0x3F;
                              0x00; 0x00; 0xA0; 0x40] 8 12))
       /\ (forall kf, kf ∈ state_fields ->
             kf.1 ∉ ["outputVoltage"; "outputCurrent"; "outputPower"] ->
             kf.2 updated = kf.2 (state connected_session))
       /\ protection_state updated = protection_state (state connected_session)
       /\ mode updated = mode (state connected_session).
Proof.
  apply (measurement_packet ascii_text connected_session CMD_GET
           [0x00; 0x00; 0xA0; 0x40]
           [0x00; 0x00; 0xA0; 0x40; 0x00; 0x00; 0x80; 0x3F; 0x00; 0x00; 0xA0; 0x40]).
  - vm_compute. reflexivity.
  - vm_compute. discriminate.
Defined.

Lemma unknown_type_code_ignored_witness :
  _on_packet_received ascii_text CMD_SET VOLTAGE_SET [0x00; 0x00; 0x40; 0x41]
    connected_session
  = (connected_session, []).
Proof.
  apply (unknown_type_code_ignored ascii_text connected_session CMD_SET VOLTAGE_SET
           [0x00; 0x00; 0x40; 0x41]).
  apply (bool_decide_unpack _). vm_compute. exact I.
Defined.

Lemma text_packet_updates_info_witness :
  _on_packet_received ascii_text CMD_GET MODEL_NAME [68; 80; 83] connected_session
  = after_update connected_session (state connected_session)
      {| model_name := PStr (ascii_text [68; 80; 83]);
         hardware_version := hardware_version (info connected_session);
         firmware_version := firmware_version (info connected_session) |}
  /\ _on_packet_received ascii_text CMD_GET HARDWARE_VERSION [68; 80; 83] connected_session
     = after_update connected_session (state connected_session)
         {| model_name := model_name (info connected_session);
            hardware_version := PStr (ascii_text [68; 80; 83]);
            firmware_version := firmware_version (info connected_session) |}
  /\ _on_packet_received ascii_text CMD_GET FIRMWARE_VERSION [68; 80; 83] connected_session
     = after_update connected_session (state connected_session)
         {| model_name := model_name (info connected_session);
            hardware_version := hardware_version (info connected_session);
            firmware_version := PStr (ascii_text [68; 80; 83]) |}.
Proof.
  apply (text_packet_updates_info ascii_text connected_session CMD_GET [68; 80; 83]).
  vm_compute. discriminate.
Defined.

Lemma all_state_packet_updates_witness :
  exists updated,
    _on_packet_received ascii_text CMD_GET ALL (replicate 139 1) connected_session
    = after_update connected_session updated (info connected_session)
    /\ (forall key field offset,
          (key, field) ∈ state_fields -> (key, offset) ∈ all_state_floats ->
          field updated
          = PFloat (Struct.unpack_f (slice (replicate 139 1) offset (offset + 4))))
    /\ brightness updated = PInt 1
    /\ volume updated = PInt 1
    /\ metering_closed updated = PBool (1 =? 0)
    /\ output_closed updated = PBool (1 =? 1)
    /\ Some (protection_state updated)
       = (if (0 <=? 1) && (1 <=? 6)
          then protection_states !! Z.to_nat 1 else Some NORMAL)
    /\ mode updated = (if 1 =? 0 then CC else CV).
Proof.
  apply (all_state_packet_updates ascii_text connected_session CMD_GET
           (replicate 139 1) 1 1 1 1 1 1).
  - vm_compute. discriminate.
  - reflexivity.
  - reflexivity.
  - reflexivity.
  - reflexivity.
  - reflexivity.
  - reflexivity.
Defined.

Lemma all_state_short_payload_witness :
  _parse_packet_data ascii_text ALL ([0x00; 0x00; 0xA0; 0x40] ++ replicate 96 0) = Ok None
  /\ _on_packet_received ascii_text CMD_GET ALL ([0x00; 0x00; 0xA0; 0x40] ++ replicate 96 0)
       connected_session
     = (connected_session, [])
  /\ (exists result : gmap string pyval,
        _parse_packet_data ascii_text ALL all_state_sample = Ok (Some result)
        /\ dom result = list_to_set all_state_keys
        /\ (forall key offset, (key, offset) ∈ all_state_floats ->
              result !! key
              = Some (PFloat (Struct.unpack_f (slice all_state_sample offset (offset + 4)))))
        /\ result !! "brightness" = Some (PInt 5)
        /\ result !! "volume" = Some (PInt 3)
        /\ result !! "meteringClosed" = Some (PBool (0 =? 0))
        /\ result !! "outputClosed" = Some (PBool (1 =? 1))
        /\ result !! "protectionState"
           = Some (PStr (default "" (if (0 <=? 2) && (2 <=? 6)
                                     then PROTECTION_STATES !! Z.to_nat 2 else None)))
        /\ result !! "mode" = Some (PStr (if 0 =? 0 then "CC" else "CV"))).
Proof.
  apply (all_state_short_payload ascii_text connected_session CMD_GET
           ([0x00; 0x00; 0xA0; 0x40] ++ replicate 96 0) all_state_sample 5 3 0 1 2 0).
  - vm_compute. reflexivity.
  - vm_compute. discriminate.
  - reflexivity.
  - reflexivity.
  - reflexivity.
  - reflexivity.
  - reflexivity.
  - reflexivity.
Defined.

(** The sample payload, worked out: the set points are 12.0 V at offset 4
    and 1.0 A at offset 8, the metering flag is set by the byte 0, and
    the protection state is that of index 2. *)
Example all_state_sample_values :
  exists result : gmap string pyval,
    _parse_packet_data ascii_text ALL all_state_sample = Ok (Some result)
    /\ result !! "inputVoltage" = Some (PFloat (S754_finite false 10485760 (-21)))
    /\ result !! "setVoltage" = Some (PFloat (S754_finite false 12582912 (-20)))
    /\ result !! "setCurrent" = Some (PFloat (S754_finite false 8388608 (-23)))
    /\ result !! "brightness" = Some (PInt 5)
    /\ result !! "volume" = Some (PInt 3)
    /\ result !! "meteringClosed" = Some (PBool true)
    /\ result !! "outputClosed" = Some (PBool true)
    /\ result !! "protectionState" = Some (PStr "OCP")
    /\ result !! "mode" = Some (PStr "CC").
Proof.
  assert (Hlen : 139 <= len all_state_sample) by (vm_compute; discriminate).
  destruct (parse_all_state_values ascii_text all_state_sample 5 3 0 1 2 0 Hlen
              eq_refl eq_refl eq_refl eq_refl eq_refl eq_refl)
    as (result & Hparse & _ & Hfloat & Hb & Hv & Hm & Ho & Hp & Hmode).
  exists result. split; [exact Hparse|].
  rewrite (Hfloat "inputVoltage" 0), (Hfloat "setVoltage" 4), (Hfloat "setCurrent" 8)
    by (apply (bool_decide_unpack _); vm_compute; exact I).
  rewrite Hb, Hv, Hm, Ho, Hp, Hmode.
  split; [vm_compute; reflexivity|]. split; [vm_compute; reflexivity|].
  split; [vm_compute; reflexivity|]. repeat split.
Qed.

Lemma protection_index_dropped_witness :
  _parse_packet_data ascii_text PROTECTION_STATE (7 :: []) = Ok None
  /\ _on_packet_received ascii_text CMD_GET PROTECTION_STATE (7 :: []) connected_session
     = (connected_session, [])
  /\ protection_state
       (state (fst (_on_packet_received ascii_text CMD_GET PROTECTION_STATE (7 :: [])
                      connected_session)))
     = protection_state (state connected_session)
  /\ exists updated,
       _on_packet_received ascii_text CMD_GET ALL (replicate 108 0 ++ [7] ++ replicate 30 0)
         connected_session
       = after_update connected_session updated (info connected_session)
       /\ protection_state updated = NORMAL.
Proof.
  apply (protection_index_dropped ascii_text connected_session CMD_GET 7 []
           (replicate 108 0 ++ [7] ++ replicate 30 0)).
  - lia.
  - vm_compute. discriminate.
  - reflexivity.
Defined.

Lemma connected_session_receiving : receiving connected_session.
Proof. eexists. repeat split. Qed.

Lemma read_loop_delivers_frame_witness :
  _read_loop ascii_text (Some [[0xF0; 0xA1]; [221; 1; 0]; [222]]) connected_session
  = Some (_on_packet_received ascii_text CMD_GET MODE [0] connected_session)
  /\ _read_loop ascii_text (Some [[0xF0; 0xA1]; [221; 1; 0]; [222]])
       {| transport :=
            Some {| Transport._connected := false; Transport.writer := None;
                    Transport.buffer := PacketBuffer_init |};
          state := DeviceState_init; info := DeviceInfo_init; _callbacks := [] |}
     = Some ({| transport :=
                  Some {| Transport._connected := false; Transport.writer := None;
                          Transport.buffer := PacketBuffer_init |};
                state := DeviceState_init; info := DeviceInfo_init; _callbacks := [] |}, [])
  /\ _read_loop ascii_text None connected_session = Some (connected_session, []).
Proof.
  apply (read_loop_delivers_frame ascii_text connected_session
           {| transport :=
                Some {| Transport._connected := false; Transport.writer := None;
                        Transport.buffer := PacketBuffer_init |};
              state := DeviceState_init; info := DeviceInfo_init; _callbacks := [] |}
           CMD_GET MODE [0] [[0xF0; 0xA1]; [221; 1; 0]; [222]]).
  - exact connected_session_receiving.
  - eexists. split; reflexivity.
  - vm_compute. discriminate.
  - repeat constructor; discriminate.
  - reflexivity.
Defined.

Lemma corrupt_frame_skipped_witness :
  decode_packet (raw_frame CMD_GET MODE [0] 0) = Raise ProtocolError
  /\ (1 <= len [1] ->
      _read_loop ascii_text
        (Some [raw_frame CMD_GET MODE [0] 0 ++ inbound_frame CMD_GET MODE [1]])
        connected_session
      = Some (_on_packet_received ascii_text CMD_GET MODE [1] connected_session))
  /\ _read_loop ascii_text
       (Some [raw_frame CMD_GET MODE [0] 0 ++ inbound_frame CMD_GET MODE []])
       connected_session
     = Some (with_buffer {| buffer := inbound_frame CMD_GET MODE [] |} connected_session,
             []).
Proof.
  apply (corrupt_frame_skipped ascii_text connected_session CMD_GET MODE [0] 0
           CMD_GET MODE [1]).
  - exact connected_session_receiving.
  - vm_compute. discriminate.
Defined.

End ReceiveInstances.

(* ===================================================================== *)
(** * The session: handshake, device information, the handler's frame     *)
(* ===================================================================== *)

#[global] Hint Unfold CMD_XXX_193 CMD_XXX_176 MODEL_NAME HARDWARE_VERSION
  FIRMWARE_VERSION : bytes.

Section SessionExtras.
Import Protocol Models Device.

(** X28. After the port has been opened the session writes six frames, in
    this order: the connect command with the byte 1, the baud rate
    command with the index 5 of 115200, the requests of the model name,
    of the hardware version and of the firmware version, and the request
    of the whole state. It changes nothing of the state or the device
    information itself. *)
Theorem init_device_frames self :
  attached self ->
  exists self',
    _init_device self = (Ok tt, self')
    /\ written self'
       = written self ++
         [ [0xF1; 0xC1; 0; 1; 1; 2];
           [0xF1; 0xB0; 0; 1; 5; 6];
           [0xF1; 0xA1; 222; 0; 222];
           [0xF1; 0xA1; 223; 0; 223];
           [0xF1; 0xA1; 224; 0; 224];
           [0xF1; 0xA1; 255; 0; 255] ]
    /\ state self' = state self /\ info self' = info self.
Proof.
  intros Ha.
  destruct (send_command_attached self CMD_XXX_193 0 [1] Ha)
    as (s1 & H1 & A1 & W1 & St1 & I1 & _);
    [byte_bound | byte_bound | unfold len; simpl; lia |].
  destruct (send_command_attached s1 CMD_XXX_176 0 [5] A1)
    as (s2 & H2 & A2 & W2 & St2 & I2 & _);
    [byte_bound | byte_bound | unfold len; simpl; lia |].
  destruct (send_command_attached s2 CMD_GET MODEL_NAME [] A2)
    as (s3 & H3 & A3 & W3 & St3 & I3 & _);
    [byte_bound | byte_bound | unfold len; simpl; lia |].
  destruct (send_command_attached s3 CMD_GET HARDWARE_VERSION [] A3)
    as (s4 & H4 & A4 & W4 & St4 & I4 & _);
    [byte_bound | byte_bound | unfold len; simpl; lia |].
  destruct (send_command_attached s4 CMD_GET FIRMWARE_VERSION [] A4)
    as (s5 & H5 & A5 & W5 & St5 & I5 & _);
    [byte_bound | byte_bound | unfold len; simpl; lia |].
  destruct (send_command_attached s5 CMD_GET ALL [] A5)
    as (s6 & H6 & A6 & W6 & St6 & I6 & _);
    [byte_bound | byte_bound | unfold len; simpl; lia |].
  exists s6. split; [|split; [|split]].
  - assert (Hget : get_all s5 = (Ok (state s6), s6)).
    { unfold get_all. now rewrite (bind_ok _ _ s5 tt s6 H6). }
    unfold _init_device.
    rewrite (bind_ok _ _ self [1] self) by reflexivity.
    rewrite (bind_ok _ _ self tt s1 H1).
    rewrite (bind_ok _ _ s1 5 s1) by reflexivity.
    rewrite (bind_ok _ _ s1 [5] s1) by reflexivity.
    rewrite (bind_ok _ _ s1 tt s2 H2).
    rewrite (bind_ok _ _ s2 tt s3 H3).
    rewrite (bind_ok _ _ s3 tt s4 H4).
    rewrite (bind_ok _ _ s4 tt s5 H5).
    rewrite (bind_ok _ _ s5 (state s6) s6 Hget).
    reflexivity.
  - rewrite W6, W5, W4, W3, W2, W1. rewrite <- !app_assoc. reflexivity.
  - congruence.
  - congruence.
Qed.

Lemma init_device_frames_witness :
  exists self',
    _init_device connected_session = (Ok tt, self')
    /\ written self'
       = written connected_session ++
         [ [0xF1; 0xC1; 0; 1; 1; 2];
           [0xF1; 0xB0; 0; 1; 5; 6];
           [0xF1; 0xA1; 222; 0; 222];
           [0xF1; 0xA1; 223; 0; 223];
           [0xF1; 0xA1; 224; 0; 224];
           [0xF1; 0xA1; 255; 0; 255] ]
    /\ state self' = state connected_session /\ info self' = info connected_session.
Proof. apply (init_device_frames connected_session). exact connected_session_attached. Defined.

(** One step of [get_info]: the request of a text that is missing. *)
Lemma request_if_missing (field : DeviceInfo -> pyval) type_code self :
  attached self -> is_byte type_code ->
  exists self',
    (if falsy (field (info self))
     then _send_command CMD_GET type_code [] self else ret tt self) = (Ok tt, self')
    /\ attached self'
    /\ written self'
       = written self ++ (if falsy (field (info self))
                          then [frame HEADER_OUTPUT CMD_GET type_code []] else [])
    /\ state self' = state self /\ info self' = info self.
Proof.
  intros Ha Htype. destruct (falsy (field (info self))).
  - destruct (send_command_attached self CMD_GET type_code [] Ha)
      as (self' & Hs & Ha' & Hw & Hst & Hi & _);
      [byte_bound | exact Htype | unfold len; simpl; lia |].
    exists self'. repeat split; assumption.
  - exists self. rewrite app_nil_r. repeat split. exact Ha.
Qed.

(** X29. [get_info] asks for what is missing only. On a session that has the
    three texts it writes nothing and needs no connection; on an
    attached session it writes one request for each text that is
    missing, in the order model name, hardware version, firmware
    version, and returns the information as it is, which the requests
    have not changed. *)
Theorem get_info_requests known ready :
  falsy (model_name (info known)) = false ->
  falsy (hardware_version (info known)) = false ->
  falsy (firmware_version (info known)) = false ->
  attached ready ->
  get_info known = (Ok (info known), known)
  /\ exists ready',
       get_info ready = (Ok (info ready'), ready')
       /\ written ready' = written ready ++ info_requests (info ready)
       /\ info ready' = info ready /\ state ready' = state ready.
Proof.
  intros Hm Hh Hf Ha. split.
  - unfold get_info, bind, ret. cbn beta. rewrite Hm. cbn beta iota.
    rewrite Hh. cbn beta iota. rewrite Hf. reflexivity.
  - destruct (request_if_missing model_name MODEL_NAME ready Ha)
      as (s1 & H1 & A1 & W1 & St1 & I1); [byte_bound|].
    destruct (request_if_missing hardware_version HARDWARE_VERSION s1 A1)
      as (s2 & H2 & A2 & W2 & St2 & I2); [byte_bound|].
    destruct (request_if_missing firmware_version FIRMWARE_VERSION s2 A2)
      as (s3 & H3 & A3 & W3 & St3 & I3); [byte_bound|].
    exists s3. split; [|split; [|split]].
    + unfold get_info, bind. cbn beta. rewrite H1. cbn beta iota.
      rewrite H2. cbn beta iota. rewrite H3. reflexivity.
    + rewrite W3, W2, W1. unfold info_requests. rewrite I2, I1.
      now rewrite <- !app_assoc.
    + congruence.
    + congruence.
Qed.

Lemma get_info_requests_witness :
  get_info {| transport := None; state := DeviceState_init;
              info := {| model_name := PStr "DPS-150"; hardware_version := PStr "1.0";
                         firmware_version := PStr "1.1" |};
              _callbacks := [] |}
  = (Ok (info {| transport := None; state := DeviceState_init;
                 info := {| model_name := PStr "DPS-150"; hardware_version := PStr "1.0";
                            firmware_version := PStr "1.1" |};
                 _callbacks := [] |}),
     {| transport := None; state := DeviceState_init;
        info := {| model_name := PStr "DPS-150"; hardware_version := PStr "1.0";
                   firmware_version := PStr "1.1" |};
        _callbacks := [] |})
  /\ exists ready',
       get_info connected_session = (Ok (info ready'), ready')
       /\ written ready' = written connected_session ++ info_requests (info connected_session)
       /\ info ready' = info connected_session /\ state ready' = state connected_session.
Proof.
  apply (get_info_requests
           {| transport := None; state := DeviceState_init;
              info := {| model_name := PStr "DPS-150"; hardware_version := PStr "1.0";
                         firmware_version := PStr "1.1" |};
              _callbacks := [] |}
           connected_session).
  - reflexivity.
  - reflexivity.
  - reflexivity.
  - exact connected_session_attached.
Defined.

Variable decode_text : list Z -> string.

(** The callbacks are called on one state object, one after the other:
    each call receives the state that the callbacks before it have left,
    and the state at the end is the one that the last has left. *)
Lemma invoke_callbacks_run callbacks s :
  invoke_callbacks callbacks s
  = (run_callbacks callbacks s,
     map (fun n => run_callbacks (take n callbacks) s) (seq 0 (length callbacks))).
Proof.
  revert s. induction callbacks as [|callback callbacks IH]; intros s; [reflexivity|].
  cbn [invoke_callbacks]. rewrite IH. cbn [length]. rewrite <- cons_seq.
  rewrite <- (seq_shift (length callbacks) 0). cbn [map]. rewrite map_map.
  reflexivity.
Qed.

(** X30. When a packet parses to a dictionary, the handler updates the
    state from it and then calls the registered callbacks in the order
    of their registration, each once, on the one state object: the first
    receives the updated state, each next one the state as the callbacks
    before it have left it, and the session keeps the state that the
    last one has left. *)
Theorem callbacks_run_in_order self command type_code data d :
  _parse_packet_data decode_text type_code data = Ok (Some d) ->
  exists after,
    _on_packet_received decode_text command type_code data self
    = (after,
       map (fun n => run_callbacks (take n (_callbacks self))
                       (update_from_dict d (state self)))
           (seq 0 (length (_callbacks self))))
    /\ state after
       = run_callbacks (_callbacks self) (update_from_dict d (state self)).
Proof.
  intros Hparse. unfold _on_packet_received. rewrite Hparse.
  rewrite invoke_callbacks_run. eexists. split; reflexivity.
Qed.

End SessionExtras.

Section SessionInstances.
Import Protocol Models Device.

Lemma callbacks_run_in_order_witness :
  exists after,
    _on_packet_received ascii_text CMD_GET MODE [0]
      (on_state_update (update_from_dict {[ "volume" := PInt 2 ]})
         (on_state_update (update_from_dict {[ "volume" := PInt 1 ]}) connected_session))
    = (after,
       map (fun n =>
              run_callbacks
                (take n (_callbacks
                           (on_state_update (update_from_dict {[ "volume" := PInt 2 ]})
                              (on_state_update (update_from_dict {[ "volume" := PInt 1 ]})
                                 connected_session))))
                (update_from_dict {[ "mode" := PStr "CC" ]}
                   (state (on_state_update (update_from_dict {[ "volume" := PInt 2 ]})
                             (on_state_update (update_from_dict {[ "volume" := PInt 1 ]})
                                connected_session)))))
           (seq 0 (length (_callbacks
                             (on_state_update (update_from_dict {[ "volume" := PInt 2 ]})
                                (on_state_update (update_from_dict {[ "volume" := PInt 1 ]})
                                   connected_session))))))
    /\ state after
       = run_callbacks
           (_callbacks (on_state_update (update_from_dict {[ "volume" := PInt 2 ]})
                          (on_state_update (update_from_dict {[ "volume" := PInt 1 ]})
                             connected_session)))
           (update_from_dict {[ "mode" := PStr "CC" ]}
              (state (on_state_update (update_from_dict {[ "volume" := PInt 2 ]})
                        (on_state_update (update_from_dict {[ "volume" := PInt 1 ]})
                           connected_session)))).
Proof.
  apply (callbacks_run_in_order ascii_text
           (on_state_update (update_from_dict {[ "volume" := PInt 2 ]})
              (on_state_update (update_from_dict {[ "volume" := PInt 1 ]}) connected_session))
           CMD_GET MODE [0] {[ "mode" := PStr "CC" ]}).
  vm_compute. reflexivity.
Defined.

(** The same packet, worked out: the callback registered first sets the
    volume to 1 and the second to 2; the first call sees the volume 0 of
    the updated state, the second sees 1, and the session keeps 2. *)
Example callbacks_run_in_order_run :
  let r := _on_packet_received ascii_text CMD_GET MODE [0]
             (on_state_update (update_from_dict {[ "volume" := PInt 2 ]})
                (on_state_update (update_from_dict {[ "volume" := PInt 1 ]})
                   connected_session)) in
  map (fun s => (mode s, volume s)) (snd r) = [(CC, PInt 0); (CC, PInt 1)]
  /\ volume (state (fst r)) = PInt 2.
Proof. cbv zeta. split; vm_compute; reflexivity. Qed.

End SessionInstances.
